(** * Verification model of [main.py] (turno-penitenciario)

    Shallow embedding of the scheduling script: the CPython calendar
    helpers behind [datetime], the effects of the script (clock reads,
    browser calls, sleeps, e-mail sends) as a state monad over an
    event trace whose external answers come from an environment of
    oracles, and the script's functions in that monad. *)

From Stdlib Require Import ZArith Lia List String Ascii Bool.
Import ListNotations.
Open Scope Z_scope.

(* ------------------------------------------------------------------ *)
(** ** Calendar arithmetic, after CPython's [datetime.py] *)

Module Cal.

Definition MINYEAR : Z := 1.
Definition MAXYEAR : Z := 9999.

(** [_DAYS_IN_MONTH] and [_DAYS_BEFORE_MONTH]; index 0 holds -1. *)
Definition DAYS_IN_MONTH : list Z :=
  [-1; 31; 28; 31; 30; 31; 30; 31; 31; 30; 31; 30; 31].
Definition DAYS_BEFORE_MONTH : list Z :=
  [-1; 0; 31; 59; 90; 120; 151; 181; 212; 243; 273; 304; 334].

Definition idx (l : list Z) (i : Z) : Z := nth (Z.to_nat i) l (-1).

Definition is_leap (year : Z) : bool :=
  (year mod 4 =? 0) && (negb (year mod 100 =? 0) || (year mod 400 =? 0)).

Definition days_before_year (year : Z) : Z :=
  let y := year - 1 in y * 365 + y / 4 - y / 100 + y / 400.

Definition days_in_month (year month : Z) : Z :=
  if (month =? 2) && is_leap year then 29 else idx DAYS_IN_MONTH month.

Definition days_before_month (year month : Z) : Z :=
  idx DAYS_BEFORE_MONTH month + (if (month >? 2) && is_leap year then 1 else 0).

Definition ymd2ord (year month day : Z) : Z :=
  days_before_year year + days_before_month year month + day.

Definition DI400Y : Z := 146097.
Definition DI100Y : Z := 36524.
Definition DI4Y : Z := 1461.

(** The month lookup at the end of [_ord2ymd]: [n] is the 0-based day
    of the year; the estimate [(n + 50) >> 5] is off by at most one. *)
Definition month_day (leapyear : bool) (n : Z) : Z * Z :=
  let month := Z.shiftr (n + 50) 5 in
  let preceding := idx DAYS_BEFORE_MONTH month
                   + (if (month >? 2) && leapyear then 1 else 0) in
  if preceding >? n then
    let month := month - 1 in
    let preceding := preceding - (idx DAYS_IN_MONTH month
                       + (if (month =? 2) && leapyear then 1 else 0)) in
    (month, n - preceding + 1)
  else (month, n - preceding + 1).

(** [_ord2ymd]: ordinal (day 1 is 0001-01-01) to (year, month, day). *)
Definition ord2ymd (n0 : Z) : Z * Z * Z :=
  let n := n0 - 1 in
  let n400 := n / DI400Y in let n := n mod DI400Y in
  let year := n400 * 400 + 1 in
  let n100 := n / DI100Y in let n := n mod DI100Y in
  let n4 := n / DI4Y in let n := n mod DI4Y in
  let n1 := n / 365 in let n := n mod 365 in
  let year := year + n100 * 100 + n4 * 4 + n1 in
  if (n1 =? 4) || (n100 =? 4) then (year - 1, 12, 31)
  else
    let leapyear := (n1 =? 3) && (negb (n4 =? 24) || (n100 =? 3)) in
    let '(month, day) := month_day leapyear n in (year, month, day).

Definition valid_ymd (y m d : Z) : bool :=
  (MINYEAR <=? y) && (y <=? MAXYEAR) && (1 <=? m) && (m <=? 12)
  && (1 <=? d) && (d <=? days_in_month y m).

Definition MAXORDINAL : Z := 3652059.

(** Checks on one range [lo, lo + 2^k) by binary splitting. *)
Fixpoint all_range (f : Z -> bool) (lo : Z) (k : nat) : bool :=
  match k with
  | O => f lo
  | S k' => all_range f lo k' && all_range f (lo + 2 ^ Z.of_nat k') k'
  end.

Definition month_day_ok (leapyear : bool) (n : Z) : bool :=
  negb ((0 <=? n) && (n <? 365)) ||
  (let '(m, d) := month_day leapyear n in
   (1 <=? m) && (m <=? 12) && (1 <=? d)
   && (d <=? (if (m =? 2) && leapyear then 29 else idx DAYS_IN_MONTH m))
   && (idx DAYS_BEFORE_MONTH m + (if (m >? 2) && leapyear then 1 else 0) + d
       =? n + 1)).

End Cal.

(* ------------------------------------------------------------------ *)
(** ** Python strings: [str.split], [str.strip], [int()], [<] on [str] *)

Module Py.

Open Scope string_scope.

(** [str.split(sep)] with a one-character separator: every occurrence
    splits, so [""] gives [[""]] and ["a::b"] gives [["a"; ""; "b"]]. *)
Fixpoint split_rev (sep : ascii) (s : string) (cur : list ascii) : list string :=
  match s with
  | EmptyString => [string_of_list_ascii (rev cur)]
  | String c s' =>
      if Ascii.eqb c sep
      then string_of_list_ascii (rev cur) :: split_rev sep s' []
      else split_rev sep s' (c :: cur)
  end.

Definition split (sep : ascii) (s : string) : list string := split_rev sep s [].

(** A string of the model is a Python [str] whose code points are all
    below 256, one [ascii] character per code point.  The code points
    below 256 that [str.isspace] accepts: tab, newline, vertical tab,
    form feed, carriage return, the separators 0x1c-0x1f, space, NEL
    (0x85) and no-break space (0xa0). *)
Definition is_space (c : ascii) : bool :=
  let n := nat_of_ascii c in
  ((9 <=? n) && (n <=? 13))%nat || ((28 <=? n) && (n <=? 32))%nat
  || (n =? 133)%nat || (n =? 160)%nat.

Fixpoint lstrip (p : ascii -> bool) (l : list ascii) : list ascii :=
  match l with
  | c :: l' => if p c then lstrip p l' else l
  | [] => []
  end.

(** Both ends of [l] stripped of the characters [p] accepts. *)
Definition strip_list (p : ascii -> bool) (l : list ascii) : list ascii :=
  rev (lstrip p (rev (lstrip p l))).

(** [str.strip()]. *)
Definition strip (s : string) : string :=
  string_of_list_ascii (strip_list is_space (list_ascii_of_string s)).

(** The blanks [int()] skips around a number: it first turns non-ASCII
    whitespace (here NEL and no-break space) into spaces, then skips the
    whitespace of C's [isspace] (tab to carriage return, space); the
    separators 0x1c-0x1f are not skipped. *)
Definition is_int_space (c : ascii) : bool :=
  let n := nat_of_ascii c in
  ((9 <=? n) && (n <=? 13))%nat || (n =? 32)%nat || (n =? 133)%nat || (n =? 160)%nat.

Definition digit_value (c : ascii) : option Z :=
  let n := nat_of_ascii c in
  if ((48 <=? n) && (n <=? 57))%nat then Some (Z.of_nat n - 48) else None.

(** Digits with single underscores between them, as [int()] accepts:
    [acc] is the value so far, [us] tells that an underscore was just
    read. *)
Fixpoint parse_digits (l : list ascii) (acc : Z) (us : bool) : option Z :=
  match l with
  | [] => if us then None else Some acc
  | c :: l' =>
      if Ascii.eqb c "_" then (if us then None else parse_digits l' acc true)
      else match digit_value c with
           | Some v => parse_digits l' (acc * 10 + v) false
           | None => None
           end
  end.

Definition parse_unsigned (l : list ascii) : option Z :=
  match l with
  | c :: l' => match digit_value c with
               | Some v => parse_digits l' v false
               | None => None
               end
  | [] => None
  end.

(** [sys.get_int_max_str_digits()], the default limit on the number
    of digits [int()] converts. *)
Definition MAX_STR_DIGITS : nat := 4300.

Definition count_digits (l : list ascii) : nat :=
  List.length (filter (fun c => match digit_value c with Some _ => true | None => false end) l).

(** [int(s)] for a string in base 10; [None] is a [ValueError]: blanks
    around an optional sign and the digits, and no more than
    [MAX_STR_DIGITS] digits. *)
Definition int_of_string (s : string) : option Z :=
  let l := strip_list is_int_space (list_ascii_of_string s) in
  if (MAX_STR_DIGITS <? count_digits l)%nat then None
  else match l with
       | c :: l' => if Ascii.eqb c "-" then option_map Z.opp (parse_unsigned l')
                    else if Ascii.eqb c "+" then parse_unsigned l'
                    else parse_unsigned (c :: l')
       | [] => None
       end.

(** [str] comparison: lexicographic on code points, a proper prefix
    being smaller. *)
Fixpoint str_cmp (a b : string) : comparison :=
  match a, b with
  | EmptyString, EmptyString => Eq
  | EmptyString, String _ _ => Lt
  | String _ _, EmptyString => Gt
  | String c a', String d b' =>
      match N.compare (N_of_ascii c) (N_of_ascii d) with
      | Eq => str_cmp a' b'
      | o => o
      end
  end.

Definition str_ge (a b : string) : bool :=
  match str_cmp a b with Lt => false | _ => true end.

(** Truth value of an optional string ([None] and [""] are falsy). *)
Definition truthy (v : option string) : bool :=
  match v with None => false | Some s => negb (String.eqb s "") end.

(** [str(n)] for [n >= 0]. *)
Fixpoint dec_aux (fuel : nat) (n : Z) (acc : string) : string :=
  match fuel with
  | O => acc
  | S f =>
      let acc' := String (ascii_of_nat (48 + Z.to_nat (n mod 10))) acc in
      if Z.ltb n 10 then acc' else dec_aux f (n / 10) acc'
  end.

Definition dec (n : Z) : string := dec_aux (S (Pos.size_nat (Z.to_pos n))) n "".

(** Zero-padded decimal with exactly [w] digits, as [%02d]. *)
Fixpoint pad (w : nat) (n : Z) : string :=
  match w with
  | O => ""
  | S w' => pad w' (n / 10) ++ String (ascii_of_nat (48 + Z.to_nat (n mod 10))) ""
  end.

End Py.

(* ------------------------------------------------------------------ *)
(** ** [datetime] values in the fixed zone America/Argentina/Buenos_Aires

    A [datetime] is kept as its proleptic ordinal ([toordinal()]) and
    its time of day; [year], [month] and [day] are read back with
    [_ord2ymd].  All values of the script carry the same [tzinfo]
    object, so Python compares and subtracts them on the wall clock:
    that is [to_us] below. *)

Module DT.
Import Cal.

Record datetime := mkDT {
  ord : Z; hour : Z; minute : Z; second : Z; microsecond : Z }.

Definition year (t : datetime) : Z := let '(y, _, _) := ord2ymd (ord t) in y.
Definition month (t : datetime) : Z := let '(_, m, _) := ord2ymd (ord t) in m.
Definition day (t : datetime) : Z := let '(_, _, d) := ord2ymd (ord t) in d.

(** [date.weekday()]: Monday is 0, Wednesday is 2. *)
Definition weekday (t : datetime) : Z := (ord t + 6) mod 7.

(** Microseconds since 0001-01-01 00:00 on the wall clock. *)
Definition to_us (t : datetime) : Z :=
  (((ord t * 24 + hour t) * 60 + minute t) * 60 + second t) * 1000000
  + microsecond t.

Definition le (a b : datetime) : bool := to_us a <=? to_us b.

(** A well-formed [datetime] (what the constructor and [now()] give). *)
Definition valid (t : datetime) : Prop :=
  1 <= ord t <= MAXORDINAL /\ 0 <= hour t < 24 /\ 0 <= minute t < 60 /\
  0 <= second t < 60 /\ 0 <= microsecond t < 1000000.

Open Scope string_scope.

(** [strftime] of the directives the script uses (years 1000..9999). *)
(** [%Y] as glibc's [strftime] writes it: the year in decimal with no
    zero padding ("999", not "0999"). *)
Definition fmt_Y (y : Z) : string := Py.dec y.

Definition fmt_ymd_dash (t : datetime) : string :=      (* "%Y-%m-%d" *)
  fmt_Y (year t) ++ "-" ++ Py.pad 2 (month t) ++ "-" ++ Py.pad 2 (day t).
Definition fmt_dmy_slash (t : datetime) : string :=     (* "%d/%m/%Y" *)
  Py.pad 2 (day t) ++ "/" ++ Py.pad 2 (month t) ++ "/" ++ fmt_Y (year t).
Definition fmt_stamp (t : datetime) : string :=         (* "%Y%m%d_%H%M%S" *)
  fmt_Y (year t) ++ Py.pad 2 (month t) ++ Py.pad 2 (day t) ++ "_"
  ++ Py.pad 2 (hour t) ++ Py.pad 2 (minute t) ++ Py.pad 2 (second t).

End DT.

(* ------------------------------------------------------------------ *)
(** ** Effects of the script

    A computation runs on the trace of the effects performed so far
    (newest first) and returns an outcome: a value, a Python exception,
    or [OutOfFuel] when a [while True] loop is cut off by the model's
    fuel.  The answers of the outside world (clock, browser page, file
    system, e-mail API, environment variables) come from an [env] of
    oracles; the i-th call of a kind gets the oracle's answer at [i],
    [i] counted on the trace. *)

Module Main.
Import Cal DT.
Open Scope string_scope.
Open Scope Z_scope.

Inductive exn :=
| ValueError
| IndexError
| OverflowError
| OSError
| PlaywrightError                 (* navigation, selector or download timeout *)
| NavigationFailed (attempts : Z) (* "No se pudo cargar la pagina despues de N intentos" *)
| TooLongWait (remaining_us : Z)  (* "Demasiado tiempo de espera (...)" *)
| SendError.

Inductive outcome (A : Type) :=
| Ret (a : A)
| Raise (e : exn)
| OutOfFuel.
Arguments Ret {A} a.
Arguments Raise {A} e.
Arguments OutOfFuel {A}.

(** How the i-th [page.goto] ends: the load fails, the page loads
    without its [select] control, or the page is ready. *)
Inductive load_result := Loaded | GotoFails | NoSelect.

Inductive event :=
| ENow                                   (* datetime.now(TIMEZONE) *)
| ETime                                  (* time.time() *)
| ESleep (secs : Z)                      (* await asyncio.sleep(secs) *)
| ETimeSleep (us : Z)                    (* time.sleep(us / 10^6) *)
| EPrint (msg : string)
| EMkdir
| ELaunch                                (* playwright, chromium, context, page *)
| EClose                                 (* browser.close() *)
| EGoto (url : string)
| EWaitSelector (sel : string)
| EWaitTimeout (ms : Z)
| ESelectOption (nth : Z) (value : string) (* page.locator("select").nth(i) *)
| EFill (target : string) (value : string)
| EGetAttribute (name : string)
| EClick (button : string)               (* click inside page.expect_download *)
| ESaveAs (path : string)
| EScreenshot (path : string)
| EExists (path : string)
| EReadFile (path : string)
| ESend (to : string).                   (* resend.Emails.send *)

Record env := {
  now_at : nat -> datetime;
  time_at : nat -> Z;                    (* microseconds *)
  hora_objetivo : option string;         (* os.getenv("HORA_OBJETIVO") *)
  resend_api_key : option string;        (* RESEND_API_KEY *)
  email_destinatario : option string;    (* EMAIL_DESTINATARIO *)
  modo_test : bool;                      (* MODO_TEST *)
  page_load : nat -> load_result;
  max_attr_at : nat -> option string;    (* get_attribute("max") *)
  ui_ok : nat -> bool;                   (* the i-th page call of [is_ui] *)
  download_ok : nat -> bool;
  save_ok : nat -> bool;
  screenshot_ok : nat -> bool;
  mkdir_ok : bool;                       (* downloads_path.mkdir(exist_ok=True) *)
  launch_ok : bool;                      (* launch, new_context, new_page *)
  close_ok : bool;                       (* browser.close() *)
  file_at : string -> option string;     (* Path.exists(): Some _ if present *)
  read_at : nat -> option string;        (* the i-th open().read(), None: OSError *)
  send_ok : nat -> bool }.

Definition M (A : Type) : Type := list event -> outcome A * list event.

Definition ret {A} (a : A) : M A := fun tr => (Ret a, tr).
Definition raise {A} (e : exn) : M A := fun tr => (Raise e, tr).
Definition out_of_fuel {A} : M A := fun tr => (OutOfFuel, tr).
Definition lift {A} (o : outcome A) : M A := fun tr => (o, tr).

Definition bind {A B} (m : M A) (k : A -> M B) : M B := fun tr =>
  match m tr with
  | (Ret a, tr') => k a tr'
  | (Raise e, tr') => (Raise e, tr')
  | (OutOfFuel, tr') => (OutOfFuel, tr')
  end.

(** [try: m except Exception as e: h(e)]. *)
Definition try_catch {A} (m : M A) (h : exn -> M A) : M A := fun tr =>
  match m tr with
  | (Raise e, tr') => h e tr'
  | r => r
  end.

Notation "x <- c1 ;; c2" := (bind c1 (fun x => c2))
  (at level 61, c1 at next level, right associativity).
Notation "c1 ;; c2" := (bind c1 (fun _ => c2))
  (at level 61, right associativity).

Definition count (p : event -> bool) (tr : list event) : nat :=
  List.length (filter p tr).

Definition is_now (ev : event) : bool := match ev with ENow => true | _ => false end.
Definition is_time (ev : event) : bool := match ev with ETime => true | _ => false end.
Definition is_goto (ev : event) : bool := match ev with EGoto _ => true | _ => false end.
Definition is_get_attribute (ev : event) : bool :=
  match ev with EGetAttribute _ => true | _ => false end.
Definition is_click (ev : event) : bool := match ev with EClick _ => true | _ => false end.
Definition is_save (ev : event) : bool := match ev with ESaveAs _ => true | _ => false end.
Definition is_screenshot (ev : event) : bool :=
  match ev with EScreenshot _ => true | _ => false end.
Definition is_send (ev : event) : bool := match ev with ESend _ => true | _ => false end.
Definition is_sleep (ev : event) : bool :=
  match ev with ESleep _ | ETimeSleep _ => true | _ => false end.
Definition is_read (ev : event) : bool := match ev with EReadFile _ => true | _ => false end.

(** Page calls that wait for an element of the page and raise a
    Playwright [TimeoutError] when it is missing (or the page is gone):
    [wait_for_timeout], [select_option], [fill], [get_attribute]. *)
Definition is_ui (ev : event) : bool :=
  match ev with
  | EWaitTimeout _ | ESelectOption _ _ | EFill _ _ | EGetAttribute _ => true
  | _ => false
  end.

(** Calls on the browser. *)
Definition is_browser (ev : event) : bool :=
  match ev with
  | ELaunch | EClose | EGoto _ | EWaitSelector _ | EWaitTimeout _
  | ESelectOption _ _ | EFill _ _ | EGetAttribute _ | EClick _ | ESaveAs _
  | EScreenshot _ => true
  | _ => false
  end.

(** The seconds of every [asyncio.sleep], oldest first. *)
Definition async_sleeps (tr : list event) : list Z :=
  flat_map (fun ev => match ev with ESleep s => [s] | _ => [] end) (rev tr).

(** Constructors that may raise.  [datetime(y, m, d, hh, mm, ss)] first
    converts each argument to a C [int], raising [OverflowError] outside
    [-2^31, 2^31); a field out of its range then raises [ValueError]. *)
Definition c_int (z : Z) : bool := (-2147483648 <=? z) && (z <=? 2147483647).

Definition py_datetime (y m d hh mm ss : Z) : outcome datetime :=
  if negb (forallb c_int [y; m; d; hh; mm; ss]) then Raise OverflowError
  else if valid_ymd y m d && (0 <=? hh) && (hh <? 24) && (0 <=? mm) && (mm <? 60)
     && (0 <=? ss) && (ss <? 60)
  then Ret (mkDT (ymd2ord y m d) hh mm ss 0) else Raise ValueError.

(** [t + timedelta(days=k)]. *)
Definition add_days (t : datetime) (k : Z) : outcome datetime :=
  let o := ord t + k in
  if (1 <=? o) && (o <=? MAXORDINAL)
  then Ret (mkDT o (hour t) (minute t) (second t) (microsecond t))
  else Raise OverflowError.

Definition py_int (s : string) : outcome Z :=
  match Py.int_of_string s with Some z => Ret z | None => Raise ValueError end.

Definition py_index (l : list string) (i : nat) : outcome string :=
  match nth_error l i with Some x => Ret x | None => Raise IndexError end.

(** Module constants. *)
Definition URL : string := "https://www.santafe.gob.ar/seturnosweb/".
Definition DATOS_nombre : string := "Paola Fabiana".
Definition DATOS_apellido : string := "Veron".
Definition DATOS_documento : string := "24470091".
Definition DATOS_unidad : string := "Unidad 16, PEREZ".
Definition DATOS_menores : string := "0".
Definition TIMEOUT_TOTAL : Z := 900.
Definition MAX_ESPERA_TURNOS : Z := 300.
Definition INTERVALO_RECARGA : Z := 5.
Definition MAX_REINTENTOS_NAVEGACION : Z := 5.
Definition TIMEOUT_NAVEGACION : Z := 30000.
Definition US : Z := 1000000.   (* microseconds per second *)

Section Program.
Context (E : env).

(** *** Primitive effects *)

(** Only the script's fixed-text messages are kept as [EPrint] events
    (the fallback notice of [obtener_hora_objetivo], the immediate-return
    notice, the screenshot failure and the e-mail skip), with accents
    dropped; progress messages that format numbers and times are left
    out, as no result depends on them. *)

Definition emit (ev : event) : M unit := fun tr => (Ret tt, ev :: tr).

Definition now : M datetime := fun tr =>
  (Ret (now_at E (count is_now tr)), ENow :: tr).

Definition time_time : M Z := fun tr =>
  (Ret (time_at E (count is_time tr)), ETime :: tr).

Definition async_sleep (secs : Z) : M unit := emit (ESleep secs).
Definition time_sleep (us : Z) : M unit := emit (ETimeSleep us).
Definition print (msg : string) : M unit := emit (EPrint msg).

Definition goto (url : string) : M unit := fun tr =>
  (match page_load E (count is_goto tr) with
   | GotoFails => Raise PlaywrightError
   | _ => Ret tt
   end, EGoto url :: tr).

(** Waits for a control of the page loaded by the last [goto]. *)
Definition wait_for_selector (sel : string) : M unit := fun tr =>
  (match page_load E (count is_goto tr - 1) with
   | Loaded => Ret tt
   | _ => Raise PlaywrightError
   end, EWaitSelector sel :: tr).

(** A page call of [is_ui]: it succeeds or raises a [TimeoutError]. *)
Definition ui_call (ev : event) : M unit := fun tr =>
  (if ui_ok E (count is_ui tr) then Ret tt else Raise PlaywrightError, ev :: tr).

Definition wait_for_timeout (ms : Z) : M unit := ui_call (EWaitTimeout ms).
Definition select_option (nth : Z) (value : string) : M unit :=
  ui_call (ESelectOption nth value).
Definition fill (target value : string) : M unit := ui_call (EFill target value).

Definition get_attribute (name : string) : M (option string) := fun tr =>
  (if ui_ok E (count is_ui tr) then Ret (max_attr_at E (count is_get_attribute tr))
   else Raise PlaywrightError, EGetAttribute name :: tr).

(** [async with page.expect_download(timeout=15000): await btn.click()]
    followed by [await download_info.value]. *)
Definition click_expect_download (button : string) : M unit := fun tr =>
  (if download_ok E (count is_click tr) then Ret tt else Raise PlaywrightError,
   EClick button :: tr).

Definition save_as (path : string) : M unit := fun tr =>
  (if save_ok E (count is_save tr) then Ret tt else Raise OSError, ESaveAs path :: tr).

Definition screenshot (path : string) : M unit := fun tr =>
  (if screenshot_ok E (count is_screenshot tr) then Ret tt else Raise PlaywrightError,
   EScreenshot path :: tr).

Definition path_exists (path : string) : M bool := fun tr =>
  (Ret (match file_at E path with Some _ => true | None => false end),
   EExists path :: tr).

Definition read_file (path : string) : M string := fun tr =>
  (match read_at E (count is_read tr) with Some c => Ret c | None => Raise OSError end,
   EReadFile path :: tr).

(** [downloads_path.mkdir(exist_ok=True)]: [FileExistsError] when a
    file that is not a directory has the name, [PermissionError], ... *)
Definition mkdir : M unit := fun tr =>
  (if mkdir_ok E then Ret tt else Raise OSError, EMkdir :: tr).

(** [async_playwright()], [chromium.launch], [new_context], [new_page]. *)
Definition launch : M unit := fun tr =>
  (if launch_ok E then Ret tt else Raise PlaywrightError, ELaunch :: tr).

Definition browser_close : M unit := fun tr =>
  (if close_ok E then Ret tt else Raise PlaywrightError, EClose :: tr).

Definition resend_send (to : string) : M unit := fun tr =>
  (if send_ok E (count is_send tr) then Ret tt else Raise SendError, ESend to :: tr).

(** *** [calcular_proximo_miercoles] *)

Definition calcular_proximo_miercoles : M datetime :=
  ahora <- now ;;
  let dias_hasta_miercoles := (2 - weekday ahora) mod 7 in
  let dias_hasta_miercoles :=
    if dias_hasta_miercoles =? 0 then 7 else dias_hasta_miercoles in
  lift (add_days ahora dias_hasta_miercoles).

(** *** [obtener_hora_objetivo] *)

(** The body of the [try] block on an override string. *)
Definition hora_override (hora_objetivo_env : string) (ahora : datetime) : M datetime :=
  let partes := Py.split ":" hora_objetivo_env in
  p0 <- lift (py_index partes 0) ;; hora <- lift (py_int p0) ;;
  p1 <- lift (py_index partes 1) ;; minuto <- lift (py_int p1) ;;
  segundo <- (if (3 <=? List.length partes)%nat
              then p2 <- lift (py_index partes 2) ;; lift (py_int p2)
              else ret 0) ;;
  objetivo <- lift (py_datetime (year ahora) (month ahora) (day ahora)
                                hora minuto segundo) ;;
  if le objetivo ahora then lift (add_days objetivo 1) else ret objetivo.

(** The default target, 00:00:01. *)
Definition hora_default (ahora : datetime) : M datetime :=
  if 12 <=? hour ahora then
    manana <- lift (add_days ahora 1) ;;
    lift (py_datetime (year manana) (month manana) (day manana) 0 0 1)
  else lift (py_datetime (year ahora) (month ahora) (day ahora) 0 0 1).

Definition obtener_hora_objetivo : M datetime :=
  ahora <- now ;;
  match hora_objetivo E with
  | Some s =>
      if Py.truthy (Some s) then
        r <- try_catch (o <- hora_override s ahora ;; ret (Some o))
               (fun e => match e with
                         | ValueError =>
                             print ("HORA_OBJETIVO invalida: " ++ s ++ ", usando medianoche") ;;
                             ret None
                         | _ => raise e
                         end) ;;
        match r with Some o => ret o | None => hora_default ahora end
      else hora_default ahora
  | None => hora_default ahora
  end.

(** *** [esperar_hasta_hora_objetivo] *)

(** [(objetivo - ahora).total_seconds()], in microseconds. *)
Definition remaining_us (objetivo ahora : datetime) : Z := to_us objetivo - to_us ahora.

(** Coarse wait, down to 2 seconds before the target. *)
Fixpoint espera_gruesa (fuel : nat) (objetivo : datetime) : M unit :=
  match fuel with
  | O => out_of_fuel
  | S f =>
      ahora <- now ;;
      let segundos_restantes := remaining_us objetivo ahora in
      if segundos_restantes <=? 2 * US then ret tt
      else if 10 * US <? segundos_restantes
      then time_sleep (5 * US) ;; espera_gruesa f objetivo
      else time_sleep (US / 2) ;; espera_gruesa f objetivo
  end.

(** Fine wait, in steps of 10 ms. *)
Fixpoint espera_fina (fuel : nat) (objetivo : datetime) : M unit :=
  match fuel with
  | O => out_of_fuel
  | S f =>
      ahora <- now ;;
      if le objetivo ahora then ret tt
      else time_sleep (US / 100) ;; espera_fina f objetivo
  end.

Definition esperar_hasta_hora_objetivo (fuel : nat) : M unit :=
  objetivo <- obtener_hora_objetivo ;;
  ahora <- now ;;
  let segundos_restantes := remaining_us objetivo ahora in
  if segundos_restantes <=? 0 then print "Ya paso la hora objetivo, ejecutando inmediatamente..."
  else if 300 * US <? segundos_restantes then raise (TooLongWait segundos_restantes)
  else espera_gruesa fuel objetivo ;; espera_fina fuel objetivo.

(** *** [navegar_con_reintentos] *)

(** [for intento in range(intento, max_reintentos + 1)], [k] iterations left. *)
Fixpoint nav_loop (url : string) (max_reintentos intento : Z) (k : nat) : M (option bool) :=
  match k with
  | O => ret None
  | S k' =>
      try_catch
        (goto url ;; wait_for_selector "select" ;; ret (Some true))
        (fun _ =>
           if intento <? max_reintentos then
             async_sleep (Z.min (2 ^ intento) 15) ;;
             nav_loop url max_reintentos (intento + 1) k'
           else raise (NavigationFailed max_reintentos))
  end.

(** Returns [True] ([Some true]) or, when the loop runs out, [None]. *)
Definition navegar_con_reintentos (url : string) (max_reintentos : Z) : M (option bool) :=
  nav_loop url max_reintentos 1 (Z.to_nat max_reintentos).

Definition cargar_pagina_y_seleccionar_unidad : M unit :=
  _ <- navegar_con_reintentos URL MAX_REINTENTOS_NAVEGACION ;;
  wait_for_timeout 1000 ;;
  select_option 0 DATOS_unidad ;;
  wait_for_timeout 500.

(** *** [preparar_formulario] *)

Definition preparar_formulario (fecha_visita : datetime) : M string :=
  fill "Nombre*" DATOS_nombre ;;
  fill "Apellido*" DATOS_apellido ;;
  let fecha_str := fmt_dmy_slash fecha_visita in
  fill "input[type='date']" (fmt_ymd_dash fecha_visita) ;;
  fill "DOCUMENTO*" DATOS_documento ;;
  select_option 1 DATOS_menores ;;
  ret fecha_str.

(** *** [esperar_turnos_disponibles] *)

(** What one pass of the [while True] body ends with. *)
Inductive step (A : Type) := Done (a : A) | Again.
Arguments Done {A} a.
Arguments Again {A}.

(** The date is selectable: no [max] or [max >= fecha_objetivo]. *)
Definition fecha_permitida (max_attr : option string) (fecha_objetivo : string) : bool :=
  match max_attr with
  | None => true
  | Some m => Py.str_ge m fecha_objetivo
  end.

Definition poll_body (inicio : Z) (fecha_objetivo : string) : M (step bool) :=
  cargar_pagina_y_seleccionar_unidad ;;
  max_attr <- get_attribute "max" ;;
  if fecha_permitida max_attr fecha_objetivo then ret (Done true)
  else
    t <- time_time ;;
    let transcurrido := t - inicio in
    if MAX_ESPERA_TURNOS * US <=? transcurrido then ret (Done false)
    else async_sleep INTERVALO_RECARGA ;; ret Again.

Fixpoint poll_loop (fuel : nat) (inicio : Z) (fecha_objetivo : string) : M bool :=
  match fuel with
  | O => out_of_fuel
  | S f =>
      s <- poll_body inicio fecha_objetivo ;;
      match s with
      | Done b => ret b
      | Again => poll_loop f inicio fecha_objetivo
      end
  end.

Definition esperar_turnos_disponibles (fuel : nat) (fecha_visita : datetime) : M bool :=
  inicio <- time_time ;;
  poll_loop fuel inicio (fmt_ymd_dash fecha_visita).

(** *** [enviar_formulario_con_reintentos] *)

(** The [try] block: click, wait for the download, save it. *)
Definition attempt_submit : M string :=
  _ <- now ;;
  click_expect_download "Generar Turno" ;;
  ahora <- now ;;
  let pdf_path := "downloads/turno_" ++ fmt_stamp ahora ++ ".pdf" in
  save_as pdf_path ;;
  ret pdf_path.

(** The [except] block: [Done r] returns [r], [Again] loops. *)
Definition after_failure (inicio intento : Z) (fecha_visita : datetime)
  : M (step (option string)) :=
  ahora <- now ;;
  let screenshot_path :=
    "downloads/error_intento" ++ Py.dec intento ++ "_" ++ fmt_stamp ahora ++ ".png" in
  try_catch (screenshot screenshot_path) (fun _ => print "No se pudo guardar screenshot") ;;
  t <- time_time ;;
  if t - inicio <? TIMEOUT_TOTAL * US then
    async_sleep (Z.min (2 ^ Z.min intento 4) 15) ;;
    cargar_pagina_y_seleccionar_unidad ;;
    _ <- preparar_formulario fecha_visita ;;
    ret Again
  else ret (Done None).

Fixpoint submit_loop (fuel : nat) (inicio intento : Z) (fecha_visita : datetime)
  : M (option string) :=
  match fuel with
  | O => out_of_fuel
  | S f =>
      let intento := intento + 1 in
      t <- time_time ;;
      let transcurrido := t - inicio in
      if TIMEOUT_TOTAL * US <=? transcurrido then ret None
      else
        s <- try_catch (p <- attempt_submit ;; ret (Done (Some p)))
                       (fun _ => after_failure inicio intento fecha_visita) ;;
        match s with
        | Done r => ret r
        | Again => submit_loop f inicio intento fecha_visita
        end
  end.

Definition enviar_formulario_con_reintentos (fuel : nat) (fecha_visita : datetime)
  : M (option string) :=
  inicio <- time_time ;;
  submit_loop fuel inicio 0 fecha_visita.

(** *** [enviar_email] *)

Fixpoint send_all (destinatarios : list string) (exitos : Z) : M Z :=
  match destinatarios with
  | [] => ret exitos
  | d :: ds =>
      ok <- try_catch (resend_send d ;; ret true) (fun _ => ret false) ;;
      send_all ds (if ok then exitos + 1 else exitos)
  end.

Definition enviar_email (pdf_path fecha_visita : string) : M bool :=
  let saltar :=
    print "RESEND_API_KEY o EMAIL_DESTINATARIO no configurados, saltando envio de email" ;;
    ret false in
  if negb (Py.truthy (resend_api_key E)) then saltar
  else match email_destinatario E with
       | None => saltar
       | Some dest =>
           if String.eqb dest "" then saltar
           else
             _ <- read_file pdf_path ;;
             exitos <- send_all (map Py.strip (Py.split "," dest)) 0 ;;
             ret (0 <? exitos)
       end.

(** *** [run] *)

Definition run (fuel : nat) : M (option string) :=
  mkdir ;;
  fecha_visita <- calcular_proximo_miercoles ;;
  (if modo_test E then ret tt else esperar_hasta_hora_objetivo fuel) ;;
  launch ;;
  turnos_listos <- esperar_turnos_disponibles fuel fecha_visita ;;
  if negb turnos_listos then browser_close ;; ret None
  else
    fecha_str <- preparar_formulario fecha_visita ;;
    pdf_path <- enviar_formulario_con_reintentos fuel fecha_visita ;;
    browser_close ;;
    match pdf_path with
    | Some p =>
        ex <- path_exists p ;;
        (if ex then _ <- enviar_email p fecha_str ;; ret tt else ret tt) ;;
        ret pdf_path
    | None => ret None
    end.

End Program.
End Main.

(* ------------------------------------------------------------------ *)
(** ** Concrete scenarios *)

Module Scenarios.
Import Cal DT Main.
Open Scope string_scope.
Open Scope Z_scope.

Definition at_ymd (y m d hh mm ss : Z) : datetime := mkDT (ymd2ord y m d) hh mm ss 0.

(** A quiet world: every page loads, no [max] restriction, downloads
    fail, no e-mail configuration; the clocks are given. *)
Definition world (nows : nat -> datetime) (times : nat -> Z) (hora : option string) : env :=
  {| now_at := nows; time_at := times; hora_objetivo := hora;
     resend_api_key := None; email_destinatario := None; modo_test := false;
     page_load := fun _ => Loaded; max_attr_at := fun _ => None; ui_ok := fun _ => true;
     download_ok := fun _ => false; save_ok := fun _ => true;
     screenshot_ok := fun _ => true; mkdir_ok := true; launch_ok := true;
     close_ok := true; file_at := fun _ => None; read_at := fun _ => None;
     send_ok := fun _ => true |}.

(** The back-off delays [min(2 ** i, 15)] for [i = i0 .. i0 + n - 1]. *)
Definition backoffs (i0 : Z) (n : nat) : list Z :=
  map (fun j => Z.min (2 ^ (i0 + Z.of_nat j)) 15) (seq 0 n).

(** Friday 9999-12-31, noon: the last day [datetime] can hold. *)
Definition env_last_day : env :=
  world (fun _ => at_ymd 9999 12 31 12 0 0) (fun _ => 0) None.

(** Page loads by index: the first [n] fail, the later ones succeed. *)
Definition loads_after (n : nat) : nat -> load_result :=
  fun i => if (i <? n)%nat then GotoFails else Loaded.

Definition env_loads (n : nat) : env :=
  {| now_at := fun _ => at_ymd 2026 2 16 10 0 0; time_at := fun _ => 0;
     hora_objetivo := None; resend_api_key := None; email_destinatario := None;
     modo_test := false; page_load := loads_after n; max_attr_at := fun _ => None; ui_ok := fun _ => true;
     download_ok := fun _ => false; save_ok := fun _ => true;
     screenshot_ok := fun _ => true; mkdir_ok := true; launch_ok := true;
     close_ok := true; file_at := fun _ => None; read_at := fun _ => None;
     send_ok := fun _ => true |}.

(** The [max] attribute reads "2026-02-18" once, then is absent; the
    clock reads 0 s, then 300 s. *)
Definition env_budget : env :=
  {| now_at := fun _ => at_ymd 2026 2 16 10 0 0;
     time_at := fun i => if (i =? 0)%nat then 0 else 300 * US;
     hora_objetivo := None; resend_api_key := None; email_destinatario := None;
     modo_test := false; page_load := fun _ => Loaded;
     max_attr_at := fun i => if (i =? 0)%nat then Some "2026-02-18" else None; ui_ok := fun _ => true;
     download_ok := fun _ => false; save_ok := fun _ => true;
     screenshot_ok := fun _ => true; mkdir_ok := true; launch_ok := true;
     close_ok := true; file_at := fun _ => None; read_at := fun _ => None;
     send_ok := fun _ => true |}.

(** The [max] attribute reads "2026-02-18" twice, then "2026-02-25";
    the clock advances 5 s per read. *)
Definition env_third_read : env :=
  {| now_at := fun _ => at_ymd 2026 2 16 10 0 0;
     time_at := fun i => Z.of_nat i * 5 * US;
     hora_objetivo := None; resend_api_key := None; email_destinatario := None;
     modo_test := false; page_load := fun _ => Loaded;
     max_attr_at := fun i => if (i <? 2)%nat then Some "2026-02-18" else Some "2026-02-25"; ui_ok := fun _ => true;
     download_ok := fun _ => false; save_ok := fun _ => true;
     screenshot_ok := fun _ => true; mkdir_ok := true; launch_ok := true;
     close_ok := true; file_at := fun _ => None; read_at := fun _ => None;
     send_ok := fun _ => true |}.

(** Every download fails; each [time.time()] reading is 20 s after the
    previous one. *)
Definition env_slow_clock : env :=
  world (fun _ => at_ymd 2026 2 18 0 0 1) (fun i => Z.of_nat i * 20 * US) None.

(** Monday 2026-02-16, 10:00, with the override " 09:30 ". *)
Definition env_override : env :=
  world (fun _ => at_ymd 2026 2 16 10 0 0) (fun _ => 0) (Some " 09:30 ").

(** Monday 2026-02-16, 10:00, with the override "12" (no minutes). *)
Definition env_hora_12 : env :=
  world (fun _ => at_ymd 2026 2 16 10 0 0) (fun _ => 0) (Some "12").

(** The clock reads 23:55:00 (target 00:00:01 of the next day), then
    23:55:01 (300 s left), then 23:58:00, then 00:00:02. *)
Definition env_exact_ceiling : env :=
  world (fun i => match i with
                  | O => at_ymd 2026 2 17 23 55 0
                  | S O => at_ymd 2026 2 17 23 55 1
                  | S (S O) => at_ymd 2026 2 17 23 58 0
                  | _ => at_ymd 2026 2 18 0 0 2
                  end) (fun _ => 0) None.

(** Tuesday 2026-02-17 at 23:00, an hour before the target. *)
Definition env_early : env :=
  world (fun _ => at_ymd 2026 2 17 23 0 0) (fun _ => 0) None.

(** Test mode on 2026-02-16 at 10:00: every page loads and already
    allows 2026-02-25, downloads work, every file exists, mail is
    configured for two recipients and only the first send succeeds. *)
Definition env_mail : env :=
  {| now_at := fun _ => at_ymd 2026 2 16 10 0 0; time_at := fun _ => 0;
     hora_objetivo := None; resend_api_key := Some "re_123";
     email_destinatario := Some "a@example.com, b@example.com";
     modo_test := true; page_load := fun _ => Loaded;
     max_attr_at := fun _ => Some "2026-02-25"; ui_ok := fun _ => true;
     download_ok := fun _ => true; save_ok := fun _ => true;
     screenshot_ok := fun _ => true; mkdir_ok := true; launch_ok := true;
     close_ok := true; file_at := fun _ => Some "%PDF"; read_at := fun _ => Some "%PDF";
     send_ok := fun i => (i =? 0)%nat |}.

End Scenarios.

(* ------------------------------------------------------------------ *)
(** ** Trace properties *)

Module Props.
Import Cal DT Main.
Open Scope Z_scope.
Open Scope list_scope.

(** [m] only adds events, all satisfying [P], in front of the trace. *)
Definition emits {A} (P : event -> bool) (m : M A) : Prop :=
  forall tr, exists new, snd (m tr) = new ++ tr /\ forallb P new = true.

(** The events of [esperar_hasta_hora_objetivo]: clock reads, prints and
    [time.sleep] of 5 s, 0.5 s or 10 ms. *)
Definition wait_event (ev : event) : bool :=
  match ev with
  | ENow | EPrint _ => true
  | ETimeSleep us => (us =? 5 * US) || (us =? US / 2) || (us =? US / 100)
  | _ => false
  end.

(** Every exception [m] lets out satisfies [S]. *)
Definition raises_only {A} (S : exn -> Prop) (m : M A) : Prop :=
  forall tr e, fst (m tr) = Raise e -> S e.

(** The number of successful sends among the send attempts numbered
    [n], ..., [n + k - 1]. *)
Fixpoint sent_ok (E : env) (n k : nat) : Z :=
  match k with
  | O => 0
  | S k => (if send_ok E n then 1 else 0) + sent_ok E (S n) k
  end.

(** The events of [esperar_turnos_disponibles]: loads of [URL], the
    unit selection, reads of [max], clock reads and sleeps. *)
Definition poll_event (ev : event) : bool :=
  match ev with
  | ETime | EWaitSelector _ | ESleep _ | EWaitTimeout _ => true
  | EGoto u => String.eqb u URL
  | ESelectOption n v => (n =? 0) && String.eqb v DATOS_unidad
  | EGetAttribute a => String.eqb a "max"
  | _ => false
  end.

(** The events of [navegar_con_reintentos url]. *)
Definition nav_event (url : string) (ev : event) : bool :=
  match ev with
  | EGoto u => String.eqb u url
  | EWaitSelector s => String.eqb s "select"
  | ESleep _ => true
  | _ => false
  end.

Definition any_event (ev : event) : bool := true.

(** The events [enviar_email] can emit. *)
Definition email_event (ev : event) : bool :=
  match ev with
  | EPrint _ | EReadFile _ | ESend _ => true
  | _ => false
  end.

(** Lexicographic comparison of (year, month, day) triples. *)
Definition lex3 (y m d y' m' d' : Z) : comparison :=
  match Z.compare y y' with
  | Eq => match Z.compare m m' with Eq => Z.compare d d' | o => o end
  | o => o
  end.


End Props.

(* ------------------------------------------------------------------ *)
(** ** Calendar lemmas *)

Module CalFacts.
Import Cal.

Lemma all_range_spec (f : Z -> bool) (k : nat) :
  forall lo, all_range f lo k = true ->
  forall i, lo <= i < lo + 2 ^ Z.of_nat k -> f i = true.
Proof.
  induction k as [|k IH]; intros lo H i Hi; simpl in H.
  - change (2 ^ Z.of_nat 0) with 1 in Hi. replace i with lo by lia. exact H.
  - apply andb_prop in H as [H1 H2].
    rewrite Nat2Z.inj_succ, Z.pow_succ_r in Hi by lia.
    destruct (Z.lt_ge_cases i (lo + 2 ^ Z.of_nat k)).
    + apply (IH lo H1); lia.
    + apply (IH _ H2); lia.
Qed.

Lemma month_table (L : bool) : all_range (month_day_ok L) 0 9 = true.
Proof. destruct L; vm_compute; reflexivity. Qed.

Lemma month_day_spec (L : bool) (n : Z) :
  0 <= n < 365 ->
  let '(m, d) := month_day L n in
  1 <= m <= 12 /\ 1 <= d /\
  d <= (if (m =? 2) && L then 29 else idx DAYS_IN_MONTH m) /\
  idx DAYS_BEFORE_MONTH m + (if (m >? 2) && L then 1 else 0) + d = n + 1.
Proof.
  intros Hn.
  pose proof (all_range_spec _ _ _ (month_table L) n ltac:(simpl; lia)) as H.
  unfold month_day_ok in H.
  replace (negb ((0 <=? n) && (n <? 365))) with false in H
    by (symmetry; apply negb_false_iff, andb_true_iff; split; apply Z.leb_le || apply Z.ltb_lt; lia).
  simpl in H. destruct (month_day L n) as [m d].
  repeat rewrite andb_true_iff in H. rewrite !Z.leb_le, Z.eqb_eq in H.
  lia.
Qed.

Ltac zarith := Z.div_mod_to_equations; lia.

Lemma is_leap_cycle (a b c e : Z) :
  0 <= b <= 3 -> 0 <= c <= 24 -> 0 <= e <= 3 ->
  is_leap (a * 400 + 1 + b * 100 + c * 4 + e) =
  (e =? 3) && (negb (c =? 24) || (b =? 3)).
Proof.
  intros Hb Hc He. unfold is_leap.
  destruct (Z.eqb_spec e 3), (Z.eqb_spec c 24), (Z.eqb_spec b 3); simpl;
  repeat match goal with
         | |- context [?x mod ?k =? 0] => destruct (Z.eqb_spec (x mod k) 0)
         end; simpl; try reflexivity; exfalso; zarith.
Qed.

Lemma is_leap_true (y : Z) :
  y mod 4 = 0 -> (y mod 100 <> 0 \/ y mod 400 = 0) -> is_leap y = true.
Proof.
  intros H4 H.
  unfold is_leap. rewrite H4. simpl.
  destruct H as [H|H].
  - destruct (Z.eqb_spec (y mod 100) 0); [contradiction|reflexivity].
  - rewrite H, orb_true_r. reflexivity.
Qed.

(** CPython's [_ord2ymd] inverts [_ymd2ord]: every ordinal [n >= 1]
    names a well-formed date whose ordinal is [n]. *)
Lemma ord2ymd_spec (n : Z) :
  1 <= n ->
  let '(y, m, d) := ord2ymd n in
  1 <= y /\ 1 <= m <= 12 /\ 1 <= d <= days_in_month y m /\
  ymd2ord y m d = n /\ (n <= MAXORDINAL -> y <= MAXYEAR).
Proof.
  intros Hn. unfold ord2ymd, DI400Y, DI100Y, DI4Y.
  pose proof (Z.div_mod (n - 1) 146097 ltac:(lia)) as E1.
  pose proof (Z.mod_pos_bound (n - 1) 146097 ltac:(lia)) as B1.
  set (a := (n - 1) / 146097) in *. set (N1 := (n - 1) mod 146097) in *.
  pose proof (Z.div_mod N1 36524 ltac:(lia)) as E2.
  pose proof (Z.mod_pos_bound N1 36524 ltac:(lia)) as B2.
  set (b := N1 / 36524) in *. set (N2 := N1 mod 36524) in *.
  pose proof (Z.div_mod N2 1461 ltac:(lia)) as E3.
  pose proof (Z.mod_pos_bound N2 1461 ltac:(lia)) as B3.
  set (c := N2 / 1461) in *. set (N3 := N2 mod 1461) in *.
  pose proof (Z.div_mod N3 365 ltac:(lia)) as E4.
  pose proof (Z.mod_pos_bound N3 365 ltac:(lia)) as B4.
  set (e := N3 / 365) in *. set (r := N3 mod 365) in *.
  assert (0 <= a) by (apply Z.div_pos; lia).
  assert (0 <= b) by (apply Z.div_pos; lia).
  assert (0 <= c) by (apply Z.div_pos; lia).
  assert (0 <= e) by (apply Z.div_pos; lia).
  assert (b <= 4) by lia. assert (c <= 24) by lia. assert (e <= 4) by lia.
  clearbody a N1 b N2 c N3 e r.
  destruct (Z.eqb_spec e 4) as [He4|He4], (Z.eqb_spec b 4) as [Hb4|Hb4]; simpl.
  1-3:
    assert (HL : is_leap (a * 400 + 1 + b * 100 + c * 4 + e - 1) = true)
      by (apply is_leap_true; zarith);
    unfold days_in_month, ymd2ord, days_before_month; rewrite HL; simpl;
    change (idx DAYS_IN_MONTH 12) with 31;
    unfold days_before_year, MAXORDINAL, MAXYEAR; repeat split; zarith.
  assert (HL := is_leap_cycle a b c e ltac:(lia) ltac:(lia) ltac:(lia)).
  set (L := (e =? 3) && (negb (c =? 24) || (b =? 3))) in *.
  pose proof (month_day_spec L r ltac:(lia)) as HM.
  destruct (month_day L r) as [m d].
  unfold days_in_month, ymd2ord, days_before_month. rewrite HL.
  unfold days_before_year, MAXORDINAL, MAXYEAR. repeat split; zarith.
Qed.
End CalFacts.

(* ------------------------------------------------------------------ *)
(** ** Facts about the effects *)

Module MainFacts.
Import Cal DT Main Scenarios.
Open Scope Z_scope.
Open Scope list_scope.

#[global] Arguments count : simpl never.

Lemma count_cons (p : event -> bool) (ev : event) (l : list event) :
  count p (ev :: l) = if p ev then S (count p l) else count p l.
Proof. unfold count. simpl. destruct (p ev); reflexivity. Qed.

Lemma count_app (p : event -> bool) (l1 l2 : list event) :
  count p (l1 ++ l2) = (count p l1 + count p l2)%nat.
Proof. unfold count. rewrite filter_app, length_app. reflexivity. Qed.

Lemma async_sleeps_app (l1 l2 : list event) :
  async_sleeps (l1 ++ l2) = async_sleeps l2 ++ async_sleeps l1.
Proof. unfold async_sleeps. rewrite rev_app_distr, flat_map_app. reflexivity. Qed.

(** One page load that succeeds at its first attempt. *)
Lemma nav_loop_first_ok (E : env) (url : string) (mx i : Z) (k : nat) (tr : list event) :
  page_load E (count is_goto tr) = Loaded ->
  nav_loop E url mx i (S k) tr =
    (Ret (Some true), EWaitSelector "select" :: EGoto url :: tr).
Proof.
  intros H. simpl. unfold try_catch, bind, goto, wait_for_selector, ret.
  rewrite H, count_cons. simpl. rewrite Nat.sub_0_r, H. reflexivity.
Qed.

(** A failed attempt leaves one [goto] (and maybe one selector wait). *)
Lemma attempt_fails (E : env) (url : string) (tr : list event) :
  page_load E (count is_goto tr) <> Loaded ->
  exists tr1 e, (goto E url ;; wait_for_selector E "select" ;; ret (Some true)) tr
                = (Raise e, tr1) /\
    (tr1 = EGoto url :: tr \/ tr1 = EWaitSelector "select" :: EGoto url :: tr).
Proof.
  intros H. unfold bind, goto, wait_for_selector, ret.
  destruct (page_load E (count is_goto tr)) eqn:Hp; [congruence| |].
  - do 2 eexists. split; [reflexivity|]. left; reflexivity.
  - rewrite count_cons. simpl. rewrite Nat.sub_0_r, Hp.
    do 2 eexists. split; [reflexivity|]. right; reflexivity.
Qed.

Lemma ui_call_ok (E : env) (ev : event) (tr : list event) :
  ui_ok E (count is_ui tr) = true -> ui_call E ev tr = (Ret tt, ev :: tr).
Proof. intros H. unfold ui_call. rewrite H. reflexivity. Qed.

Lemma cargar_ok (E : env) (tr : list event) :
  page_load E (count is_goto tr) = Loaded ->
  (forall j, (j < 3)%nat -> ui_ok E (count is_ui tr + j) = true) ->
  cargar_pagina_y_seleccionar_unidad E tr =
    (Ret tt, [EWaitTimeout 500; ESelectOption 0 DATOS_unidad; EWaitTimeout 1000;
              EWaitSelector "select"; EGoto URL] ++ tr).
Proof.
  intros H Hu. unfold cargar_pagina_y_seleccionar_unidad, navegar_con_reintentos.
  unfold bind at 1. change (Z.to_nat MAX_REINTENTOS_NAVEGACION) with 5%nat.
  rewrite (nav_loop_first_ok E URL MAX_REINTENTOS_NAVEGACION 1 4 tr H).
  cbv beta iota. unfold wait_for_timeout, select_option.
  pose proof (Hu 0%nat ltac:(lia)) as H0. pose proof (Hu 1%nat ltac:(lia)) as H1.
  pose proof (Hu 2%nat ltac:(lia)) as H2.
  unfold bind at 1. rewrite ui_call_ok
    by (rewrite !count_cons; cbn [is_ui]; rewrite Nat.add_0_r in H0; exact H0).
  unfold bind at 1. rewrite ui_call_ok
    by (rewrite !count_cons; cbn [is_ui]; rewrite Nat.add_1_r in H1; exact H1).
  rewrite ui_call_ok
    by (rewrite !count_cons; cbn [is_ui];
        replace (count is_ui tr + 2)%nat with (S (S (count is_ui tr))) in H2 by lia; exact H2).
  reflexivity.
Qed.

Lemma backoffs_S (i0 : Z) (n : nat) :
  backoffs i0 (S n) = Z.min (2 ^ i0) 15 :: backoffs (i0 + 1) n.
Proof.
  unfold backoffs. simpl. rewrite Z.add_0_r. f_equal.
  rewrite <- seq_shift, map_map. apply map_ext. intros j. f_equal. f_equal. lia.
Qed.

Lemma count_nil (p : event -> bool) : count p [] = 0%nat.
Proof. reflexivity. Qed.

Ltac count_simpl := repeat rewrite count_cons; rewrite ?count_nil; cbn [is_goto is_time is_now is_click
  is_get_attribute is_sleep is_send is_read is_save is_screenshot is_ui] in *.

(** [N] failed loads, then a successful one, within the bound. *)
Lemma nav_loop_success (E : env) (url : string) (mx : Z) (N : nat) :
  forall i k tr,
  (forall j, (j < N)%nat -> page_load E (count is_goto tr + j) <> Loaded) ->
  page_load E (count is_goto tr + N) = Loaded ->
  i + Z.of_nat N <= mx -> (N < k)%nat ->
  exists new, nav_loop E url mx i k tr = (Ret (Some true), new ++ tr) /\
    count is_goto new = S N /\ async_sleeps new = backoffs i N.
Proof.
  induction N as [|N IH]; intros i k tr Hf Hok Hmx Hk.
  - destruct k as [|k]; [lia|]. rewrite Nat.add_0_r in Hok.
    rewrite (nav_loop_first_ok E url mx i k tr Hok).
    exists [EWaitSelector "select"; EGoto url]%string. repeat split.
  - destruct k as [|k]; [lia|].
    assert (H0 : page_load E (count is_goto tr) <> Loaded)
      by (rewrite <- (Nat.add_0_r (count is_goto tr)); apply Hf; lia).
    destruct (attempt_fails E url tr H0) as [tr1 [e [Ha Htr1]]].
    cbn [nav_loop]. unfold try_catch at 1. rewrite Ha.
    replace (i <? mx) with true by (symmetry; apply Z.ltb_lt; lia).
    unfold bind at 1, async_sleep, emit.
    set (tr2 := ESleep (Z.min (2 ^ i) 15) :: tr1).
    assert (Hg : count is_goto tr2 = S (count is_goto tr))
      by (unfold tr2; destruct Htr1 as [-> | ->]; count_simpl; reflexivity).
    destruct (IH (i + 1) k tr2) as [new [Hr [Hc Hs]]].
    + intros j Hj. rewrite Hg.
      replace (S (count is_goto tr) + j)%nat with (count is_goto tr + S j)%nat by lia.
      apply Hf. lia.
    + rewrite Hg.
      replace (S (count is_goto tr) + N)%nat with (count is_goto tr + S N)%nat by lia.
      exact Hok.
    + lia.
    + lia.
    + rewrite Hr. unfold tr2.
      destruct Htr1 as [-> | ->].
      * exists (new ++ [ESleep (Z.min (2 ^ i) 15); EGoto url]).
        rewrite <- app_assoc. split; [reflexivity|].
        rewrite count_app, async_sleeps_app, Hc, Hs, backoffs_S.
        split; [count_simpl; lia|]. reflexivity.
      * exists (new ++ [ESleep (Z.min (2 ^ i) 15); EWaitSelector "select"; EGoto url]%string).
        rewrite <- app_assoc. split; [reflexivity|].
        rewrite count_app, async_sleeps_app, Hc, Hs, backoffs_S.
        split; [count_simpl; lia|]. reflexivity.
Qed.

(** Every one of the [k] remaining attempts fails, the last being
    attempt [mx]. *)
Lemma nav_loop_exhausted (E : env) (url : string) (mx : Z) (k : nat) :
  forall i tr,
  i + Z.of_nat k = mx + 1 -> (1 <= k)%nat ->
  (forall j, (j < k)%nat -> page_load E (count is_goto tr + j) <> Loaded) ->
  exists new, nav_loop E url mx i k tr = (Raise (NavigationFailed mx), new ++ tr) /\
    count is_goto new = k /\ async_sleeps new = backoffs i (k - 1).
Proof.
  induction k as [|k IH]; intros i tr Hi Hk Hf; [lia|].
  assert (H0 : page_load E (count is_goto tr) <> Loaded)
    by (rewrite <- (Nat.add_0_r (count is_goto tr)); apply Hf; lia).
  destruct (attempt_fails E url tr H0) as [tr1 [e [Ha Htr1]]].
  cbn [nav_loop]. unfold try_catch at 1. rewrite Ha.
  destruct k as [|k].
  - replace (i <? mx) with false by (symmetry; apply Z.ltb_ge; lia).
    unfold raise. destruct Htr1 as [-> | ->].
    + exists [EGoto url]. repeat split.
    + exists [EWaitSelector "select"; EGoto url]%string. repeat split.
  - replace (i <? mx) with true by (symmetry; apply Z.ltb_lt; lia).
    unfold bind at 1, async_sleep, emit.
    set (tr2 := ESleep (Z.min (2 ^ i) 15) :: tr1).
    assert (Hg : count is_goto tr2 = S (count is_goto tr))
      by (unfold tr2; destruct Htr1 as [-> | ->]; count_simpl; reflexivity).
    destruct (IH (i + 1) tr2) as [new [Hr [Hc Hs]]].
    + lia.
    + lia.
    + intros j Hj. rewrite Hg.
      replace (S (count is_goto tr) + j)%nat with (count is_goto tr + S j)%nat by lia.
      apply Hf. lia.
    + rewrite Hr. unfold tr2. simpl in Hs. rewrite Nat.sub_0_r in Hs.
      destruct Htr1 as [-> | ->].
      * exists (new ++ [ESleep (Z.min (2 ^ i) 15); EGoto url]).
        rewrite <- app_assoc. split; [reflexivity|].
        rewrite count_app, async_sleeps_app, Hc, Hs. simpl. rewrite backoffs_S.
        split; [count_simpl; lia|]. reflexivity.
      * exists (new ++ [ESleep (Z.min (2 ^ i) 15); EWaitSelector "select"; EGoto url]%string).
        rewrite <- app_assoc. split; [reflexivity|].
        rewrite count_app, async_sleeps_app, Hc, Hs. simpl. rewrite backoffs_S.
        split; [count_simpl; lia|]. reflexivity.
Qed.

Lemma fecha_permitida_spec (v : option string) (t : string) :
  fecha_permitida v t = true <->
  (v = None \/ exists m, v = Some m /\ Py.str_ge m t = true).
Proof.
  destruct v as [m|]; simpl; split.
  - intros H. right. exists m. auto.
  - intros [H|[m' [H1 H2]]]; [discriminate|]. injection H1 as ->. exact H2.
  - auto.
  - auto.
Qed.

Lemma cargar_counts (E : env) (tr : list event) :
  page_load E (count is_goto tr) = Loaded ->
  (forall j, (j < 3)%nat -> ui_ok E (count is_ui tr + j) = true) ->
  exists new, cargar_pagina_y_seleccionar_unidad E tr = (Ret tt, new ++ tr) /\
    count is_goto new = 1%nat /\ count is_get_attribute new = 0%nat /\
    count is_time new = 0%nat /\ async_sleeps new = [] /\ count is_ui new = 3%nat.
Proof.
  intros H Hu. rewrite (cargar_ok E tr H Hu). eexists. split; [reflexivity|].
  repeat split.
Qed.

(** [N] polls that find the date closed within the budget, then one
    that finds it open. *)
Lemma poll_loop_reads (E : env) (inicio : Z) (objetivo : string) (N : nat) :
  forall fuel tr,
  (forall j, (j <= N)%nat -> page_load E (count is_goto tr + j) = Loaded) ->
  (forall j, (j < 4 * S N)%nat -> ui_ok E (count is_ui tr + j) = true) ->
  (forall j, (j < N)%nat ->
     fecha_permitida (max_attr_at E (count is_get_attribute tr + j)) objetivo = false) ->
  fecha_permitida (max_attr_at E (count is_get_attribute tr + N)) objetivo = true ->
  (forall j, (j < N)%nat -> time_at E (count is_time tr + j) - inicio < MAX_ESPERA_TURNOS * US) ->
  (N < fuel)%nat ->
  exists new, poll_loop E fuel inicio objetivo tr = (Ret true, new ++ tr) /\
    count is_get_attribute new = S N /\ async_sleeps new = repeat INTERVALO_RECARGA N.
Proof.
  induction N as [|N IH]; intros fuel tr Hl Hu Hf Hok Ht Hfuel;
    (destruct fuel as [|fuel]; [lia|]);
    (assert (H0 : page_load E (count is_goto tr) = Loaded)
       by (rewrite <- (Nat.add_0_r (count is_goto tr)); apply Hl; lia));
    (assert (Hu0 : forall j, (j < 3)%nat -> ui_ok E (count is_ui tr + j) = true)
       by (intros j Hj; apply Hu; lia));
    destruct (cargar_counts E tr H0 Hu0) as [c [Hc [Hcg [Hca [Hct [Hcs Hcu]]]]]];
    cbn [poll_loop]; unfold poll_body, bind at 1 2; rewrite Hc;
    unfold get_attribute, bind at 1; cbv beta iota;
    (replace (ui_ok E (count is_ui (c ++ tr))) with true
       by (rewrite count_app, Hcu, Nat.add_comm; symmetry; apply Hu; lia));
    rewrite count_app, Hca.
  - rewrite Nat.add_0_r in Hok. simpl. rewrite Hok. simpl.
    exists (EGetAttribute "max" :: c)%string. split; [reflexivity|].
    rewrite count_cons. simpl. rewrite Hca. split; [reflexivity|].
    change (EGetAttribute "max" :: c)%string with ([EGetAttribute "max"]%string ++ c).
    rewrite async_sleeps_app, Hcs. reflexivity.
  - simpl. assert (Hf0 := Hf 0%nat ltac:(lia)). rewrite Nat.add_0_r in Hf0.
    rewrite Hf0. unfold time_time.
    unfold bind at 1; cbv beta iota.
    rewrite count_cons, count_app, Hct. cbn [is_time Nat.add].
    assert (Ht0 := Ht 0%nat ltac:(lia)). rewrite Nat.add_0_r in Ht0.
    change (MAX_ESPERA_TURNOS * US) with 300000000 in Ht0.
    rewrite (proj2 (Z.leb_gt _ _) Ht0).
    simpl.
    set (tr2 := (ESleep INTERVALO_RECARGA :: ETime :: EGetAttribute "max" :: c ++ tr)%string).
    assert (Hg : forall p, count p tr2 =
              (count p [ESleep INTERVALO_RECARGA; ETime; EGetAttribute "max"]%string
               + count p c + count p tr)%nat)
      by (intros p; unfold tr2; rewrite <- count_app; rewrite <- count_app; reflexivity).
    destruct (IH fuel tr2) as [new [Hr [Hn Hs]]].
    + intros j Hj. rewrite Hg, Hcg. count_simpl.
      replace (0 + 1 + count is_goto tr + j)%nat with (count is_goto tr + S j)%nat by lia.
      apply Hl. lia.
    + intros j Hj. rewrite Hg, Hcu. count_simpl.
      match goal with |- ui_ok E ?n = true =>
        replace n with (count is_ui tr + (4 + j))%nat by lia end.
      apply Hu. lia.
    + intros j Hj. rewrite Hg, Hca. count_simpl.
      replace (1 + 0 + count is_get_attribute tr + j)%nat
        with (count is_get_attribute tr + S j)%nat by lia.
      apply Hf. lia.
    + rewrite Hg, Hca. count_simpl.
      replace (1 + 0 + count is_get_attribute tr + N)%nat
        with (count is_get_attribute tr + S N)%nat by lia.
      exact Hok.
    + intros j Hj. rewrite Hg, Hct. count_simpl.
      replace (1 + 0 + count is_time tr + j)%nat with (count is_time tr + S j)%nat by lia.
      apply Ht. lia.
    + lia.
    + rewrite Hr.
      exists (new ++ [ESleep INTERVALO_RECARGA; ETime; EGetAttribute "max"]%string ++ c).
      rewrite <- !app_assoc. split; [reflexivity|].
      rewrite !count_app, Hn, Hca. split; [count_simpl; lia|].
      rewrite !async_sleeps_app, Hs, Hcs. reflexivity.
Qed.

(** [N] polls that find the date closed within the budget, then one
    that finds it closed with the budget spent. *)
Lemma poll_loop_spent (E : env) (inicio : Z) (objetivo : string) (N : nat) :
  forall fuel tr,
  (forall j, (j <= N)%nat -> page_load E (count is_goto tr + j) = Loaded) ->
  (forall j, (j < 4 * S N)%nat -> ui_ok E (count is_ui tr + j) = true) ->
  (forall j, (j <= N)%nat ->
     fecha_permitida (max_attr_at E (count is_get_attribute tr + j)) objetivo = false) ->
  (forall j, (j < N)%nat -> time_at E (count is_time tr + j) - inicio < MAX_ESPERA_TURNOS * US) ->
  MAX_ESPERA_TURNOS * US <= time_at E (count is_time tr + N) - inicio ->
  (N < fuel)%nat ->
  exists new, poll_loop E fuel inicio objetivo tr = (Ret false, new ++ tr) /\
    count is_get_attribute new = S N /\ async_sleeps new = repeat INTERVALO_RECARGA N.
Proof.
  induction N as [|N IH]; intros fuel tr Hl Hu Hf Ht Hsp Hfuel;
    (destruct fuel as [|fuel]; [lia|]);
    (assert (H0 : page_load E (count is_goto tr) = Loaded)
       by (rewrite <- (Nat.add_0_r (count is_goto tr)); apply Hl; lia));
    (assert (Hu0 : forall j, (j < 3)%nat -> ui_ok E (count is_ui tr + j) = true)
       by (intros j Hj; apply Hu; lia));
    destruct (cargar_counts E tr H0 Hu0) as [c [Hc [Hcg [Hca [Hct [Hcs Hcu]]]]]];
    cbn [poll_loop]; unfold poll_body, bind at 1 2; rewrite Hc;
    unfold get_attribute, bind at 1; cbv beta iota;
    (replace (ui_ok E (count is_ui (c ++ tr))) with true
       by (rewrite count_app, Hcu, Nat.add_comm; symmetry; apply Hu; lia));
    rewrite count_app, Hca;
    simpl; (assert (Hf0 := Hf 0%nat ltac:(lia))); rewrite Nat.add_0_r in Hf0;
    rewrite Hf0; unfold time_time;
    unfold bind at 1; cbv beta iota;
    rewrite count_cons, count_app, Hct; cbn [is_time Nat.add].
  - rewrite Nat.add_0_r in Hsp. change (MAX_ESPERA_TURNOS * US) with 300000000 in Hsp.
    rewrite (proj2 (Z.leb_le _ _) Hsp). simpl.
    exists ([ETime; EGetAttribute "max"]%string ++ c). split; [reflexivity|].
    rewrite count_app, Hca. split; [count_simpl; lia|].
    rewrite async_sleeps_app, Hcs. reflexivity.
  - assert (Ht0 := Ht 0%nat ltac:(lia)). rewrite Nat.add_0_r in Ht0.
    change (MAX_ESPERA_TURNOS * US) with 300000000 in Ht0.
    rewrite (proj2 (Z.leb_gt _ _) Ht0).
    simpl.
    set (tr2 := (ESleep INTERVALO_RECARGA :: ETime :: EGetAttribute "max" :: c ++ tr)%string).
    assert (Hg : forall p, count p tr2 =
              (count p [ESleep INTERVALO_RECARGA; ETime; EGetAttribute "max"]%string
               + count p c + count p tr)%nat)
      by (intros p; unfold tr2; rewrite <- count_app; rewrite <- count_app; reflexivity).
    destruct (IH fuel tr2) as [new [Hr [Hn Hs]]].
    + intros j Hj. rewrite Hg, Hcg. count_simpl.
      match goal with |- page_load E ?n = _ =>
        replace n with (count is_goto tr + S j)%nat by lia end.
      apply Hl. lia.
    + intros j Hj. rewrite Hg, Hcu. count_simpl.
      match goal with |- ui_ok E ?n = true =>
        replace n with (count is_ui tr + (4 + j))%nat by lia end.
      apply Hu. lia.
    + intros j Hj. rewrite Hg, Hca. count_simpl.
      match goal with |- fecha_permitida (max_attr_at E ?n) _ = _ =>
        replace n with (count is_get_attribute tr + S j)%nat by lia end.
      apply Hf. lia.
    + intros j Hj. rewrite Hg, Hct. count_simpl.
      match goal with |- time_at E ?n - _ < _ =>
        replace n with (count is_time tr + S j)%nat by lia end.
      apply Ht. lia.
    + rewrite Hg, Hct. count_simpl.
      match goal with |- _ <= time_at E ?n - _ =>
        replace n with (count is_time tr + S N)%nat by lia end.
      exact Hsp.
    + lia.
    + rewrite Hr.
      exists (new ++ [ESleep INTERVALO_RECARGA; ETime; EGetAttribute "max"]%string ++ c).
      rewrite <- !app_assoc. split; [reflexivity|].
      rewrite !count_app, Hn, Hca. split; [count_simpl; lia|].
      rewrite !async_sleeps_app, Hs, Hcs. reflexivity.
Qed.

Lemma bind_ret_inv {A B} (m : M A) (k : A -> M B) (tr : list event) (r : B) :
  fst (bind m k tr) = Ret r ->
  exists a tr', m tr = (Ret a, tr') /\ fst (k a tr') = Ret r.
Proof.
  unfold bind. destruct (m tr) as [[a|e|] tr']; simpl; intros H;
    [eauto | discriminate | discriminate].
Qed.

Lemma idx_dim_le (i : Z) : idx DAYS_IN_MONTH i <= 31.
Proof.
  unfold idx. generalize (Z.to_nat i) as n. intros n.
  do 13 (destruct n as [|n]; [cbn; lia|]). destruct n; cbn; lia.
Qed.

(** [datetime(ahora.year, ahora.month, ahora.day, hh, mm, ss)] is the
    day of [ahora] at [hh:mm:ss]. *)
Lemma py_datetime_today (a : datetime) (hh mm ss : Z) :
  valid a -> 0 <= hh < 24 -> 0 <= mm < 60 -> 0 <= ss < 60 ->
  py_datetime (year a) (month a) (day a) hh mm ss = Ret (mkDT (ord a) hh mm ss 0).
Proof.
  intros [[Ho1 Ho2] _] Hh Hm Hs. unfold year, month, day, py_datetime.
  pose proof (CalFacts.ord2ymd_spec (ord a) Ho1) as Hspec.
  destruct (ord2ymd (ord a)) as [[y m] d].
  destruct Hspec as [Hy [Hm12 [Hd [Hord Hmax]]]].
  specialize (Hmax Ho2).
  unfold valid_ymd, MINYEAR, MAXYEAR in *.
  rewrite Hord.
  replace (forallb c_int [y; m; d; hh; mm; ss]) with true
    by (symmetry; cbn [forallb]; unfold c_int;
        assert (d <= 31) by (unfold days_in_month in Hd; pose proof (idx_dim_le m);
                             destruct ((m =? 2) && is_leap y); lia);
        repeat (apply andb_true_iff; split); try reflexivity; apply Z.leb_le; lia).
  cbn [negb].
  replace (Z.leb 1 y) with true by (symmetry; apply Z.leb_le; lia).
  replace (Z.leb y 9999) with true by (symmetry; apply Z.leb_le; lia).
  replace (Z.leb 1 m) with true by (symmetry; apply Z.leb_le; lia).
  replace (Z.leb m 12) with true by (symmetry; apply Z.leb_le; lia).
  replace (Z.leb 1 d) with true by (symmetry; apply Z.leb_le; lia).
  replace (Z.leb d (days_in_month y m)) with true by (symmetry; apply Z.leb_le; lia).
  replace (Z.leb 0 hh) with true by (symmetry; apply Z.leb_le; lia).
  replace (Z.ltb hh 24) with true by (symmetry; apply Z.ltb_lt; lia).
  replace (Z.leb 0 mm) with true by (symmetry; apply Z.leb_le; lia).
  replace (Z.ltb mm 60) with true by (symmetry; apply Z.ltb_lt; lia).
  replace (Z.leb 0 ss) with true by (symmetry; apply Z.leb_le; lia).
  replace (Z.ltb ss 60) with true by (symmetry; apply Z.ltb_lt; lia).
  reflexivity.
Qed.

Lemma py_datetime_ret (y m d hh mm ss : Z) (r : datetime) :
  py_datetime y m d hh mm ss = Ret r ->
  r = mkDT (ymd2ord y m d) hh mm ss 0 /\ 0 <= hh < 24 /\ 0 <= mm < 60 /\ 0 <= ss < 60.
Proof.
  unfold py_datetime.
  destruct (negb (forallb c_int [y; m; d; hh; mm; ss])); [discriminate|].
  destruct (valid_ymd y m d); simpl; [|discriminate].
  destruct (0 <=? hh) eqn:H1, (hh <? 24) eqn:H2, (0 <=? mm) eqn:H3, (mm <? 60) eqn:H4,
           (0 <=? ss) eqn:H5, (ss <? 60) eqn:H6; simpl; try discriminate.
  intros Hr. injection Hr as <-.
  apply Z.leb_le in H1, H3, H5. apply Z.ltb_lt in H2, H4, H6. repeat split; lia.
Qed.

(** The override parser touches no effect: its trace is the input one. *)
Lemma hora_override_trace (s : string) (a : datetime) (tr : list event) :
  hora_override s a tr = (fst (hora_override s a []), tr).
Proof.
  unfold hora_override, bind, lift, ret.
  repeat match goal with
         | |- context [match ?x with _ => _ end] =>
             lazymatch x with
             | context [tr] => fail
             | _ => destruct x
             end
         end; reflexivity.
Qed.

Lemma hora_default_trace (a : datetime) (tr : list event) :
  hora_default a tr = (fst (hora_default a []), tr).
Proof.
  unfold hora_default, bind, lift.
  destruct (12 <=? hour a); [destruct (add_days a 1)|]; reflexivity.
Qed.

(** The events a trace gained on top of [tr]. *)
Ltac prefix l tr :=
  lazymatch l with
  | tr => constr:(@nil event)
  | ?x :: ?l' => let p := prefix l' tr in constr:(x :: p)
  end.

Ltac exists_prefix :=
  match goal with
  | |- exists new, ?l = new ++ ?tr /\ _ =>
      let p := prefix l tr in exists p; split; [reflexivity | reflexivity]
  end.

(** [obtener_hora_objetivo] only reads the clock and prints. *)
Lemma obtener_events (E : env) (tr : list event) :
  exists new, snd (obtener_hora_objetivo E tr) = new ++ tr /\ count is_browser new = 0%nat.
Proof.
  unfold obtener_hora_objetivo, bind at 1, now. cbv beta iota.
  destruct (hora_objetivo E) as [s|].
  - destruct (Py.truthy (Some s)).
    + unfold try_catch, bind. cbv beta. rewrite hora_override_trace.
      destruct (fst (hora_override s _ [])) as [o| e |]; [|destruct e|];
        unfold print, emit, ret, raise; cbv beta iota;
        try rewrite hora_default_trace; cbn [snd]; exists_prefix.
    + rewrite hora_default_trace. cbn [snd]. exists_prefix.
  - rewrite hora_default_trace. cbn [snd]. exists_prefix.
Qed.

Lemma espera_gruesa_events (E : env) (fuel : nat) (objetivo : datetime) :
  forall tr, exists new,
    snd (espera_gruesa E fuel objetivo tr) = new ++ tr /\ count is_browser new = 0%nat.
Proof.
  induction fuel as [|fuel IH]; intros tr.
  - exists []. split; reflexivity.
  - cbn [espera_gruesa]. unfold bind at 1, now. cbv beta iota.
    destruct (_ <=? 2 * US); [exists [ENow]; split; reflexivity|].
    destruct (10 * US <? _); unfold bind, time_sleep, emit; cbv beta iota;
      (match goal with |- context [espera_gruesa E fuel objetivo ?t] =>
         destruct (IH t) as [new [H1 H2]]; rewrite H1 end);
      (match goal with |- context [ETimeSleep ?x] => exists (new ++ [ETimeSleep x; ENow]) end);
      rewrite <- app_assoc;
      (split; [reflexivity|]); rewrite count_app, H2; reflexivity.
Qed.

(** The fine wait returns only after a clock reading at or past the
    target. *)
Lemma espera_fina_spec (E : env) (fuel : nat) (objetivo : datetime) :
  forall tr,
  (exists new,
     snd (espera_fina E fuel objetivo tr) = new ++ tr /\ count is_browser new = 0%nat) /\
  (fst (espera_fina E fuel objetivo tr) = Ret tt ->
   exists k, (count is_now tr <= k < count is_now (snd (espera_fina E fuel objetivo tr)))%nat /\
     le objetivo (now_at E k) = true).
Proof.
  induction fuel as [|fuel IH]; intros tr.
  - split; [exists []; split; reflexivity | discriminate].
  - cbn [espera_fina]. unfold bind, now. cbv beta iota.
    destruct (le objetivo (now_at E (count is_now tr))) eqn:Hle.
    + split; [exists [ENow]; split; reflexivity|].
      intros _. exists (count is_now tr). unfold ret. cbn [snd].
      rewrite count_cons. simpl. split; [lia|exact Hle].
    + unfold time_sleep, emit. cbv beta iota.
      destruct (IH (ETimeSleep (US / 100) :: ENow :: tr)) as [[new [H1 H2]] H3].
      split.
      * rewrite H1. exists (new ++ [ETimeSleep (US / 100); ENow]). rewrite <- app_assoc.
        split; [reflexivity|]. rewrite count_app, H2. reflexivity.
      * intros Hr. destruct (H3 Hr) as [k [Hk Hkle]]. exists k. split; [|exact Hkle].
        rewrite !count_cons in Hk. simpl in Hk. lia.
Qed.

Lemma count_ext (p : event -> bool) (new tr : list event) :
  (count p tr <= count p (new ++ tr))%nat.
Proof. rewrite count_app. lia. Qed.

End MainFacts.

(* ------------------------------------------------------------------ *)
(** ** Claims *)

Module Claims.
Import Cal DT Main Scenarios MainFacts.
Open Scope Z_scope.
Open Scope list_scope.

Ltac zarith := Z.div_mod_to_equations; lia.

(** C5 (amended).  [calcular_proximo_miercoles] returns the next
    Wednesday strictly after today, keeping the time of day: it adds 7
    days when today is a Wednesday and otherwise the least positive
    number of days (1 to 6) that reaches a Wednesday; this holds, without
    error, for every current instant before 9999-12-29.  From 9999-12-29
    on (up to [datetime]'s last day, 9999-12-31) that Wednesday is past
    the maximum date and the addition raises [OverflowError]. *)
Theorem calcular_proximo_miercoles_spec (E : env) (tr : list event) :
  let ahora := now_at E (count is_now tr) in
  valid ahora ->
  (ord ahora < ymd2ord 9999 12 29 ->
   exists r, fst (calcular_proximo_miercoles E tr) = Ret r /\
    let d := ord r - ord ahora in
    weekday r = 2 /\ 1 <= d <= 7 /\
    (weekday ahora = 2 -> d = 7) /\
    (forall k, 1 <= k < d -> (ord ahora + k + 6) mod 7 <> 2) /\
    hour r = hour ahora /\ minute r = minute ahora /\
    second r = second ahora /\ microsecond r = microsecond ahora) /\
  (ymd2ord 9999 12 29 <= ord ahora ->
   fst (calcular_proximo_miercoles E tr) = Raise OverflowError).
Proof.
  cbv zeta. intros Hv. split; [intros Hlt|intros Hge].
  2: { destruct Hv as [[_ Ho2] _]. unfold MAXORDINAL in Ho2.
       change (ymd2ord 9999 12 29) with 3652057 in Hge.
       unfold calcular_proximo_miercoles, bind, now, lift, add_days, weekday.
       cbv beta iota zeta.
       assert (Hc : ord (now_at E (count is_now tr)) = 3652057 \/
                    ord (now_at E (count is_now tr)) = 3652058 \/
                    ord (now_at E (count is_now tr)) = 3652059) by lia.
       destruct Hc as [Hc|[Hc|Hc]]; rewrite Hc; reflexivity. }
  unfold calcular_proximo_miercoles, bind, now, lift, add_days, weekday.
  set (a := now_at E (count is_now tr)) in *. simpl.
  destruct Hv as [[Ho1 Ho2] _].
  change (ymd2ord 9999 12 29) with 3652057 in Hlt.
  assert (Hw : 0 <= (ord a + 6) mod 7 < 7) by (apply Z.mod_pos_bound; lia).
  assert (Hc : exists w, (ord a + 6) mod 7 = w /\ 0 <= w < 7) by eauto.
  destruct Hc as [w [Hw' Hwb]].
  assert (w = 0 \/ w = 1 \/ w = 2 \/ w = 3 \/ w = 4 \/ w = 5 \/ w = 6) as Hcase by lia.
  rewrite Hw'.
  destruct Hcase as [-> | [-> | [-> | [-> | [-> | [-> | -> ]]]]]]; simpl;
  (match goal with
   | |- context [(1 <=? ?o) && (?o <=? MAXORDINAL)] =>
       replace ((1 <=? o) && (o <=? MAXORDINAL)) with true
         by (unfold MAXORDINAL; symmetry; apply andb_true_iff; split;
             [apply Z.leb_le | apply Z.leb_le]; zarith)
   end);
  eexists; (split; [reflexivity|]); simpl;
  repeat split; try reflexivity; try intros; zarith.
Qed.

(** C5 counterexample: on 9999-12-31 (a Friday) the next Wednesday lies
    beyond [datetime]'s range and the addition raises [OverflowError]. *)
Lemma calcular_proximo_miercoles_last_day :
  fst (calcular_proximo_miercoles env_last_day []) = Raise OverflowError.
Proof. vm_compute. reflexivity. Qed.

(** C9.  [preparar_formulario] never navigates: in every execution,
    whether each call succeeds or one of the page calls times out, its
    only page calls are fills and option selections, with no
    [page.goto]; it either returns the visit date as dd/mm/yyyy or
    raises the timeout of the call that failed. *)
Theorem preparar_formulario_no_navigation (E : env) (fecha_visita : datetime)
    (tr : list event) :
  exists new,
    snd (preparar_formulario E fecha_visita tr) = new ++ tr /\
    count is_goto new = 0%nat /\
    Forall (fun ev => match ev with EFill _ _ | ESelectOption _ _ => True | _ => False end) new /\
    (fst (preparar_formulario E fecha_visita tr) = Ret (fmt_dmy_slash fecha_visita) \/
     fst (preparar_formulario E fecha_visita tr) = Raise PlaywrightError).
Proof.
  unfold preparar_formulario, bind, fill, select_option, ui_call, ret.
  repeat (match goal with |- context [ui_ok E ?n] => destruct (ui_ok E n) end; cbv beta iota).
  all: cbn [fst snd];
    match goal with |- exists new, ?l = new ++ ?t /\ _ => let p := prefix l t in exists p end;
    repeat split;
    first [ reflexivity | solve [repeat constructor]
          | left; reflexivity | right; reflexivity ].
Qed.

(** C10.  When RESEND_API_KEY or EMAIL_DESTINATARIO is unset or empty,
    [enviar_email] only prints the skip notice and returns [False]: it
    neither opens the PDF nor sends anything, and raises nothing. *)
Theorem enviar_email_sin_configuracion (E : env) (pdf_path fecha_visita : string)
    (tr : list event) :
  (resend_api_key E = None \/ resend_api_key E = Some ""%string \/
   email_destinatario E = None \/ email_destinatario E = Some ""%string) ->
  enviar_email E pdf_path fecha_visita tr =
    (Ret false,
     EPrint "RESEND_API_KEY o EMAIL_DESTINATARIO no configurados, saltando envio de email"
     :: tr).
Proof.
  intros H. unfold enviar_email.
  destruct H as [H|[H|[H|H]]]; rewrite H; [reflexivity|reflexivity| |];
  destruct (negb (Py.truthy (resend_api_key E))); reflexivity.
Qed.

Lemma enviar_email_sin_configuracion_witness :
  resend_api_key env_last_day = None /\
  enviar_email env_last_day "downloads/turno.pdf" "18/02/2026" [] =
    (Ret false,
     [EPrint "RESEND_API_KEY o EMAIL_DESTINATARIO no configurados, saltando envio de email"]).
Proof.
  split; [reflexivity|].
  apply (enviar_email_sin_configuracion env_last_day "downloads/turno.pdf" "18/02/2026" []).
  left. reflexivity.
Defined.

(** C3 (amended).  [navegar_con_reintentos url max_reintentos]: if the
    first [N] page loads fail and load [N+1] succeeds, with
    [N + 1 <= max_reintentos], it makes exactly [N+1] loads, returns
    [True] and sleeps [min(2^k, 15)] seconds for [k = 1..N]; if
    [max_reintentos >= 1] and all loads fail, it raises the error naming
    [max_reintentos] after exactly [max_reintentos] loads, having slept
    [min(2^k, 15)] for [k = 1..max_reintentos-1]; if [max_reintentos <= 0]
    it makes no load, raises nothing and returns [None]. *)
Theorem navegar_con_reintentos_spec (E : env) (url : string) (max_reintentos : Z)
    (tr : list event) :
  let g := count is_goto tr in
  (forall N : nat,
     Z.of_nat N + 1 <= max_reintentos ->
     (forall j, (j < N)%nat -> page_load E (g + j) <> Loaded) ->
     page_load E (g + N) = Loaded ->
     exists new,
       navegar_con_reintentos E url max_reintentos tr = (Ret (Some true), new ++ tr) /\
       count is_goto new = S N /\ async_sleeps new = backoffs 1 N) /\
  (1 <= max_reintentos ->
     (forall j, (j < Z.to_nat max_reintentos)%nat -> page_load E (g + j) <> Loaded) ->
     exists new,
       navegar_con_reintentos E url max_reintentos tr
         = (Raise (NavigationFailed max_reintentos), new ++ tr) /\
       count is_goto new = Z.to_nat max_reintentos /\
       async_sleeps new = backoffs 1 (Z.to_nat max_reintentos - 1)) /\
  (max_reintentos <= 0 ->
     navegar_con_reintentos E url max_reintentos tr = (Ret None, tr)).
Proof.
  cbv zeta. unfold navegar_con_reintentos. split; [|split].
  - intros N Hmx Hf Hok.
    apply nav_loop_success; auto; lia.
  - intros Hmx Hf.
    apply nav_loop_exhausted; auto; lia.
  - intros Hmx. replace (Z.to_nat max_reintentos) with 0%nat by lia. reflexivity.
Qed.

Lemma navegar_con_reintentos_spec_witness :
  navegar_con_reintentos (env_loads 3) "https://example.com" 5 []
    = (Ret (Some true),
       [EWaitSelector "select"; EGoto "https://example.com"; ESleep 8;
        EGoto "https://example.com"; ESleep 4; EGoto "https://example.com"; ESleep 2;
        EGoto "https://example.com"])%string /\
  async_sleeps (snd (navegar_con_reintentos (env_loads 3) "https://example.com" 5 [])) = [2; 4; 8] /\
  fst (navegar_con_reintentos (env_loads 9) "https://example.com" 3 []) = Raise (NavigationFailed 3) /\
  navegar_con_reintentos (env_loads 9) "https://example.com" 0 [] = (Ret None, []).
Proof.
  destruct (navegar_con_reintentos_spec (env_loads 3) "https://example.com" 5 [])
    as [Hs _].
  destruct (Hs 3%nat ltac:(lia)
              ltac:(intros j Hj; unfold env_loads, loads_after; simpl;
                    destruct j as [|[|[|j]]]; simpl; discriminate || lia)
              ltac:(reflexivity)) as [new [Heq [Hc Hsl]]].
  destruct (navegar_con_reintentos_spec (env_loads 9) "https://example.com" 3 [])
    as [_ [Hx _]].
  destruct (navegar_con_reintentos_spec (env_loads 9) "https://example.com" 0 [])
    as [_ [_ Hz]].
  destruct (Hx ltac:(lia)
              ltac:(intros j Hj; unfold env_loads, loads_after; simpl;
                    destruct j as [|[|[|j]]]; simpl; discriminate || lia))
    as [new' [Heq' _]].
  split; [|split; [|split]].
  - vm_compute. reflexivity.
  - rewrite Heq. rewrite app_nil_r. exact Hsl.
  - rewrite Heq'. reflexivity.
  - apply Hz. lia.
Defined.

(** C3 counterexample: with [max_reintentos = 0] and a page that never
    loads, no attempt is made and nothing is raised: the function
    returns [None]. *)
Lemma navegar_con_reintentos_zero_attempts :
  navegar_con_reintentos (env_loads 9) "https://example.com" 0 [] = (Ret None, []).
Proof. reflexivity. Qed.

(** C7.  On each poll of [esperar_turnos_disponibles], once the page is
    loaded, the unit selected and the [max] attribute read, the poll
    ends in success exactly when the value read is absent or, as a
    string, is lexicographically greater than or equal to the target
    ISO date. *)
Theorem esperar_turnos_poll_decision (E : env) (inicio : Z) (fecha_objetivo : string)
    (tr tr1 tr2 : list event) (max_attr : option string) :
  cargar_pagina_y_seleccionar_unidad E tr = (Ret tt, tr1) ->
  get_attribute E "max" tr1 = (Ret max_attr, tr2) ->
  fst (poll_body E inicio fecha_objetivo tr) = Ret (Done bool true) <->
  (max_attr = None \/
   exists m, max_attr = Some m /\ Py.str_ge m fecha_objetivo = true).
Proof.
  intros H Hg. rewrite <- fecha_permitida_spec.
  unfold poll_body, bind at 1. rewrite H. cbv beta iota.
  unfold bind at 1. rewrite Hg. cbv beta iota.
  destruct (fecha_permitida max_attr fecha_objetivo).
  - simpl. split; reflexivity.
  - unfold bind, time_time. simpl.
    destruct (_ <=? _); simpl; split; discriminate.
Qed.

Lemma esperar_turnos_poll_decision_witness :
  cargar_pagina_y_seleccionar_unidad env_third_read [] =
    (Ret tt, snd (cargar_pagina_y_seleccionar_unidad env_third_read [])) /\
  get_attribute env_third_read "max" (snd (cargar_pagina_y_seleccionar_unidad env_third_read [])) =
    (Ret (Some "2026-02-18"%string),
     snd (get_attribute env_third_read "max"
            (snd (cargar_pagina_y_seleccionar_unidad env_third_read [])))) /\
  (fst (poll_body env_third_read 0 "2026-02-25" []) = Ret (Done bool true) <->
   (Some "2026-02-18"%string = None \/
    exists m, Some "2026-02-18"%string = Some m /\ Py.str_ge m "2026-02-25" = true)).
Proof.
  split; [reflexivity|]. split; [reflexivity|].
  apply (esperar_turnos_poll_decision env_third_read 0 "2026-02-25" []
           (snd (cargar_pagina_y_seleccionar_unidad env_third_read []))
           (snd (get_attribute env_third_read "max"
                   (snd (cargar_pagina_y_seleccionar_unidad env_third_read []))))).
  - reflexivity.
  - reflexivity.
Defined.

(** C6 (amended).  Suppose every page load of the first k polls of
    [esperar_turnos_disponibles] succeeds, so do their unit selections
    and [max] reads (no Playwright timeout), and each of the first k-1
    elapsed-time checks is still below the 300 s budget.  If the k-th
    constraint read is the first to admit the target date, the function
    returns [True] after exactly k reads and k-1 sleeps, all of 5 s.  If
    instead the k-th read does not admit it either and the k-th check
    finds the budget spent, it returns [False] after exactly k reads and
    the same sleeps, before any later read that would admit the date. *)
Theorem esperar_turnos_disponibles_k_reads (E : env) (fuel : nat) (fecha_visita : datetime)
    (tr : list event) (k : nat) :
  let objetivo := fmt_ymd_dash fecha_visita in
  let inicio := time_at E (count is_time tr) in
  (1 <= k)%nat -> (k <= fuel)%nat ->
  (forall j, (j < k)%nat -> page_load E (count is_goto tr + j) = Loaded) ->
  (forall j, (j < 4 * k)%nat -> ui_ok E (count is_ui tr + j) = true) ->
  (forall j, (j < k - 1)%nat ->
     time_at E (count is_time tr + 1 + j) - inicio < MAX_ESPERA_TURNOS * US) ->
  ((forall j, (j < k - 1)%nat ->
      fecha_permitida (max_attr_at E (count is_get_attribute tr + j)) objetivo = false) ->
   fecha_permitida (max_attr_at E (count is_get_attribute tr + (k - 1))) objetivo = true ->
   exists new,
     esperar_turnos_disponibles E fuel fecha_visita tr = (Ret true, new ++ tr) /\
     count is_get_attribute new = k /\
     async_sleeps new = repeat INTERVALO_RECARGA (k - 1)) /\
  ((forall j, (j < k)%nat ->
      fecha_permitida (max_attr_at E (count is_get_attribute tr + j)) objetivo = false) ->
   MAX_ESPERA_TURNOS * US <= time_at E (count is_time tr + 1 + (k - 1)) - inicio ->
   exists new,
     esperar_turnos_disponibles E fuel fecha_visita tr = (Ret false, new ++ tr) /\
     count is_get_attribute new = k /\
     async_sleeps new = repeat INTERVALO_RECARGA (k - 1)).
Proof.
  cbv zeta. intros Hk Hfuel Hl Hu Ht.
  assert (Hunf : esperar_turnos_disponibles E fuel fecha_visita tr =
            poll_loop E fuel (time_at E (count is_time tr)) (fmt_ymd_dash fecha_visita)
              (ETime :: tr)) by reflexivity.
  rewrite !Hunf.
  assert (Hl' : forall j, (j <= k - 1)%nat -> page_load E (count is_goto (ETime :: tr) + j) = Loaded)
    by (intros j Hj; rewrite count_cons; cbn [is_goto]; apply Hl; lia).
  assert (Hu' : forall j, (j < 4 * S (k - 1))%nat -> ui_ok E (count is_ui (ETime :: tr) + j) = true)
    by (intros j Hj; rewrite count_cons; cbn [is_ui]; apply Hu; lia).
  assert (Ht' : forall j, (j < k - 1)%nat ->
            time_at E (count is_time (ETime :: tr) + j) - time_at E (count is_time tr)
              < MAX_ESPERA_TURNOS * US).
  { intros j Hj. rewrite count_cons. cbn [is_time].
    replace (S (count is_time tr) + j)%nat with (count is_time tr + 1 + j)%nat by lia.
    apply Ht. lia. }
  split.
  - intros Hf Hok.
    destruct (poll_loop_reads E (time_at E (count is_time tr)) (fmt_ymd_dash fecha_visita)
                (k - 1) fuel (ETime :: tr) Hl' Hu') as [new [Hr [Hn Hs]]].
    + intros j Hj. rewrite count_cons. cbn [is_get_attribute]. apply Hf. lia.
    + rewrite count_cons. cbn [is_get_attribute]. exact Hok.
    + exact Ht'.
    + lia.
    + rewrite Hr. exists (new ++ [ETime]). rewrite <- app_assoc. split; [reflexivity|].
      rewrite count_app, Hn, async_sleeps_app, Hs. count_simpl. split; [lia|].
      reflexivity.
  - intros Hf Hsp.
    destruct (poll_loop_spent E (time_at E (count is_time tr)) (fmt_ymd_dash fecha_visita)
                (k - 1) fuel (ETime :: tr) Hl' Hu') as [new [Hr [Hn Hs]]].
    + intros j Hj. rewrite count_cons. cbn [is_get_attribute]. apply Hf. lia.
    + exact Ht'.
    + rewrite count_cons. cbn [is_time].
      replace (S (count is_time tr) + (k - 1))%nat with (count is_time tr + 1 + (k - 1))%nat
        by lia.
      exact Hsp.
    + lia.
    + rewrite Hr. exists (new ++ [ETime]). rewrite <- app_assoc. split; [reflexivity|].
      rewrite count_app, Hn, async_sleeps_app, Hs. count_simpl. split; [lia|].
      reflexivity.
Qed.

(** C6 counterexample: the date opens on the second read, but the
    first elapsed-time check already sees the 300 s budget spent, so the
    poller returns [False] after a single read. *)
Lemma esperar_turnos_budget_spent :
  esperar_turnos_disponibles env_budget 10 (at_ymd 2026 2 25 0 0 0) []
    = (Ret false, snd (esperar_turnos_disponibles env_budget 10 (at_ymd 2026 2 25 0 0 0) [])) /\
  count is_get_attribute
    (snd (esperar_turnos_disponibles env_budget 10 (at_ymd 2026 2 25 0 0 0) [])) = 1%nat.
Proof. split; vm_compute; reflexivity. Qed.

Lemma calcular_proximo_miercoles_spec_witness :
  (exists r, fst (calcular_proximo_miercoles (env_loads 0) []) = Ret r /\
    weekday r = 2 /\ ord r - ord (at_ymd 2026 2 16 10 0 0) = 2) /\
  fst (calcular_proximo_miercoles env_last_day []) = Raise OverflowError.
Proof.
  split.
  - destruct (calcular_proximo_miercoles_spec (env_loads 0) []) as [H1 _];
      [vm_compute; repeat split; discriminate|].
    destruct (H1 ltac:(vm_compute; reflexivity)) as [r [Hr [Hw [Hd [_ [Hm _]]]]]].
    exists r. split; [exact Hr|]. split; [exact Hw|].
    assert (Hr' : r = at_ymd 2026 2 18 10 0 0).
    { vm_compute in Hr. injection Hr as Hr. symmetry. exact Hr. }
    rewrite Hr'. vm_compute. reflexivity.
  - destruct (calcular_proximo_miercoles_spec env_last_day []) as [_ H2];
      [vm_compute; repeat split; discriminate|].
    apply H2. vm_compute. discriminate.
Defined.

Lemma esperar_turnos_disponibles_k_reads_witness :
  (exists new,
     esperar_turnos_disponibles env_third_read 5 (at_ymd 2026 2 25 0 0 0) [] = (Ret true, new ++ []) /\
     count is_get_attribute new = 3%nat /\
     async_sleeps new = repeat INTERVALO_RECARGA 2) /\
  (exists new,
     esperar_turnos_disponibles env_budget 5 (at_ymd 2026 2 25 0 0 0) [] = (Ret false, new ++ []) /\
     count is_get_attribute new = 1%nat /\
     async_sleeps new = repeat INTERVALO_RECARGA 0).
Proof.
  split.
  - apply (esperar_turnos_disponibles_k_reads env_third_read 5 (at_ymd 2026 2 25 0 0 0) [] 3).
    + lia.
    + lia.
    + intros j Hj. reflexivity.
    + intros j Hj. reflexivity.
    + intros j Hj. destruct j as [|[|j]]; [vm_compute; reflexivity | vm_compute; reflexivity | lia].
    + intros j Hj. destruct j as [|[|j]]; [vm_compute; reflexivity | vm_compute; reflexivity | lia].
    + vm_compute. reflexivity.
  - apply (esperar_turnos_disponibles_k_reads env_budget 5 (at_ymd 2026 2 25 0 0 0) [] 1).
    + lia.
    + lia.
    + intros j Hj. reflexivity.
    + intros j Hj. reflexivity.
    + intros j Hj. lia.
    + intros j Hj. destruct j as [|j]; [vm_compute; reflexivity | lia].
    + vm_compute. discriminate.
Defined.

(** C4.  The submission loop of [enviar_formulario_con_reintentos] is
    bounded by time only.  At the head of an iteration, with any attempt
    number and any history (so after any number of earlier, possibly
    identical, failures), a clock reading with at least [TIMEOUT_TOTAL]
    (900 s) elapsed returns [None] without a further click; and in the
    handler of a failed attempt, such a reading ends the loop with
    [None] too, again without a click. *)
Theorem enviar_formulario_presupuesto_agotado (E : env) (fuel : nat) (inicio intento : Z)
    (fecha_visita : datetime) (tr : list event) :
  TIMEOUT_TOTAL * US <= time_at E (count is_time tr) - inicio ->
  (exists new,
     submit_loop E (S fuel) inicio intento fecha_visita tr = (Ret None, new ++ tr) /\
     count is_click new = 0%nat) /\
  (exists new,
     after_failure E inicio intento fecha_visita tr = (Ret (Done _ None), new ++ tr) /\
     count is_click new = 0%nat).
Proof.
  intros H. split.
  - cbn [submit_loop]. unfold bind at 1, time_time.
    rewrite (proj2 (Z.leb_le _ _) H).
    exists [ETime]. split; reflexivity.
  - unfold after_failure, bind, now, try_catch, screenshot, print, emit.
    destruct (screenshot_ok E _); unfold time_time; rewrite !count_cons; cbn [is_time];
      (replace (_ - inicio <? TIMEOUT_TOTAL * US) with false
         by (symmetry; apply Z.ltb_ge; exact H)).
    + eexists (_ :: _ :: _ :: []). split; reflexivity.
    + eexists (_ :: _ :: _ :: _ :: []). split; reflexivity.
Qed.

Lemma enviar_formulario_presupuesto_agotado_witness :
  ((exists new,
      submit_loop env_slow_clock 1 0 22 (at_ymd 2026 2 18 0 0 0) (repeat ETime 45)
        = (Ret None, new ++ repeat ETime 45) /\ count is_click new = 0%nat) /\
   (exists new,
      after_failure env_slow_clock 0 22 (at_ymd 2026 2 18 0 0 0) (repeat ETime 45)
        = (Ret (Done _ None), new ++ repeat ETime 45) /\ count is_click new = 0%nat)) /\
  fst (enviar_formulario_con_reintentos env_slow_clock 100 (at_ymd 2026 2 18 0 0 0) []) = Ret None /\
  count is_click (snd (enviar_formulario_con_reintentos env_slow_clock 100
                         (at_ymd 2026 2 18 0 0 0) [])) = 22%nat.
Proof.
  split; [|split; vm_compute; reflexivity].
  apply enviar_formulario_presupuesto_agotado.
  vm_compute. intros Hc. discriminate Hc.
Defined.

(** C1 (amended).  Let [ahora] be the instant [obtener_hora_objetivo]
    reads, before 9999-12-31.  When the [HORA_OBJETIVO] override parses,
    the result is that time of day today, moved one day forward if it is
    not after [ahora]: it is strictly after [ahora].  Otherwise (no
    override, an empty one, or one rejected with [ValueError]) the result
    is a 00:00:01: the next day's when the hour is 12 or later, strictly
    after [ahora]; but today's when the hour is before 12, with no
    adjustment, so it is in the past as soon as [ahora] is past
    00:00:01. *)
Theorem obtener_hora_objetivo_resultado (E : env) (tr : list event) :
  let ahora := now_at E (count is_now tr) in
  valid ahora -> ord ahora < MAXORDINAL ->
  (forall s r, hora_objetivo E = Some s -> s <> ""%string ->
     fst (hora_override s ahora []) = Ret r ->
     fst (obtener_hora_objetivo E tr) = Ret r /\ to_us ahora < to_us r) /\
  ((hora_objetivo E = None \/
    exists s, hora_objetivo E = Some s /\
      (s = ""%string \/ fst (hora_override s ahora []) = Raise ValueError)) ->
   (12 <= hour ahora ->
      fst (obtener_hora_objetivo E tr) = Ret (mkDT (ord ahora + 1) 0 0 1 0) /\
      to_us ahora < to_us (mkDT (ord ahora + 1) 0 0 1 0)) /\
   (hour ahora < 12 ->
      fst (obtener_hora_objetivo E tr) = Ret (mkDT (ord ahora) 0 0 1 0))).
Proof.
  cbv zeta. set (a := now_at E (count is_now tr)). intros Hv Hmax.
  pose proof Hv as Hv'. destruct Hv' as [[Ho1 Ho2] [Hh [Hmi [Hs Hus]]]].
  (* The default branch. *)
  assert (Hdef : forall tr',
    (12 <= hour a -> fst (hora_default a tr') = Ret (mkDT (ord a + 1) 0 0 1 0)) /\
    (hour a < 12 -> fst (hora_default a tr') = Ret (mkDT (ord a) 0 0 1 0))).
  { intros tr'. split; intros Hlt; unfold hora_default, bind, lift.
    - rewrite (proj2 (Z.leb_le _ _) Hlt). unfold add_days.
      replace ((1 <=? ord a + 1) && (ord a + 1 <=? MAXORDINAL)) with true
        by (symmetry; apply andb_true_iff; split; [apply Z.leb_le | apply Z.leb_le]; lia).
      set (m := mkDT (ord a + 1) (hour a) (minute a) (second a) (microsecond a)).
      assert (Hvm : valid m) by (unfold valid, m; simpl; lia).
      rewrite (py_datetime_today m 0 0 1 Hvm ltac:(lia) ltac:(lia) ltac:(lia)).
      reflexivity.
    - rewrite (proj2 (Z.leb_gt _ _) Hlt).
      rewrite (py_datetime_today a 0 0 1 Hv ltac:(lia) ltac:(lia) ltac:(lia)).
      reflexivity. }
  split.
  - intros s r Hs' Hne Hr. split.
    + unfold obtener_hora_objetivo, bind at 1, now. fold a. rewrite Hs'.
      unfold Py.truthy. replace (String.eqb s "") with false
        by (symmetry; apply String.eqb_neq; exact Hne).
      simpl. unfold try_catch, bind. cbv beta. rewrite hora_override_trace.
      destruct (fst (hora_override s a [])); try discriminate.
      injection Hr as ->. reflexivity.
    + unfold hora_override in Hr.
      do 5 (apply bind_ret_inv in Hr; destruct Hr as [? [? [_ Hr]]]).
      apply bind_ret_inv in Hr. destruct Hr as [o [tr' [Ho Hr]]].
      unfold lift in Ho. destruct (py_datetime _ _ _ _ _ _) eqn:Hpd; try discriminate.
      injection Ho as -> _.
      pose proof Hpd as Hpd0.
      apply py_datetime_ret in Hpd. destruct Hpd as [_ [Hh' [Hm' Hs'']]].
      rewrite (py_datetime_today a _ _ _ Hv Hh' Hm' Hs'') in Hpd0.
      injection Hpd0 as <-.
      cbv beta in Hr. unfold le in Hr.
      match type of Hr with context [to_us ?x <=? to_us a] =>
        destruct (to_us x <=? to_us a) eqn:Hle end.
      * unfold lift, add_days in Hr. simpl in Hr.
        destruct (_ && _); simpl in Hr;
          [|discriminate].
        injection Hr as <-. unfold to_us in *. simpl in *. lia.
      * unfold ret in Hr. simpl in Hr. injection Hr as <-.
        apply Z.leb_gt in Hle. exact Hle.
  - intros Hcase.
    assert (Hobt : forall tr', fst (obtener_hora_objetivo E tr) = fst (hora_default a tr')).
    { intros tr'.
      assert (Hhd : forall t1 t2, fst (hora_default a t1) = fst (hora_default a t2)).
      { intros t1 t2. unfold hora_default, bind, lift.
        destruct (12 <=? hour a); [destruct (add_days a 1)|]; reflexivity. }
      unfold obtener_hora_objetivo, bind at 1, now. fold a.
      destruct Hcase as [-> | [s [-> [-> | Hve]]]]; [apply Hhd | apply Hhd |].
      destruct (Py.truthy (Some s)); [|apply Hhd].
      unfold try_catch, bind. cbv beta. rewrite hora_override_trace, Hve.
      unfold print, emit, ret. fold (bind (A := unit) (B := datetime)).
      apply Hhd. }
    split.
    + intros Hlt. rewrite (Hobt []). split; [apply (proj1 (Hdef [])); exact Hlt|].
      unfold to_us. simpl. lia.
    + intros Hlt. rewrite (Hobt []). apply (proj2 (Hdef [])). exact Hlt.
Qed.

Lemma obtener_hora_objetivo_resultado_witness :
  fst (obtener_hora_objetivo env_override []) = Ret (at_ymd 2026 2 17 9 30 0) /\
  to_us (at_ymd 2026 2 16 10 0 0) < to_us (at_ymd 2026 2 17 9 30 0).
Proof.
  destruct (obtener_hora_objetivo_resultado env_override []) as [HA _].
  - vm_compute. repeat split; discriminate.
  - vm_compute. reflexivity.
  - apply (HA " 09:30 "%string).
    + reflexivity.
    + discriminate.
    + vm_compute. reflexivity.
Defined.

(** C1 counterexample: with no override at 10:00, the target is today's
    00:00:01, ten hours in the past; it is not moved to the next day. *)
Lemma obtener_hora_objetivo_pasada :
  fst (obtener_hora_objetivo (env_loads 0) []) = Ret (at_ymd 2026 2 16 0 0 1) /\
  to_us (at_ymd 2026 2 16 0 0 1) < to_us (now_at (env_loads 0) 0).
Proof. split; vm_compute; reflexivity. Qed.

(** C2.  The override "12" has no ':' so [partes[1]] raises
    [IndexError], which the [except ValueError] does not catch: no
    fallback, and the exception ends the whole run before the browser
    is launched. *)
Theorem obtener_hora_objetivo_sin_minutos :
  fst (obtener_hora_objetivo env_hora_12 []) = Raise IndexError /\
  fst (run env_hora_12 10 []) = Raise IndexError /\
  count is_browser (snd (run env_hora_12 10 [])) = 0%nat.
Proof. vm_compute. repeat split. Qed.

(** C8 (amended).  Let [objetivo] be the target and [r] the time left
    at the next clock reading.  If [r <= 0] the function prints and
    returns at once.  If [r > 300 s] it raises the configuration error,
    and in [run] (production mode) this happens before any browser
    event.  If [0 < r <= 300 s], including exactly 300 s, it waits: it
    returns only after a later clock reading at or past [objetivo]. *)
Theorem esperar_hasta_hora_objetivo_casos (E : env) (fuel : nat) (tr tr1 : list event)
    (objetivo : datetime) :
  obtener_hora_objetivo E tr = (Ret objetivo, tr1) ->
  let r := remaining_us objetivo (now_at E (count is_now tr1)) in
  (r <= 0 ->
     esperar_hasta_hora_objetivo E fuel tr =
       (Ret tt, EPrint "Ya paso la hora objetivo, ejecutando inmediatamente..." :: ENow :: tr1)) /\
  (300 * US < r ->
     esperar_hasta_hora_objetivo E fuel tr = (Raise (TooLongWait r), ENow :: tr1) /\
     (forall tr0 fecha_visita, modo_test E = false -> mkdir_ok E = true ->
        calcular_proximo_miercoles E (EMkdir :: tr0) = (Ret fecha_visita, tr) ->
        exists new, run E fuel tr0 = (Raise (TooLongWait r), new ++ tr0) /\
                    count is_browser new = 0%nat)) /\
  (0 < r <= 300 * US ->
     fst (esperar_hasta_hora_objetivo E fuel tr) = Ret tt ->
     exists k, (count is_now tr1 < k <
                count is_now (snd (esperar_hasta_hora_objetivo E fuel tr)))%nat /\
       le objetivo (now_at E k) = true).
Proof.
  intros Hob. cbv zeta.
  set (r := remaining_us objetivo (now_at E (count is_now tr1))).
  assert (Hunf : esperar_hasta_hora_objetivo E fuel tr =
    (if r <=? 0 then print "Ya paso la hora objetivo, ejecutando inmediatamente..."
     else if 300 * US <? r then raise (TooLongWait r)
     else espera_gruesa E fuel objetivo ;; espera_fina E fuel objetivo) (ENow :: tr1)).
  { unfold esperar_hasta_hora_objetivo, bind at 1. rewrite Hob. reflexivity. }
  split; [|split].
  - intros Hr. rewrite Hunf, (proj2 (Z.leb_le _ _) Hr). reflexivity.
  - intros Hr.
    assert (Hraise : esperar_hasta_hora_objetivo E fuel tr = (Raise (TooLongWait r), ENow :: tr1)).
    { rewrite Hunf. rewrite (proj2 (Z.leb_gt r 0)) by (unfold US in Hr; lia).
      rewrite (proj2 (Z.ltb_lt _ _) Hr). reflexivity. }
    split; [exact Hraise|].
    intros tr0 fv Hmt Hmk Hcalc.
    assert (Htr : tr = ENow :: EMkdir :: tr0).
    { unfold calcular_proximo_miercoles, bind, now, lift in Hcalc.
      cbv beta iota in Hcalc. injection Hcalc as _ Htr. symmetry. exact Htr. }
    destruct (obtener_events E tr) as [no [Hno Hnb]]. rewrite Hob in Hno. cbn [snd] in Hno.
    unfold run. unfold bind at 1, mkdir at 1. rewrite Hmk. cbv beta iota.
    unfold bind at 1. rewrite Hcalc. cbv beta iota.
    rewrite Hmt. unfold bind at 1. rewrite Hraise. cbv beta iota.
    exists (ENow :: no ++ [ENow; EMkdir]). rewrite Hno, Htr.
    split; [cbn [app]; rewrite <- app_assoc; reflexivity|].
    rewrite count_cons, count_app, Hnb. reflexivity.
  - intros Hr Hret. rewrite Hunf in Hret |- *.
    rewrite (proj2 (Z.leb_gt r 0)) in Hret |- * by lia.
    rewrite (proj2 (Z.ltb_ge _ r)) in Hret |- * by lia.
    unfold bind in Hret |- *.
    destruct (espera_gruesa_events E fuel objetivo (ENow :: tr1)) as [ng [Hng _]].
    destruct (espera_gruesa E fuel objetivo (ENow :: tr1)) as [[u|e|] trg] eqn:Hg;
      cbn [snd] in Hng; [|discriminate|discriminate].
    destruct u. destruct (espera_fina_spec E fuel objetivo trg) as [_ Hf].
    destruct (Hf Hret) as [k [Hk Hle]]. exists k. split; [|exact Hle].
    assert (Hlo : (S (count is_now tr1) <= count is_now trg)%nat)
      by (rewrite Hng, count_app, count_cons; simpl; lia).
    lia.
Qed.

Lemma esperar_hasta_hora_objetivo_casos_witness :
  esperar_hasta_hora_objetivo env_early 10 [ENow; EMkdir] =
    (Raise (TooLongWait (3601 * US)), snd (esperar_hasta_hora_objetivo env_early 10 [ENow; EMkdir])) /\
  exists new, run env_early 10 [] = (Raise (TooLongWait (3601 * US)), new ++ []) /\
    count is_browser new = 0%nat.
Proof.
  destruct (esperar_hasta_hora_objetivo_casos env_early 10 [ENow; EMkdir]
              (snd (obtener_hora_objetivo env_early [ENow; EMkdir]))
              (at_ymd 2026 2 18 0 0 1)) as [_ [HB _]].
  - vm_compute. reflexivity.
  - destruct HB as [H1 H2].
    + vm_compute. reflexivity.
    + split.
      * rewrite H1. reflexivity.
      * apply (H2 [] (at_ymd 2026 2 18 23 0 0)); vm_compute; reflexivity.
Defined.

(** C8 counterexample: with exactly 300 s left, the function neither
    returns at once nor raises: it waits, sleeping before the target. *)
Lemma esperar_hasta_hora_objetivo_300 :
  remaining_us (at_ymd 2026 2 18 0 0 1) (at_ymd 2026 2 17 23 55 1) = 300 * US /\
  fst (esperar_hasta_hora_objetivo env_exact_ceiling 10 []) = Ret tt /\
  snd (esperar_hasta_hora_objetivo env_exact_ceiling 10 []) =
    [ENow; ENow; ETimeSleep (5 * US); ENow; ENow; ENow].
Proof. vm_compute. repeat split. Qed.

End Claims.

(* ------------------------------------------------------------------ *)
(** ** Composition of trace properties *)

Module EmitsFacts.
Import Cal DT Main Scenarios MainFacts Props.
Open Scope Z_scope.
Open Scope list_scope.

Section Emits.
Variable P : event -> bool.

Lemma emits_pure {A} (m : M A) : (forall tr, snd (m tr) = tr) -> emits P m.
Proof. intros H tr. exists []. rewrite H. split; reflexivity. Qed.

Lemma emits_single {A} (m : M A) (ev : event) :
  (forall tr, snd (m tr) = ev :: tr) -> P ev = true -> emits P m.
Proof. intros H Hp tr. exists [ev]. rewrite H. simpl. rewrite Hp. split; reflexivity. Qed.

Lemma emits_bind {A B} (m : M A) (k : A -> M B) :
  emits P m -> (forall a, emits P (k a)) -> emits P (bind m k).
Proof.
  intros Hm Hk tr. unfold bind. destruct (Hm tr) as [n1 [H1 F1]].
  destruct (m tr) as [[a|e|] t1]; cbn [snd] in H1; subst t1.
  - destruct (Hk a (n1 ++ tr)) as [n2 [H2 F2]]. exists (n2 ++ n1).
    rewrite H2, app_assoc. rewrite forallb_app, F1, F2. split; reflexivity.
  - exists n1. split; [reflexivity|exact F1].
  - exists n1. split; [reflexivity|exact F1].
Qed.

Lemma emits_try_catch {A} (m : M A) (h : exn -> M A) :
  emits P m -> (forall e, emits P (h e)) -> emits P (try_catch m h).
Proof.
  intros Hm Hh tr. unfold try_catch. destruct (Hm tr) as [n1 [H1 F1]].
  destruct (m tr) as [[a|e|] t1]; cbn [snd] in H1; subst t1.
  - exists n1. split; [reflexivity|exact F1].
  - destruct (Hh e (n1 ++ tr)) as [n2 [H2 F2]]. exists (n2 ++ n1).
    rewrite H2, app_assoc. rewrite forallb_app, F1, F2. split; reflexivity.
  - exists n1. split; [reflexivity|exact F1].
Qed.

End Emits.

Lemma emits_weaken {A} (P Q : event -> bool) (m : M A) :
  (forall ev, P ev = true -> Q ev = true) -> emits P m -> emits Q m.
Proof.
  intros HPQ Hm tr. destruct (Hm tr) as [n [H F]]. exists n. split; [exact H|].
  apply forallb_forall. intros x Hx. apply HPQ. exact (proj1 (forallb_forall P n) F x Hx).
Qed.

(** Splits a computation along its binds, branches and handlers. *)
Ltac emits_step :=
  cbv beta zeta;
  match goal with
  | |- emits _ (bind _ _) => apply emits_bind; [|intros ?]
  | |- emits _ (try_catch _ _) => apply emits_try_catch; [|intros ?]
  | |- emits _ (if ?b then _ else _) => destruct b
  | |- emits _ (match ?x with _ => _ end) => destruct x
  | |- emits _ _ =>
      first [ apply emits_pure; intros ?; reflexivity
            | eapply emits_single; [intros ?; reflexivity | first [reflexivity | auto]] ]
  end.

Ltac emits_tac := repeat emits_step.

Section Program.
Variable E : env.
Variable P : event -> bool.

Lemma emits_hora_override (s : string) (a : datetime) : emits P (hora_override s a).
Proof. unfold hora_override, lift. emits_tac. Qed.

Lemma emits_hora_default (a : datetime) : emits P (hora_default a).
Proof. unfold hora_default, lift. emits_tac. Qed.

Hypothesis P_now : P ENow = true.
Hypothesis P_print : forall m, P (EPrint m) = true.

Lemma emits_obtener : emits P (obtener_hora_objetivo E).
Proof.
  unfold obtener_hora_objetivo. emits_tac;
    first [apply emits_hora_override | apply emits_hora_default].
Qed.

Lemma emits_espera_gruesa (fuel : nat) (objetivo : datetime) :
  P (ETimeSleep (5 * US)) = true -> P (ETimeSleep (US / 2)) = true ->
  emits P (espera_gruesa E fuel objetivo).
Proof.
  intros H5 H05. induction fuel as [|fuel IH]; cbn [espera_gruesa]; emits_tac; exact IH.
Qed.

Lemma emits_espera_fina (fuel : nat) (objetivo : datetime) :
  P (ETimeSleep (US / 100)) = true -> emits P (espera_fina E fuel objetivo).
Proof.
  intros H. induction fuel as [|fuel IH]; cbn [espera_fina]; emits_tac; exact IH.
Qed.

Lemma emits_esperar_hasta (fuel : nat) :
  P (ETimeSleep (5 * US)) = true -> P (ETimeSleep (US / 2)) = true ->
  P (ETimeSleep (US / 100)) = true ->
  emits P (esperar_hasta_hora_objetivo E fuel).
Proof.
  intros H1 H2 H3. unfold esperar_hasta_hora_objetivo.
  apply emits_bind; [apply emits_obtener|intros objetivo].
  emits_tac; [apply emits_espera_gruesa | apply emits_espera_fina]; assumption.
Qed.

End Program.

Section Browser.
Variable E : env.
Variable P : event -> bool.
Hypothesis P_goto : P (EGoto URL) = true.
Hypothesis P_wait_selector : P (EWaitSelector "select") = true.
Hypothesis P_sleep : forall s, P (ESleep s) = true.

Lemma emits_nav_loop (mx : Z) (k : nat) : forall i, emits P (nav_loop E URL mx i k).
Proof. induction k as [|k IH]; intros i; cbn [nav_loop]; emits_tac; apply IH. Qed.

Hypothesis P_wait1000 : P (EWaitTimeout 1000) = true.
Hypothesis P_wait500 : P (EWaitTimeout 500) = true.
Hypothesis P_select_unit : P (ESelectOption 0 DATOS_unidad) = true.

Lemma emits_cargar : emits P (cargar_pagina_y_seleccionar_unidad E).
Proof.
  unfold cargar_pagina_y_seleccionar_unidad, navegar_con_reintentos.
  apply emits_bind; [apply emits_nav_loop|intros ?]. emits_tac.
Qed.

Hypothesis P_time : P ETime = true.
Hypothesis P_max : P (EGetAttribute "max") = true.

Lemma emits_poll_loop (inicio : Z) (objetivo : string) (fuel : nat) :
  emits P (poll_loop E fuel inicio objetivo).
Proof.
  induction fuel as [|fuel IH]; cbn [poll_loop]; [emits_tac|].
  apply emits_bind; [|intros [b|]; emits_tac; exact IH].
  unfold poll_body. apply emits_bind; [apply emits_cargar|intros ?]. emits_tac.
Qed.

Lemma emits_esperar_turnos (fuel : nat) (fecha_visita : datetime) :
  emits P (esperar_turnos_disponibles E fuel fecha_visita).
Proof.
  unfold esperar_turnos_disponibles. apply emits_bind; [emits_tac|intros ?].
  apply emits_poll_loop.
Qed.

End Browser.

End EmitsFacts.

(* ------------------------------------------------------------------ *)
(** ** Further lemmas on the retry loops *)

Module LoopFacts.
Import Cal DT Main Scenarios MainFacts Props EmitsFacts.
Open Scope Z_scope.
Open Scope list_scope.

(** Whatever the page does, the [k] remaining attempts end in success or
    in [NavigationFailed mx] after all [k] of them. *)
Lemma nav_loop_any (E : env) (url : string) (mx : Z) (k : nat) :
  forall i tr, i + Z.of_nat k = mx + 1 -> (1 <= k)%nat ->
  exists new,
    (nav_loop E url mx i k tr = (Ret (Some true), new ++ tr) \/
     (nav_loop E url mx i k tr = (Raise (NavigationFailed mx), new ++ tr) /\
      count is_goto new = k)) /\
    (1 <= count is_goto new <= k)%nat.
Proof.
  induction k as [|k IH]; intros i tr Hi Hk; [lia|].
  destruct (page_load E (count is_goto tr)) eqn:Hp.
  - rewrite (nav_loop_first_ok E url mx i k tr Hp).
    exists [EWaitSelector "select"; EGoto url]%string.
    split; [left; reflexivity|]. count_simpl. lia.
  - assert (H0 : page_load E (count is_goto tr) <> Loaded) by congruence.
    destruct (attempt_fails E url tr H0) as [tr1 [e [Ha Htr1]]].
    destruct Htr1 as [-> | ->];
    (cbn [nav_loop]; unfold try_catch; rewrite Ha;
     destruct k as [|k];
     [ replace (i <? mx) with false by (symmetry; apply Z.ltb_ge; lia); unfold raise;
       match goal with |- context [(Raise _, ?l)] =>
         let p := prefix l tr in exists p end;
       split; [right; split; reflexivity|]; count_simpl; lia
     | replace (i <? mx) with true by (symmetry; apply Z.ltb_lt; lia);
       unfold bind, async_sleep, emit; cbv beta iota;
       match goal with |- context [nav_loop E url mx (i + 1) (S k) ?t] =>
         destruct (IH (i + 1) t ltac:(lia) ltac:(lia)) as [new [Hr Hc]];
         let p := prefix t tr in
         exists (new ++ p); rewrite <- app_assoc; cbn [app];
         rewrite count_app; count_simpl
       end;
       (split; [destruct Hr as [Hr | [Hr Hn]]; rewrite Hr;
                [left; reflexivity | right; split; [reflexivity|]; lia] | lia]) ]).
  - assert (H0 : page_load E (count is_goto tr) <> Loaded) by congruence.
    destruct (attempt_fails E url tr H0) as [tr1 [e [Ha Htr1]]].
    destruct Htr1 as [-> | ->];
    (cbn [nav_loop]; unfold try_catch; rewrite Ha;
     destruct k as [|k];
     [ replace (i <? mx) with false by (symmetry; apply Z.ltb_ge; lia); unfold raise;
       match goal with |- context [(Raise _, ?l)] =>
         let p := prefix l tr in exists p end;
       split; [right; split; reflexivity|]; count_simpl; lia
     | replace (i <? mx) with true by (symmetry; apply Z.ltb_lt; lia);
       unfold bind, async_sleep, emit; cbv beta iota;
       match goal with |- context [nav_loop E url mx (i + 1) (S k) ?t] =>
         destruct (IH (i + 1) t ltac:(lia) ltac:(lia)) as [new [Hr Hc]];
         let p := prefix t tr in
         exists (new ++ p); rewrite <- app_assoc; cbn [app];
         rewrite count_app; count_simpl
       end;
       (split; [destruct Hr as [Hr | [Hr Hn]]; rewrite Hr;
                [left; reflexivity | right; split; [reflexivity|]; lia] | lia]) ]).
Qed.

Lemma count_none (p q : event -> bool) (l : list event) :
  forallb p l = true -> (forall ev, p ev = true -> q ev = false) -> count q l = 0%nat.
Proof.
  intros F H. induction l as [|ev l IH]; [reflexivity|].
  simpl in F. apply andb_true_iff in F. destruct F as [F1 F2].
  rewrite count_cons, (H ev F1). exact (IH F2).
Qed.

Lemma emits_nav_URL (E : env) (tr : list event) :
  exists nav,
    snd (navegar_con_reintentos E URL MAX_REINTENTOS_NAVEGACION tr) = nav ++ tr /\
    forallb (nav_event URL) nav = true.
Proof.
  apply (emits_nav_loop E (nav_event URL) eq_refl eq_refl (fun _ => eq_refl)).
Qed.

Lemma nav_no_time (nav : list event) :
  forallb (nav_event URL) nav = true -> count is_time nav = 0%nat.
Proof. intros F. apply (count_none _ _ nav F). intros [] H; try discriminate; reflexivity. Qed.

Lemma nav_no_ui (nav : list event) :
  forallb (nav_event URL) nav = true -> count is_ui nav = 0%nat.
Proof. intros F. apply (count_none _ _ nav F). intros [] H; try discriminate; reflexivity. Qed.

(** [cargar_pagina_y_seleccionar_unidad]: either navigation gives up
    and nothing else is done, or it succeeds and the wait of 1 s, the
    selection of the unit and the wait of 0.5 s are made in turn, up to
    the first of them that fails. *)
Lemma cargar_cases (E : env) (tr : list event) :
  let n := count is_ui tr in
  exists nav, forallb (nav_event URL) nav = true /\
   ((navegar_con_reintentos E URL MAX_REINTENTOS_NAVEGACION tr = (Ret (Some true), nav ++ tr) /\
     cargar_pagina_y_seleccionar_unidad E tr =
       (if ui_ok E n then
          if ui_ok E (S n) then
            if ui_ok E (S (S n)) then
              (Ret tt, [EWaitTimeout 500; ESelectOption 0 DATOS_unidad; EWaitTimeout 1000] ++ nav ++ tr)
            else (Raise PlaywrightError,
                  [EWaitTimeout 500; ESelectOption 0 DATOS_unidad; EWaitTimeout 1000] ++ nav ++ tr)
          else (Raise PlaywrightError, [ESelectOption 0 DATOS_unidad; EWaitTimeout 1000] ++ nav ++ tr)
        else (Raise PlaywrightError, [EWaitTimeout 1000] ++ nav ++ tr))) \/
    (navegar_con_reintentos E URL MAX_REINTENTOS_NAVEGACION tr =
       (Raise (NavigationFailed MAX_REINTENTOS_NAVEGACION), nav ++ tr) /\
     cargar_pagina_y_seleccionar_unidad E tr =
       (Raise (NavigationFailed MAX_REINTENTOS_NAVEGACION), nav ++ tr) /\
     count is_goto nav = 5%nat)).
Proof.
  cbv zeta.
  destruct (emits_nav_URL E tr) as [nav [Hn F]].
  destruct (nav_loop_any E URL MAX_REINTENTOS_NAVEGACION 5 1 tr eq_refl ltac:(lia))
    as [new [Hr _]].
  change (nav_loop E URL MAX_REINTENTOS_NAVEGACION 1 5)
    with (navegar_con_reintentos E URL MAX_REINTENTOS_NAVEGACION) in Hr.
  exists new. destruct Hr as [Hr | [Hr Hc]].
  - rewrite Hr in Hn. cbn [snd] in Hn. apply app_inv_tail in Hn. subst nav.
    split; [exact F|]. left. split; [exact Hr|].
    assert (Hu : count is_ui (new ++ tr) = count is_ui tr)
      by (rewrite count_app, (nav_no_ui new F); reflexivity).
    unfold cargar_pagina_y_seleccionar_unidad, bind, wait_for_timeout, select_option, ui_call.
    rewrite Hr. cbv beta iota. rewrite Hu.
    destruct (ui_ok E (count is_ui tr)); cbv beta iota; [|reflexivity].
    rewrite count_cons. cbn [is_ui]. rewrite Hu.
    destruct (ui_ok E (S (count is_ui tr))); cbv beta iota; [|reflexivity].
    rewrite !count_cons. cbn [is_ui]. rewrite Hu.
    destruct (ui_ok E (S (S (count is_ui tr)))); reflexivity.
  - rewrite Hr in Hn. cbn [snd] in Hn. apply app_inv_tail in Hn. subst nav.
    split; [exact F|]. right. split; [exact Hr|]. split; [|exact Hc].
    unfold cargar_pagina_y_seleccionar_unidad. unfold bind at 1. rewrite Hr. reflexivity.
Qed.

Lemma cargar_shape (E : env) (tr : list event) :
  exists new, snd (cargar_pagina_y_seleccionar_unidad E tr) = new ++ tr /\
    count is_time new = 0%nat /\
    (fst (cargar_pagina_y_seleccionar_unidad E tr) = Ret tt \/
     fst (cargar_pagina_y_seleccionar_unidad E tr) =
       Raise (NavigationFailed MAX_REINTENTOS_NAVEGACION) \/
     fst (cargar_pagina_y_seleccionar_unidad E tr) = Raise PlaywrightError).
Proof.
  destruct (cargar_cases E tr) as [nav [F [[_ Hc] | [_ [Hc _]]]]]; rewrite Hc.
  - destruct (ui_ok E _); [destruct (ui_ok E _); [destruct (ui_ok E _)|]|];
      (eexists; split; [rewrite app_assoc; reflexivity|]);
      (split; [rewrite count_app, (nav_no_time nav F); reflexivity|]);
      cbn [fst];
      first [left; reflexivity | right; left; reflexivity | right; right; reflexivity].
  - exists nav. split; [reflexivity|]. split; [apply nav_no_time; exact F|].
    right; left; reflexivity.
Qed.

(** The poller ends with [False] only after a clock reading at least
    [MAX_ESPERA_TURNOS] past [inicio], and raises only when navigation
    gives up or a page call fails. *)
Lemma poll_loop_result (E : env) (inicio : Z) (objetivo : string) (fuel : nat) :
  forall tr,
  (fst (poll_loop E fuel inicio objetivo tr) = Ret false ->
   exists k, (count is_time tr <= k < count is_time (snd (poll_loop E fuel inicio objetivo tr)))%nat
     /\ MAX_ESPERA_TURNOS * US <= time_at E k - inicio) /\
  (forall e, fst (poll_loop E fuel inicio objetivo tr) = Raise e ->
   e = NavigationFailed MAX_REINTENTOS_NAVEGACION \/ e = PlaywrightError).
Proof.
  induction fuel as [|fuel IH]; intros tr.
  - split; [discriminate | intros e H; discriminate H].
  - cbn [poll_loop]. unfold poll_body.
    destruct (cargar_shape E tr) as [new [Hs [Ht0 Ho]]].
    unfold bind.
    destruct (cargar_pagina_y_seleccionar_unidad E tr) as [o t1].
    cbn [fst snd] in Hs, Ho. subst t1.
    destruct Ho as [-> | [-> | ->]]; cbv beta iota.
    + assert (Ht1 : count is_time (new ++ tr) = count is_time tr)
        by (rewrite count_app, Ht0; reflexivity).
      unfold get_attribute. cbv beta iota.
      destruct (ui_ok E _); cbv beta iota;
        [|cbn [fst]; split; [discriminate | intros e H; injection H as <-; right; reflexivity]].
      destruct (fecha_permitida _ objetivo).
      * unfold ret. cbv beta iota. cbn [fst].
        split; [intros H; injection H as H; discriminate H | intros e H; discriminate H].
      * unfold time_time. cbv beta iota. rewrite count_cons. cbn [is_time].
        rewrite Ht1.
        destruct (MAX_ESPERA_TURNOS * US <=? time_at E (count is_time tr) - inicio) eqn:Hb.
        -- unfold ret. cbv beta iota. cbn [fst snd]. split; [|intros e H; discriminate H].
           intros _. exists (count is_time tr). rewrite !count_cons. cbn [is_time is_get_attribute].
           rewrite Ht1. split; [lia|]. apply Z.leb_le. exact Hb.
        -- unfold async_sleep, emit, ret. cbv beta iota.
           match goal with |- context [poll_loop E fuel inicio objetivo ?t] =>
             destruct (IH t) as [IH1 IH2];
             assert (Hct : (count is_time tr <= count is_time t)%nat)
               by (rewrite !count_cons; cbn [is_time is_sleep is_get_attribute]; rewrite Ht1; lia)
           end.
           split; [|exact IH2].
           intros Hf. destruct (IH1 Hf) as [k [Hk Hle]]. exists k. split; [lia|exact Hle].
    + cbn [fst].
      split; [discriminate | intros e H; injection H as <-; left; reflexivity].
    + cbn [fst].
      split; [discriminate | intros e H; injection H as <-; right; reflexivity].
Qed.

Lemma cargar_outcome (E : env) (tr : list event) :
  fst (cargar_pagina_y_seleccionar_unidad E tr) = Ret tt \/
  fst (cargar_pagina_y_seleccionar_unidad E tr) = Raise (NavigationFailed MAX_REINTENTOS_NAVEGACION) \/
  fst (cargar_pagina_y_seleccionar_unidad E tr) = Raise PlaywrightError.
Proof. destruct (cargar_shape E tr) as [_ [_ [_ H]]]. exact H. Qed.

(** [preparar_formulario] returns the date "%d/%m/%Y" or lets out the
    error of one of its page calls. *)
Lemma preparar_outcome (E : env) (fecha_visita : datetime) (tr : list event) :
  fst (preparar_formulario E fecha_visita tr) = Ret (fmt_dmy_slash fecha_visita) \/
  fst (preparar_formulario E fecha_visita tr) = Raise PlaywrightError.
Proof.
  unfold preparar_formulario, bind, fill, select_option, ui_call, ret. cbv beta iota zeta.
  repeat match goal with |- context [ui_ok E ?n] => destruct (ui_ok E n); cbv beta iota end;
  cbn [fst]; first [left; reflexivity | right; reflexivity].
Qed.

(** The handler of a failed submission either ends the loop with
    [None], asks for another attempt, or lets out the navigation failure
    or a page error of the reload; screenshot errors never escape. *)
Lemma after_failure_outcome (E : env) (inicio intento : Z) (fecha_visita : datetime)
    (tr : list event) :
  fst (after_failure E inicio intento fecha_visita tr) = Ret (Done _ None) \/
  fst (after_failure E inicio intento fecha_visita tr) = Ret (Again _) \/
  fst (after_failure E inicio intento fecha_visita tr) =
    Raise (NavigationFailed MAX_REINTENTOS_NAVEGACION) \/
  fst (after_failure E inicio intento fecha_visita tr) = Raise PlaywrightError.
Proof.
  unfold after_failure, bind, now, try_catch, screenshot, print, emit, time_time, ret.
  cbv beta iota.
  destruct (screenshot_ok E _); cbv beta iota;
    (destruct (_ <? TIMEOUT_TOTAL * US); [|left; reflexivity]);
    unfold async_sleep, emit; cbv beta iota;
    match goal with |- context [cargar_pagina_y_seleccionar_unidad E ?t] =>
      destruct (cargar_outcome E t) as [Hc | [Hc | Hc]];
      destruct (cargar_pagina_y_seleccionar_unidad E t) as [o t'];
      cbn [fst] in Hc; subst o; cbv beta iota
    end;
    try (right; right; left; reflexivity); try (right; right; right; reflexivity);
    match goal with |- context [preparar_formulario E fecha_visita ?t] =>
      destruct (preparar_outcome E fecha_visita t) as [Hp | Hp];
      destruct (preparar_formulario E fecha_visita t) as [o t''];
      cbn [fst] in Hp; subst o; cbv beta iota
    end;
    first [right; left; reflexivity | right; right; right; reflexivity].
Qed.

(** One submission attempt either raises, or clicks, reads the clock
    and saves the download under the name built from that reading. *)
Lemma attempt_outcome (E : env) (tr : list event) :
  (exists e, fst (attempt_submit E tr) = Raise e) \/
  (exists t, attempt_submit E tr =
     (Ret ("downloads/turno_" ++ fmt_stamp t ++ ".pdf")%string,
      [ESaveAs ("downloads/turno_" ++ fmt_stamp t ++ ".pdf")%string; ENow;
       EClick "Generar Turno"; ENow] ++ tr)).
Proof.
  unfold attempt_submit, bind, now, click_expect_download, save_as, ret. cbv beta iota.
  destruct (download_ok E _); cbv beta iota; [|left; eexists; reflexivity].
  destruct (save_ok E _); cbv beta iota; [|left; eexists; reflexivity].
  right. eexists. reflexivity.
Qed.

Lemma emits_any_cargar (E : env) :
  emits any_event (cargar_pagina_y_seleccionar_unidad E).
Proof. apply emits_cargar; intros; reflexivity. Qed.

Ltac emits_any := repeat (first [apply emits_any_cargar | emits_step]).

Lemma emits_any_preparar (E : env) (fecha_visita : datetime) :
  emits any_event (preparar_formulario E fecha_visita).
Proof. unfold preparar_formulario. emits_any. Qed.

Lemma emits_any_attempt (E : env) : emits any_event (attempt_submit E).
Proof. unfold attempt_submit. emits_any. Qed.

Lemma emits_any_after_failure (E : env) (inicio intento : Z) (fecha_visita : datetime) :
  emits any_event (after_failure E inicio intento fecha_visita).
Proof. unfold after_failure. emits_any. apply emits_any_preparar. Qed.

Lemma submit_loop_result (E : env) (inicio : Z) (fecha_visita : datetime) (fuel : nat) :
  forall intento tr,
  (forall p, fst (submit_loop E fuel inicio intento fecha_visita tr) = Ret (Some p) ->
   exists t mid, p = ("downloads/turno_" ++ fmt_stamp t ++ ".pdf")%string /\
     snd (submit_loop E fuel inicio intento fecha_visita tr) =
       [ESaveAs p; ENow; EClick "Generar Turno"; ENow] ++ mid ++ tr) /\
  (forall e, fst (submit_loop E fuel inicio intento fecha_visita tr) = Raise e ->
   e = NavigationFailed MAX_REINTENTOS_NAVEGACION \/ e = PlaywrightError).
Proof.
  induction fuel as [|fuel IH]; intros intento tr.
  - split; [intros p H; discriminate H | intros e H; discriminate H].
  - cbn [submit_loop]. unfold bind, time_time. cbv beta iota.
    destruct (_ <=? _).
    + unfold ret. cbv beta iota. cbn [fst].
      split; [intros p H; discriminate H | intros e H; discriminate H].
    + unfold try_catch. cbv beta iota.
      destruct (attempt_outcome E (ETime :: tr)) as [[e0 He0] | [t Ht]].
      * destruct (attempt_submit E (ETime :: tr)) as [o t0] eqn:Ht0.
        cbn [fst] in He0. subst o. cbv beta iota.
        destruct (after_failure_outcome E inicio (intento + 1) fecha_visita t0)
          as [Ha | [Ha | [Ha | Ha]]];
          destruct (after_failure E inicio (intento + 1) fecha_visita t0) as [o t1] eqn:Ha1;
          cbn [fst] in Ha; subst o; cbv beta iota.
        -- unfold ret. cbv beta iota. cbn [fst].
           split; [intros p H; discriminate H | intros e H; discriminate H].
        -- destruct (IH (intento + 1) t1) as [IH1 IH2]. split; [|exact IH2].
           intros p Hp. destruct (IH1 p Hp) as [t' [mid [Hp' Hs]]].
           destruct (emits_any_attempt E (ETime :: tr)) as [n0 [H0 _]].
           destruct (emits_any_after_failure E inicio (intento + 1) fecha_visita t0)
             as [n1 [H1 _]].
           rewrite Ht0 in H0. rewrite Ha1 in H1. cbn [snd] in H0, H1.
           exists t', (mid ++ n1 ++ n0 ++ [ETime]). split; [exact Hp'|].
           rewrite Hs, H1, H0. now rewrite <- !app_assoc.
        -- cbn [fst]. split; [intros p H; discriminate H | intros e H; injection H as <-; left; reflexivity].
        -- cbn [fst]. split; [intros p H; discriminate H | intros e H; injection H as <-; right; reflexivity].
      * rewrite Ht. cbv beta iota. unfold ret. cbn [fst snd].
        split; [|intros e H; discriminate H].
        intros p Hp. injection Hp as <-. exists t, [ETime]. split; reflexivity.
Qed.

Lemma send_all_trace (E : env) (ds : list string) :
  forall exitos tr,
  send_all E ds exitos tr =
    (Ret (exitos + sent_ok E (count is_send tr) (List.length ds)), (rev (map ESend ds) ++ tr)%list).
Proof.
  induction ds as [|d ds IH]; intros exitos tr.
  - cbn. unfold ret. f_equal. f_equal. lia.
  - cbn [send_all]. unfold bind, try_catch, resend_send, ret. cbv beta iota.
    destruct (send_ok E (count is_send tr)) eqn:Hs; cbv beta iota;
      rewrite IH, count_cons; cbn [is_send Datatypes.length sent_ok];
      rewrite Hs; cbn [map rev]; rewrite <- List.app_assoc; cbn [app]; f_equal; f_equal; lia.
Qed.

Lemma espera_gruesa_stop (E : env) (objetivo : datetime) (fuel : nat) :
  forall tr,
  fst (espera_gruesa E fuel objetivo tr) = Ret tt ->
  exists n,
    count is_now (snd (espera_gruesa E fuel objetivo tr)) = (count is_now tr + S n)%nat /\
    (forall j, (j < n)%nat ->
       2 * US < remaining_us objetivo (now_at E (count is_now tr + j))) /\
    remaining_us objetivo (now_at E (count is_now tr + n)) <= 2 * US.
Proof.
  induction fuel as [|fuel IH]; intros tr H; [discriminate H|].
  cbn [espera_gruesa] in *. unfold bind, now in *. cbv beta iota zeta in *.
  destruct (remaining_us objetivo (now_at E (count is_now tr)) <=? 2 * US) eqn:Hr.
  - exists O. unfold ret. cbn [snd]. rewrite count_cons. cbn [is_now].
    split; [lia|]. split; [intros j Hj; lia|]. rewrite Nat.add_0_r. lia.
  - assert (Hgt : 2 * US < remaining_us objetivo (now_at E (count is_now tr))) by lia.
    unfold time_sleep, emit in *.
    destruct (10 * US <? _); cbv beta iota in *;
    match goal with
    | H : fst (espera_gruesa E fuel objetivo ?t) = Ret tt |- _ =>
        destruct (IH t H) as [n [Hc [Hlt Hle]]]; rewrite !count_cons in Hc, Hlt, Hle;
        cbn [is_now] in Hc, Hlt, Hle;
        exists (S n); split; [rewrite Hc; lia|]; split;
        [ intros [|j] Hj; [rewrite Nat.add_0_r; exact Hgt|];
          replace (count is_now tr + S j)%nat with (0 + (1 + count is_now tr) + j)%nat by lia;
          apply Hlt; lia
        | replace (count is_now tr + S n)%nat with (0 + (1 + count is_now tr) + n)%nat by lia;
          exact Hle ]
    end.
Qed.

Lemma espera_fina_stop (E : env) (objetivo : datetime) (fuel : nat) :
  forall tr,
  fst (espera_fina E fuel objetivo tr) = Ret tt ->
  exists n,
    count is_now (snd (espera_fina E fuel objetivo tr)) = (count is_now tr + S n)%nat /\
    (forall j, (j < n)%nat -> le objetivo (now_at E (count is_now tr + j)) = false) /\
    le objetivo (now_at E (count is_now tr + n)) = true.
Proof.
  induction fuel as [|fuel IH]; intros tr H; [discriminate H|].
  cbn [espera_fina] in *. unfold bind, now in *. cbv beta iota zeta in *.
  destruct (le objetivo (now_at E (count is_now tr))) eqn:Hr.
  - exists O. unfold ret. cbn [snd]. rewrite count_cons. cbn [is_now].
    split; [lia|]. split; [intros j Hj; lia|]. rewrite Nat.add_0_r. exact Hr.
  - unfold time_sleep, emit in *. cbv beta iota in *.
    destruct (IH _ H) as [n [Hc [Hlt Hle]]]. rewrite !count_cons in Hc, Hlt, Hle.
    cbn [is_now] in Hc, Hlt, Hle.
    exists (S n). split; [rewrite Hc; lia|]. split.
    + intros [|j] Hj; [rewrite Nat.add_0_r; exact Hr|].
      replace (count is_now tr + S j)%nat with (0 + (1 + count is_now tr) + j)%nat by lia.
      apply Hlt. lia.
    + replace (count is_now tr + S n)%nat with (0 + (1 + count is_now tr) + n)%nat by lia.
      exact Hle.
Qed.

Lemma enviar_formulario_result (E : env) (fuel : nat)
    (fecha_visita : datetime) (tr : list event) :
  (forall p, fst (enviar_formulario_con_reintentos E fuel fecha_visita tr) = Ret (Some p) ->
   exists t mid, p = ("downloads/turno_" ++ fmt_stamp t ++ ".pdf")%string /\
     snd (enviar_formulario_con_reintentos E fuel fecha_visita tr) =
       [ESaveAs p; ENow; EClick "Generar Turno"; ENow] ++ mid ++ tr) /\
  (forall e, fst (enviar_formulario_con_reintentos E fuel fecha_visita tr) = Raise e ->
   e = NavigationFailed MAX_REINTENTOS_NAVEGACION \/ e = PlaywrightError).
Proof.
  unfold enviar_formulario_con_reintentos, bind at 1 2, time_time. cbv beta iota.
  destruct (submit_loop_result E (time_at E (count is_time tr)) fecha_visita fuel 0
              (ETime :: tr)) as [H1 H2].
  split; [|exact H2].
  intros p Hp. destruct (H1 p Hp) as [t [mid [Hp' Hs]]].
  exists t, (mid ++ [ETime]). split; [exact Hp'|].
  rewrite Hs, <- app_assoc. reflexivity.
Qed.

End LoopFacts.

(* ------------------------------------------------------------------ *)
(** ** Which exceptions escape *)

Module RaiseFacts.
Import Cal DT Main Scenarios MainFacts Props EmitsFacts LoopFacts.
Open Scope Z_scope.
Open Scope list_scope.

Section Raises.
Variable S : exn -> Prop.

Lemma ro_never {A} (m : M A) : (forall tr e, fst (m tr) <> Raise e) -> raises_only S m.
Proof. intros H tr e He. exfalso. exact (H tr e He). Qed.

Lemma ro_raise {A} (e : exn) : S e -> raises_only S (@raise A e).
Proof. intros H tr e' He. injection He as <-. exact H. Qed.

Lemma ro_lift {A} (o : outcome A) : (forall e, o = Raise e -> S e) -> raises_only S (lift o).
Proof. intros H tr e He. exact (H e He). Qed.

Lemma ro_bind {A B} (m : M A) (k : A -> M B) :
  raises_only S m -> (forall a, raises_only S (k a)) -> raises_only S (bind m k).
Proof.
  intros Hm Hk tr e. unfold bind. destruct (m tr) as [[a|e'|] t1] eqn:H1.
  - apply Hk.
  - intros He. cbn [fst] in He. injection He as <-. apply (Hm tr). rewrite H1. reflexivity.
  - intros He. discriminate He.
Qed.

Lemma ro_try_catch {A} (m : M A) (h : exn -> M A) :
  (forall e, raises_only S (h e)) -> raises_only S (try_catch m h).
Proof.
  intros Hh tr e. unfold try_catch. destruct (m tr) as [[a|e'|] t1].
  - intros He. discriminate He.
  - apply Hh.
  - intros He. discriminate He.
Qed.

(** A handler that only sees the exceptions of [S]. *)
Lemma ro_try_catch_in {A} (m : M A) (h : exn -> M A) :
  raises_only S m -> (forall e, S e -> raises_only S (h e)) ->
  raises_only S (try_catch m h).
Proof.
  intros Hm Hh tr e. unfold try_catch. destruct (m tr) as [[a|e'|] t1] eqn:H1.
  - intros He. discriminate He.
  - apply Hh. apply (Hm tr). rewrite H1. reflexivity.
  - intros He. discriminate He.
Qed.

Lemma ro_weaken {A} (S' : exn -> Prop) (m : M A) :
  (forall e, S' e -> S e) -> raises_only S' m -> raises_only S m.
Proof. intros HS Hm tr e He. apply HS. exact (Hm tr e He). Qed.

End Raises.

(** Splits a computation along its binds, branches and handlers. *)
Ltac ro_step :=
  cbv beta zeta;
  match goal with
  | |- raises_only _ (bind _ _) => apply ro_bind; [|intros ?]
  | |- raises_only _ (try_catch _ _) => apply ro_try_catch_in; [|intros ? ?]
  | |- raises_only _ (if ?b then _ else _) => destruct b eqn:?
  | |- raises_only _ (match ?x with _ => _ end) => destruct x eqn:?
  | |- raises_only _ (raise _) => apply ro_raise
  | |- raises_only _ (lift _) =>
      apply ro_lift; intros ?e ?He;
      repeat match type of He with
             | context [if ?b then _ else _] => destruct b
             | context [match ?x with _ => _ end] => destruct x
             end;
      first [discriminate He | injection He as <-]
  | |- raises_only _ _ => apply ro_never; intros ? ? ?He; discriminate He
  end.

Ltac ro_tac := repeat ro_step.

Lemma ro_calcular (E : env) :
  raises_only (fun e => e = OverflowError) (calcular_proximo_miercoles E).
Proof. unfold calcular_proximo_miercoles, add_days. ro_tac; reflexivity. Qed.

Lemma ro_obtener (E : env) :
  raises_only (fun e => e = IndexError \/ e = ValueError \/ e = OverflowError)
    (obtener_hora_objetivo E).
Proof.
  unfold obtener_hora_objetivo, hora_override, hora_default, py_index, py_int,
    py_datetime, add_days.
  ro_tac; subst; auto;
    repeat match goal with H : _ \/ _ |- _ => destruct H as [H|H] end;
    first [discriminate | auto].
Qed.

Lemma ro_espera_gruesa (S : exn -> Prop) (E : env) (fuel : nat) (objetivo : datetime) :
  raises_only S (espera_gruesa E fuel objetivo).
Proof. induction fuel as [|fuel IH]; cbn [espera_gruesa]; ro_tac; exact IH. Qed.

Lemma ro_espera_fina (S : exn -> Prop) (E : env) (fuel : nat) (objetivo : datetime) :
  raises_only S (espera_fina E fuel objetivo).
Proof. induction fuel as [|fuel IH]; cbn [espera_fina]; ro_tac; exact IH. Qed.

Lemma ro_esperar_hasta (E : env) (fuel : nat) :
  raises_only (fun e => e = IndexError \/ e = ValueError \/ e = OverflowError \/
                        exists r, e = TooLongWait r /\ 300 * US < r)
    (esperar_hasta_hora_objetivo E fuel).
Proof.
  unfold esperar_hasta_hora_objetivo. apply ro_bind; [|intros objetivo].
  - eapply ro_weaken; [|apply ro_obtener]. intros e [H|[H|H]]; auto.
  - apply ro_bind; [ro_tac|intros ahora]. cbv zeta.
    destruct (_ <=? 0); [ro_tac|].
    destruct (300 * US <? _) eqn:Hlt.
    + apply ro_raise. right; right; right. eexists. split; [reflexivity|lia].
    + apply ro_bind; [apply ro_espera_gruesa|intros _]. apply ro_espera_fina.
Qed.

Lemma ro_esperar_turnos (E : env) (fuel : nat) (fecha_visita : datetime) :
  raises_only (fun e => e = NavigationFailed MAX_REINTENTOS_NAVEGACION \/ e = PlaywrightError)
    (esperar_turnos_disponibles E fuel fecha_visita).
Proof.
  unfold esperar_turnos_disponibles. apply ro_bind; [ro_tac|intros inicio].
  intros tr e He. exact (proj2 (poll_loop_result E inicio _ fuel tr) e He).
Qed.

Lemma ro_enviar_formulario (E : env) (fuel : nat) (fecha_visita : datetime) :
  raises_only (fun e => e = NavigationFailed MAX_REINTENTOS_NAVEGACION \/ e = PlaywrightError)
    (enviar_formulario_con_reintentos E fuel fecha_visita).
Proof. intros tr e He. exact (proj2 (enviar_formulario_result E fuel fecha_visita tr) e He). Qed.

Lemma ro_send_all (S : exn -> Prop) (E : env) (ds : list string) (exitos : Z) :
  raises_only S (send_all E ds exitos).
Proof. intros tr e. rewrite send_all_trace. discriminate. Qed.

Lemma ro_preparar (E : env) (fecha_visita : datetime) :
  raises_only (fun e => e = PlaywrightError) (preparar_formulario E fecha_visita).
Proof.
  intros tr e He. destruct (preparar_outcome E fecha_visita tr) as [H|H]; rewrite H in He;
    [discriminate He | injection He as <-; reflexivity].
Qed.

Section Effects.
Variable S : exn -> Prop.
Variable E : env.

Lemma ro_mkdir : S OSError -> raises_only S (mkdir E).
Proof.
  intros HS tr e. unfold mkdir. destruct (mkdir_ok E); [discriminate|].
  intros He. injection He as <-. exact HS.
Qed.

Lemma ro_launch : S PlaywrightError -> raises_only S (launch E).
Proof.
  intros HS tr e. unfold launch. destruct (launch_ok E); [discriminate|].
  intros He. injection He as <-. exact HS.
Qed.

Lemma ro_close : S PlaywrightError -> raises_only S (browser_close E).
Proof.
  intros HS tr e. unfold browser_close. destruct (close_ok E); [discriminate|].
  intros He. injection He as <-. exact HS.
Qed.

Lemma ro_read_file (p : string) : S OSError -> raises_only S (read_file E p).
Proof.
  intros HS tr e. unfold read_file. destruct (read_at E _); [discriminate|].
  intros He. injection He as <-. exact HS.
Qed.

Lemma ro_email (p fecha_str : string) : S OSError -> raises_only S (enviar_email E p fecha_str).
Proof.
  intros HS. unfold enviar_email.
  repeat (first [apply ro_send_all | apply (ro_read_file p HS) | ro_step]).
Qed.

(** The tail of [run]: the e-mail step can only let out the error of
    reading the file. *)
Lemma ro_exists_email {A} (p fecha_str : string) (a : A) :
  S OSError ->
  raises_only S
    (ex <- path_exists E p ;;
     (if ex then _ <- enviar_email E p fecha_str ;; ret tt else ret tt) ;;
     ret a).
Proof.
  intros HS. apply ro_bind; [ro_tac|intros ex].
  apply ro_bind; [|intros _; ro_tac].
  destruct ex; [apply ro_bind; [apply ro_email; exact HS|intros _; ro_tac] | ro_tac].
Qed.

End Effects.

End RaiseFacts.

(* ------------------------------------------------------------------ *)
(** ** What [run] leaves behind *)

Module RunFacts.
Import Cal DT Main Scenarios MainFacts Props EmitsFacts LoopFacts RaiseFacts.
Open Scope Z_scope.
Open Scope list_scope.

Ltac pick := cbv beta; repeat first [left; reflexivity | right].

Lemma ro_run (E : env) (fuel : nat) :
  raises_only (fun e => e = OverflowError \/ e = NavigationFailed MAX_REINTENTOS_NAVEGACION \/
                        e = PlaywrightError \/ e = OSError \/
                        (modo_test E = false /\
                         (e = IndexError \/ e = ValueError \/
                          exists r, e = TooLongWait r /\ 300 * US < r)))
    (run E fuel).
Proof.
  unfold run.
  apply ro_bind; [apply ro_mkdir; pick|intros _].
  apply ro_bind; [eapply ro_weaken; [|apply ro_calcular]; intros e ->; left; reflexivity
                 |intros fecha_visita].
  apply ro_bind.
  { destruct (modo_test E) eqn:Hm; [ro_tac|].
    eapply ro_weaken; [|apply ro_esperar_hasta].
    intros e [H|[H|[H|H]]]; [do 4 right; split; auto ..| left; exact H |].
    do 4 right; split; [reflexivity|auto]. }
  intros _.
  apply ro_bind; [apply ro_launch; pick|intros _].
  apply ro_bind; [eapply ro_weaken; [|apply ro_esperar_turnos]; intros e [-> | ->]; pick
                 |intros turnos_listos].
  destruct (negb turnos_listos).
  { apply ro_bind; [apply ro_close; pick|intros _; ro_tac]. }
  apply ro_bind; [eapply ro_weaken; [|apply ro_preparar]; intros e ->; pick|intros fecha_str].
  apply ro_bind; [eapply ro_weaken; [|apply ro_enviar_formulario]; intros e [-> | ->]; pick
                 |intros pdf_path].
  apply ro_bind; [apply ro_close; pick|intros _].
  destruct pdf_path as [p|]; [apply ro_exists_email; pick|ro_tac].
Qed.

Lemma bind_ret_snd {A B} (m : M A) (k : A -> M B) (tr : list event) (r : B) :
  fst (bind m k tr) = Ret r ->
  exists a tr', m tr = (Ret a, tr') /\ fst (k a tr') = Ret r /\
    snd (bind m k tr) = snd (k a tr').
Proof.
  unfold bind. destruct (m tr) as [[a|e|] tr']; simpl; intros H;
    [eauto | discriminate | discriminate].
Qed.

Lemma ext_of_emits {A} (P : event -> bool) (m : M A) (tr tr' : list event) (a : A) :
  emits P m -> m tr = (Ret a, tr') -> exists n, tr' = n ++ tr.
Proof.
  intros Hm H. destruct (Hm tr) as [n [Hn _]]. rewrite H in Hn. exists n. exact Hn.
Qed.

Lemma emits_any_send_all (E : env) (ds : list string) (exitos : Z) :
  emits any_event (send_all E ds exitos).
Proof.
  intros tr. rewrite send_all_trace. eexists. split; [reflexivity|].
  apply forallb_forall. reflexivity.
Qed.

Lemma emits_any_email (E : env) (p fecha_str : string) :
  emits any_event (enviar_email E p fecha_str).
Proof.
  unfold enviar_email. repeat (first [apply emits_any_send_all | emits_step]).
Qed.

Lemma emits_send_all_email (E : env) (ds : list string) (exitos : Z) :
  emits email_event (send_all E ds exitos).
Proof.
  intros tr. rewrite send_all_trace. eexists. split; [reflexivity|].
  apply forallb_forall. intros x Hx. apply in_rev in Hx. try rewrite rev_involutive in Hx.
  apply in_map_iff in Hx. destruct Hx as [d [<- _]]. reflexivity.
Qed.

Lemma emits_email (E : env) (p fecha_str : string) :
  emits email_event (enviar_email E p fecha_str).
Proof.
  unfold enviar_email. repeat (first [apply emits_send_all_email | emits_step]).
Qed.

Lemma emits_any_calcular (E : env) : emits any_event (calcular_proximo_miercoles E).
Proof. unfold calcular_proximo_miercoles. emits_tac. Qed.

Lemma emits_any_wait (E : env) (fuel : nat) :
  emits any_event (esperar_hasta_hora_objetivo E fuel).
Proof. apply emits_esperar_hasta; intros; reflexivity. Qed.

Lemma emits_any_turnos (E : env) (fuel : nat) (fecha_visita : datetime) :
  emits any_event (esperar_turnos_disponibles E fuel fecha_visita).
Proof. apply emits_esperar_turnos; intros; reflexivity. Qed.

Ltac peel H a t Hm :=
  let Hk := fresh "Hk" in let Hs := fresh "Hs" in
  destruct (bind_ret_snd _ _ _ _ H) as [a [t [Hm [Hk Hs]]]];
  rewrite Hs; clear H Hs; cbv beta in Hk; rename Hk into H.

Lemma run_pdf (E : env) (fuel : nat) (tr : list event) (p : string) :
  fst (run E fuel tr) = Ret (Some p) ->
  exists t rest mid,
    p = ("downloads/turno_" ++ fmt_stamp t ++ ".pdf")%string /\ forallb email_event rest = true /\
    snd (run E fuel tr) =
      rest ++ EExists p :: EClose :: ESaveAs p :: ENow :: EClick "Generar Turno" :: ENow ::
      mid ++ tr.
Proof.
  intros H. unfold run in *.
  peel H u0 t0 H0. unfold mkdir in H0. injection H0 as _ <-.
  peel H fecha_visita t1 H1.
  destruct (ext_of_emits _ _ _ _ _ (emits_any_calcular E) H1) as [n1 ->].
  peel H u2 t2 H2.
  assert (Hw : exists n, t2 = n ++ n1 ++ EMkdir :: tr).
  { destruct (modo_test E).
    - unfold ret in H2. injection H2 as _ <-. exists []. reflexivity.
    - exact (ext_of_emits _ _ _ _ _ (emits_any_wait E fuel) H2). }
  destruct Hw as [n2 ->]. clear H2.
  peel H u3 t3 H3. unfold launch in H3. injection H3 as _ <-.
  peel H turnos_listos t4 H4.
  destruct (ext_of_emits _ _ _ _ _ (emits_any_turnos E fuel fecha_visita) H4) as [n4 ->].
  destruct (negb turnos_listos).
  { peel H u5 t5 H5. unfold ret in H. cbn [fst] in H. discriminate H. }
  peel H fecha_str t5 H5.
  destruct (ext_of_emits _ _ _ _ _ (emits_any_preparar E fecha_visita) H5) as [n5 ->].
  peel H pdf_path t6 H6.
  peel H u7 t7 H7. unfold browser_close in H7. injection H7 as _ <-.
  destruct pdf_path as [p'|]; [|unfold ret in H; cbn [fst] in H; discriminate H].
  peel H existe t8 H8. unfold path_exists in H8. injection H8 as _ <-.
  peel H u9 t9 H9.
  assert (He : emits email_event
    (if existe then (_ <- enviar_email E p' fecha_str ;; ret tt) else ret tt))
    by (destruct existe; repeat (first [apply emits_email | emits_step])).
  destruct (He (EExists p' :: EClose :: t6)) as [n9 [Hn9 F9]].
  rewrite H9 in Hn9. cbn [snd] in Hn9. subst t9.
  unfold ret in H. cbn [fst] in H. injection H as ->. cbn [snd].
  destruct (proj1 (enviar_formulario_result E fuel fecha_visita (n5 ++ n4 ++ ELaunch :: n2 ++ n1 ++ EMkdir :: tr)) p)
    as [t [mid [Hp Hs]]]; [rewrite H6; reflexivity|].
  rewrite H6 in Hs. cbn [snd] in Hs. subst t6.
  exists t, n9, (mid ++ n5 ++ n4 ++ ELaunch :: n2 ++ n1 ++ [EMkdir]).
  split; [exact Hp|]. split; [exact F9|].
  repeat (first [rewrite <- List.app_assoc | progress cbn [app]]). reflexivity.
Qed.

Lemma emits_any_submit_loop (E : env) (inicio intento : Z) (fecha_visita : datetime)
    (fuel : nat) :
  emits any_event (submit_loop E fuel inicio intento fecha_visita).
Proof.
  revert intento. induction fuel as [|fuel IH]; intros intento; cbn [submit_loop];
    repeat (first [apply emits_any_attempt | apply emits_any_after_failure | apply IH
                  | emits_step]).
Qed.

Lemma emits_any_enviar_formulario (E : env) (fuel : nat) (fecha_visita : datetime) :
  emits any_event (enviar_formulario_con_reintentos E fuel fecha_visita).
Proof.
  unfold enviar_formulario_con_reintentos.
  repeat (first [apply emits_any_submit_loop | emits_step]).
Qed.

Lemma bind_step {A B} (m : M A) (k : A -> M B) (tr tr' : list event) (a : A) :
  m tr = (Ret a, tr') -> bind m k tr = k a tr'.
Proof. intros H. unfold bind. rewrite H. reflexivity. Qed.

Lemma bind_raise {A B} (m : M A) (k : A -> M B) (tr tr' : list event) (e : exn) :
  m tr = (Raise e, tr') -> bind m k tr = (Raise e, tr').
Proof. intros H. unfold bind. rewrite H. reflexivity. Qed.

Lemma run_test_mode (E : env) (fuel : nat) (tr : list event) :
  modo_test E = true ->
  (exists rest, snd (run E fuel tr) = rest ++ [ELaunch; ENow; EMkdir] ++ tr) \/
  run E fuel tr = (Raise OSError, [EMkdir] ++ tr) \/
  run E fuel tr = (Raise OverflowError, [ENow; EMkdir] ++ tr).
Proof.
  intros Hm. unfold run.
  destruct (mkdir_ok E) eqn:Hmk.
  2: { right; left. apply bind_raise. unfold mkdir. rewrite Hmk. reflexivity. }
  rewrite (bind_step (mkdir E) _ tr (EMkdir :: tr) tt)
    by (unfold mkdir; rewrite Hmk; reflexivity).
  destruct (calcular_proximo_miercoles E (EMkdir :: tr)) as [o t1] eqn:Hc.
  assert (Ht1 : t1 = ENow :: EMkdir :: tr).
  { unfold calcular_proximo_miercoles, bind, now, lift in Hc. cbv beta iota zeta in Hc.
    injection Hc as _ <-. reflexivity. }
  subst t1. destruct o as [fecha_visita|e|].
  - left. rewrite (bind_step _ _ _ _ _ Hc). cbv beta. rewrite Hm. cbv iota.
    rewrite (bind_step (ret tt) _ _ _ tt eq_refl).
    destruct (launch_ok E) eqn:Hl.
    2: { rewrite (bind_raise (launch E) _ _ (ELaunch :: ENow :: EMkdir :: tr) PlaywrightError)
           by (unfold launch; rewrite Hl; reflexivity).
         exists []. reflexivity. }
    rewrite (bind_step (launch E) _ _ (ELaunch :: ENow :: EMkdir :: tr) tt)
      by (unfold launch; rewrite Hl; reflexivity).
    match goal with |- context [snd (?K (ELaunch :: ?t))] =>
      assert (HK : emits any_event K)
    end.
    { repeat (first [apply emits_any_turnos | apply emits_any_preparar
                    | apply emits_any_enviar_formulario | apply emits_any_email
                    | emits_step]). }
    destruct (HK (ELaunch :: ENow :: EMkdir :: tr)) as [n [Hn _]].
    exists n. exact Hn.
  - right; right. rewrite (bind_raise _ _ _ _ _ Hc).
    assert (He : e = OverflowError) by (apply (ro_calcular E (EMkdir :: tr)); rewrite Hc; reflexivity).
    subst e. reflexivity.
  - exfalso. unfold calcular_proximo_miercoles, bind, now, lift, add_days in Hc.
    cbv beta iota zeta in Hc. destruct (_ && _); discriminate Hc.
Qed.

End RunFacts.

(* ------------------------------------------------------------------ *)
(** ** ISO dates compare as strings in date order *)

Module IsoFacts.
Import Cal DT Main Props.
Open Scope Z_scope.
Open Scope string_scope.

Ltac zarith := Z.div_mod_to_equations; lia.

Lemma length_append (s1 s2 : string) :
  String.length (s1 ++ s2) = (String.length s1 + String.length s2)%nat.
Proof. induction s1 as [|c s1 IH]; cbn; [reflexivity|now rewrite IH]. Qed.

Lemma str_cmp_app (x1 x2 y1 y2 : string) :
  String.length x1 = String.length y1 ->
  Py.str_cmp (x1 ++ x2) (y1 ++ y2) =
  match Py.str_cmp x1 y1 with Eq => Py.str_cmp x2 y2 | o => o end.
Proof.
  revert y1. induction x1 as [|c x1 IH]; intros [|d y1] H; cbn in H; try discriminate.
  - reflexivity.
  - cbn [String.append Py.str_cmp].
    destruct (N.compare _ _); [apply IH; congruence|reflexivity|reflexivity].
Qed.

Lemma pad_length (w : nat) (n : Z) : String.length (Py.pad w n) = w.
Proof.
  revert n. induction w as [|w IH]; intros n; cbn [Py.pad]; [reflexivity|].
  rewrite length_append, IH. cbn. lia.
Qed.

Lemma digit_cmp (i j : Z) :
  0 <= i < 10 -> 0 <= j < 10 ->
  Py.str_cmp (String (ascii_of_nat (48 + Z.to_nat i)) "")
             (String (ascii_of_nat (48 + Z.to_nat j)) "") = Z.compare i j.
Proof.
  intros Hi Hj.
  assert (i = 0 \/ i = 1 \/ i = 2 \/ i = 3 \/ i = 4 \/ i = 5 \/ i = 6 \/ i = 7 \/ i = 8 \/
          i = 9) as Ci by lia.
  assert (j = 0 \/ j = 1 \/ j = 2 \/ j = 3 \/ j = 4 \/ j = 5 \/ j = 6 \/ j = 7 \/ j = 8 \/
          j = 9) as Cj by lia.
  repeat destruct Ci as [->|Ci]; repeat destruct Cj as [->|Cj]; subst; reflexivity.
Qed.

Lemma cmp_div10 (a b : Z) :
  0 <= a -> 0 <= b ->
  Z.compare a b =
  match Z.compare (a / 10) (b / 10) with Eq => Z.compare (a mod 10) (b mod 10) | o => o end.
Proof.
  intros Ha Hb.
  pose proof (Z.div_mod a 10 ltac:(lia)). pose proof (Z.mod_pos_bound a 10 ltac:(lia)).
  pose proof (Z.div_mod b 10 ltac:(lia)). pose proof (Z.mod_pos_bound b 10 ltac:(lia)).
  destruct (Z.compare_spec (a / 10) (b / 10)) as [Hq|Hq|Hq].
  - destruct (Z.compare_spec (a mod 10) (b mod 10));
      [apply Z.compare_eq_iff | apply Z.compare_lt_iff | apply Z.compare_gt_iff]; lia.
  - apply Z.compare_lt_iff. lia.
  - apply Z.compare_gt_iff. lia.
Qed.

(** Zero-padded numbers of the same width compare as numbers. *)
Lemma pad_cmp (w : nat) (a b : Z) :
  0 <= a < 10 ^ Z.of_nat w -> 0 <= b < 10 ^ Z.of_nat w ->
  Py.str_cmp (Py.pad w a) (Py.pad w b) = Z.compare a b.
Proof.
  revert a b. induction w as [|w IH]; intros a b Ha Hb.
  - cbn in Ha, Hb. assert (a = 0) by lia. assert (b = 0) by lia. subst. reflexivity.
  - rewrite Nat2Z.inj_succ, Z.pow_succ_r in Ha, Hb by lia.
    cbn [Py.pad]. rewrite str_cmp_app by (rewrite !pad_length; reflexivity).
    rewrite IH by zarith. rewrite digit_cmp by (apply Z.mod_pos_bound; lia).
    symmetry. apply cmp_div10; lia.
Qed.


Lemma dash_cmp (x y : string) :
  Py.str_cmp ("-" ++ x) ("-" ++ y) = Py.str_cmp x y.
Proof. reflexivity. Qed.

(** From year 1000 on, [%Y] has four digits. *)
Lemma dec_pad4_range :
  forallb (fun k => String.eqb (Py.dec (1000 + Z.of_nat k)) (Py.pad 4 (1000 + Z.of_nat k)))
    (seq 0 (Z.to_nat 9000)) = true.
Proof. vm_compute. reflexivity. Qed.

Lemma fmt_Y_pad4 (y : Z) : 1000 <= y < 10000 -> fmt_Y y = Py.pad 4 y.
Proof.
  intros Hy. unfold fmt_Y.
  pose proof (proj1 (forallb_forall _ _) dec_pad4_range (Z.to_nat (y - 1000))) as H.
  cbv beta in H. rewrite Z2Nat.id in H by lia. replace (1000 + (y - 1000)) with y in H by lia.
  apply String.eqb_eq. apply H. apply in_seq. rewrite Z2Nat.inj_sub by lia. cbn. lia.
Qed.

Lemma fmt_ymd_dash_cmp (t u : datetime) :
  1000 <= year t < 10000 -> 0 <= month t < 100 -> 0 <= day t < 100 ->
  1000 <= year u < 10000 -> 0 <= month u < 100 -> 0 <= day u < 100 ->
  Py.str_cmp (fmt_ymd_dash t) (fmt_ymd_dash u) =
  lex3 (year t) (month t) (day t) (year u) (month u) (day u).
Proof.
  intros. unfold fmt_ymd_dash, lex3.
  rewrite (fmt_Y_pad4 (year t)), (fmt_Y_pad4 (year u)) by lia.
  rewrite str_cmp_app by (rewrite !pad_length; reflexivity).
  rewrite pad_cmp by (cbn; lia).
  destruct (Z.compare (year t) (year u)); try reflexivity.
  rewrite dash_cmp, str_cmp_app by (rewrite !pad_length; reflexivity).
  rewrite pad_cmp by (cbn; lia).
  destruct (Z.compare (month t) (month u)); try reflexivity.
  rewrite dash_cmp. apply pad_cmp; cbn; lia.
Qed.

Lemma dby_succ (y : Z) :
  days_before_year (y + 1) = days_before_year y + 365 + (if is_leap y then 1 else 0).
Proof.
  unfold days_before_year, is_leap. replace (y + 1 - 1) with y by lia.
  destruct (Z.eqb_spec (y mod 4) 0), (Z.eqb_spec (y mod 100) 0), (Z.eqb_spec (y mod 400) 0);
    cbn; zarith.
Qed.

Lemma dby_mono (a b : Z) : a <= b -> days_before_year a <= days_before_year b.
Proof. unfold days_before_year. intros. zarith. Qed.

Lemma month_cases (m : Z) :
  1 <= m <= 12 ->
  m = 1 \/ m = 2 \/ m = 3 \/ m = 4 \/ m = 5 \/ m = 6 \/ m = 7 \/ m = 8 \/ m = 9 \/
  m = 10 \/ m = 11 \/ m = 12.
Proof. lia. Qed.

(** Replaces the month-table lookups at a known month by their values. *)
Ltac idx_eval :=
  repeat match goal with
         | |- context [idx ?l ?k] =>
             let v := eval vm_compute in (idx l k) in change (idx l k) with v
         | H : context [idx ?l ?k] |- _ =>
             let v := eval vm_compute in (idx l k) in change (idx l k) with v in H
         | |- context [Z.eqb ?k 2] =>
             let v := eval vm_compute in (Z.eqb k 2) in change (Z.eqb k 2) with v
         | H : context [Z.eqb ?k 2] |- _ =>
             let v := eval vm_compute in (Z.eqb k 2) in change (Z.eqb k 2) with v in H
         | |- context [Z.gtb ?k 2] =>
             let v := eval vm_compute in (Z.gtb k 2) in change (Z.gtb k 2) with v
         | H : context [Z.gtb ?k 2] |- _ =>
             let v := eval vm_compute in (Z.gtb k 2) in change (Z.gtb k 2) with v in H
         end;
  cbn [andb] in *.

Lemma dim_le_31 (y m : Z) : 1 <= m <= 12 -> days_in_month y m <= 31.
Proof.
  intros Hm. unfold days_in_month.
  destruct (month_cases m Hm) as [->|[->|[->|[->|[->|[->|[->|[->|[->|[->|[->| ->]]]]]]]]]]];
    destruct (is_leap y); idx_eval; lia.
Qed.

(** A date lies inside its year. *)
Lemma year_span (y m d : Z) :
  1 <= m <= 12 -> 1 <= d <= days_in_month y m ->
  days_before_year y < ymd2ord y m d <= days_before_year (y + 1).
Proof.
  intros Hm Hd. rewrite dby_succ. unfold ymd2ord, days_before_month.
  unfold days_in_month in Hd.
  destruct (month_cases m Hm) as [->|[->|[->|[->|[->|[->|[->|[->|[->|[->|[->| ->]]]]]]]]]]];
    destruct (is_leap y); idx_eval; lia.
Qed.

(** Within a year, a later month starts after an earlier one ends. *)
Lemma month_span (y m m' d d' : Z) :
  1 <= m <= 12 -> 1 <= m' <= 12 -> m < m' ->
  1 <= d <= days_in_month y m -> 1 <= d' ->
  days_before_month y m + d < days_before_month y m' + d'.
Proof.
  intros Hm Hm' Hlt Hd Hd'. unfold days_before_month. unfold days_in_month in Hd.
  destruct (month_cases m Hm) as [->|[->|[->|[->|[->|[->|[->|[->|[->|[->|[->| ->]]]]]]]]]]];
  destruct (month_cases m' Hm') as [->|[->|[->|[->|[->|[->|[->|[->|[->|[->|[->| ->]]]]]]]]]]];
    destruct (is_leap y); idx_eval; lia.
Qed.

(** Ordinals of well-formed dates compare like the dates. *)
Lemma ymd2ord_cmp (y m d y' m' d' : Z) :
  1 <= m <= 12 -> 1 <= d <= days_in_month y m ->
  1 <= m' <= 12 -> 1 <= d' <= days_in_month y' m' ->
  Z.compare (ymd2ord y m d) (ymd2ord y' m' d') = lex3 y m d y' m' d'.
Proof.
  intros Hm Hd Hm' Hd'. unfold lex3.
  destruct (Z.compare_spec y y') as [<-|Hy|Hy].
  - destruct (Z.compare_spec m m') as [<-|Hmm|Hmm].
    + unfold ymd2ord. apply Z.add_compare_mono_l.
    + apply Z.compare_lt_iff. unfold ymd2ord.
      pose proof (month_span y m m' d d' Hm Hm' Hmm Hd ltac:(lia)). lia.
    + apply Z.compare_gt_iff. unfold ymd2ord.
      pose proof (month_span y m' m d' d Hm' Hm Hmm Hd' ltac:(lia)). lia.
  - apply Z.compare_lt_iff.
    pose proof (year_span y m d Hm Hd). pose proof (year_span y' m' d' Hm' Hd').
    pose proof (dby_mono (y + 1) y' ltac:(lia)). lia.
  - apply Z.compare_gt_iff.
    pose proof (year_span y m d Hm Hd). pose proof (year_span y' m' d' Hm' Hd').
    pose proof (dby_mono (y' + 1) y ltac:(lia)). lia.
Qed.

Lemma date_fields (t : datetime) :
  valid t ->
  1 <= year t <= MAXYEAR /\ 1 <= month t <= 12 /\ 1 <= day t <= days_in_month (year t) (month t) /\
  ymd2ord (year t) (month t) (day t) = ord t.
Proof.
  intros [[Ho1 Ho2] _]. unfold year, month, day.
  pose proof (CalFacts.ord2ymd_spec (ord t) Ho1) as Hs.
  destruct (ord2ymd (ord t)) as [[y m] d]. destruct Hs as [Hy [Hm [Hd [Ho Hmax]]]].
  specialize (Hmax Ho2). repeat split; lia.
Qed.

(** For dates of years 1000 to 9999, the [max] check of the polling
    loop compares the dates themselves. *)
Lemma fecha_permitida_iso_lemma (m f : datetime) :
  valid m -> valid f -> 1000 <= year m -> 1000 <= year f ->
  fecha_permitida (Some (fmt_ymd_dash m)) (fmt_ymd_dash f) = (ord f <=? ord m)%Z.
Proof.
  intros Hm Hf Ym Yf.
  destruct (date_fields m Hm) as [Hy [Hmo [Hd Ho]]].
  destruct (date_fields f Hf) as [Hy' [Hmo' [Hd' Ho']]].
  pose proof (dim_le_31 (year m) (month m) Hmo). pose proof (dim_le_31 (year f) (month f) Hmo').
  unfold MAXYEAR in *.
  unfold fecha_permitida, Py.str_ge. rewrite fmt_ymd_dash_cmp by lia.
  rewrite <- ymd2ord_cmp by lia. rewrite Ho, Ho'.
  destruct (Z.compare_spec (ord m) (ord f)).
  - symmetry. apply Z.leb_le. lia.
  - symmetry. apply Z.leb_gt. lia.
  - symmetry. apply Z.leb_le. lia.
Qed.

End IsoFacts.

(* ------------------------------------------------------------------ *)
(** ** Further properties of the script *)

Module Extras.
Import Cal DT Main Scenarios MainFacts Props EmitsFacts LoopFacts RaiseFacts RunFacts IsoFacts.
Open Scope Z_scope.
Open Scope list_scope.

(** [navegar_con_reintentos] never returns [False]: with
    [max_reintentos >= 1], whatever the page does, it returns [True]
    after between 1 and [max_reintentos] loads, or raises
    [NavigationFailed max_reintentos] after exactly [max_reintentos]
    loads. *)
Theorem navegar_con_reintentos_resultado (E : env) (url : string) (max_reintentos : Z)
    (tr : list event) :
  1 <= max_reintentos ->
  exists new,
    (navegar_con_reintentos E url max_reintentos tr = (Ret (Some true), new ++ tr) \/
     (navegar_con_reintentos E url max_reintentos tr =
        (Raise (NavigationFailed max_reintentos), new ++ tr) /\
      count is_goto new = Z.to_nat max_reintentos)) /\
    (1 <= count is_goto new <= Z.to_nat max_reintentos)%nat.
Proof.
  intros H. unfold navegar_con_reintentos. apply nav_loop_any; lia.
Qed.

Lemma navegar_con_reintentos_resultado_witness :
  exists new,
    (navegar_con_reintentos (env_loads 9) URL 3 [] = (Ret (Some true), new ++ []) \/
     (navegar_con_reintentos (env_loads 9) URL 3 [] =
        (Raise (NavigationFailed 3), new ++ []) /\ count is_goto new = Z.to_nat 3)) /\
    (1 <= count is_goto new <= Z.to_nat 3)%nat.
Proof. apply navegar_con_reintentos_resultado. lia. Defined.

(** [esperar_hasta_hora_objetivo] only reads the clock, prints and
    calls [time.sleep] for 5 s, 0.5 s or 10 ms: it never touches the
    browser and never uses [asyncio.sleep]. *)
Theorem esperar_hasta_hora_objetivo_eventos (E : env) (fuel : nat) :
  emits wait_event (esperar_hasta_hora_objetivo E fuel).
Proof. apply emits_esperar_hasta; reflexivity. Qed.

(** [esperar_turnos_disponibles] only loads [URL], waits for the
    [select] control and for timeouts, selects the unit, reads the
    [max] attribute, reads the clock and sleeps: whatever the page
    does, it never fills a field, clicks, saves, takes a screenshot or
    sends mail. *)
Theorem esperar_turnos_disponibles_eventos (E : env) (fuel : nat) (fecha_visita : datetime) :
  emits poll_event (esperar_turnos_disponibles E fuel fecha_visita).
Proof. apply emits_esperar_turnos; reflexivity. Qed.

(** [cargar_pagina_y_seleccionar_unidad] selects the unit only on a
    loaded page: either navigation raises [NavigationFailed 5] after
    five loads and nothing else is done, or navigation succeeds and then
    the wait of 1 s, the selection of [DATOS["unidad"]] in the first
    [select] and the wait of 0.5 s are made in this order; the first of
    these three page calls that fails raises the Playwright error and
    nothing after it is done. *)
Theorem cargar_pagina_y_seleccionar_unidad_casos (E : env) (tr : list event) :
  let n := count is_ui tr in
  exists nav, forallb (nav_event URL) nav = true /\
   ((navegar_con_reintentos E URL MAX_REINTENTOS_NAVEGACION tr = (Ret (Some true), nav ++ tr) /\
     cargar_pagina_y_seleccionar_unidad E tr =
       (if ui_ok E n then
          if ui_ok E (S n) then
            if ui_ok E (S (S n)) then
              (Ret tt, [EWaitTimeout 500; ESelectOption 0 DATOS_unidad; EWaitTimeout 1000] ++ nav ++ tr)
            else (Raise PlaywrightError,
                  [EWaitTimeout 500; ESelectOption 0 DATOS_unidad; EWaitTimeout 1000] ++ nav ++ tr)
          else (Raise PlaywrightError, [ESelectOption 0 DATOS_unidad; EWaitTimeout 1000] ++ nav ++ tr)
        else (Raise PlaywrightError, [EWaitTimeout 1000] ++ nav ++ tr))) \/
    (navegar_con_reintentos E URL MAX_REINTENTOS_NAVEGACION tr =
       (Raise (NavigationFailed MAX_REINTENTOS_NAVEGACION), nav ++ tr) /\
     cargar_pagina_y_seleccionar_unidad E tr =
       (Raise (NavigationFailed MAX_REINTENTOS_NAVEGACION), nav ++ tr) /\
     count is_goto nav = 5%nat)).
Proof. apply cargar_cases. Qed.

(** [esperar_turnos_disponibles] returns [False] only after a clock
    reading at least [MAX_ESPERA_TURNOS] (300 s) past its start, and
    the only exceptions it lets out are the navigation failure after
    [MAX_REINTENTOS_NAVEGACION] loads and the Playwright error of a
    failed page call (wait, selection or [get_attribute]). *)
Theorem esperar_turnos_disponibles_resultado (E : env) (fuel : nat) (fecha_visita : datetime)
    (tr : list event) :
  let inicio := time_at E (count is_time tr) in
  (fst (esperar_turnos_disponibles E fuel fecha_visita tr) = Ret false ->
   exists k, (count is_time tr < k <
              count is_time (snd (esperar_turnos_disponibles E fuel fecha_visita tr)))%nat /\
     MAX_ESPERA_TURNOS * US <= time_at E k - inicio) /\
  (forall e, fst (esperar_turnos_disponibles E fuel fecha_visita tr) = Raise e ->
   e = NavigationFailed MAX_REINTENTOS_NAVEGACION \/ e = PlaywrightError).
Proof.
  cbv zeta. unfold esperar_turnos_disponibles, bind at 1 2, time_time. cbv beta iota.
  destruct (poll_loop_result E (time_at E (count is_time tr)) (fmt_ymd_dash fecha_visita)
              fuel (ETime :: tr)) as [H1 H2].
  split; [|exact H2].
  intros Hf. destruct (H1 Hf) as [k [Hk Hle]]. exists k.
  rewrite count_cons in Hk. cbn [is_time] in Hk. split; [lia|exact Hle].
Qed.


(** [send_all] (the loop over the recipients in [enviar_email]) makes
    one send attempt per recipient, in order, never raises, and returns
    the initial count plus the number of sends that succeeded. *)
Theorem send_all_resultado (E : env) (destinatarios : list string) (exitos : Z)
    (tr : list event) :
  send_all E destinatarios exitos tr =
    (Ret (exitos + sent_ok E (count is_send tr) (List.length destinatarios)),
     rev (map ESend destinatarios) ++ tr).
Proof. apply send_all_trace. Qed.

(** With [RESEND_API_KEY] and [EMAIL_DESTINATARIO] set and non-empty,
    [enviar_email] reads the PDF first: if [open] or [read] fails the
    [OSError] escapes before any mail is sent; otherwise it sends once
    to each element of [EMAIL_DESTINATARIO.split(",")], stripped, and
    returns whether at least one send succeeded. *)
Theorem enviar_email_configurado (E : env) (k dest pdf_path fecha_visita : string)
    (tr : list event) :
  resend_api_key E = Some k -> k <> ""%string ->
  email_destinatario E = Some dest -> dest <> ""%string ->
  let ds := map Py.strip (Py.split "," dest) in
  (read_at E (count is_read tr) = None ->
   enviar_email E pdf_path fecha_visita tr = (Raise OSError, EReadFile pdf_path :: tr)) /\
  (forall c, read_at E (count is_read tr) = Some c ->
   enviar_email E pdf_path fecha_visita tr =
     (Ret (0 <? sent_ok E (count is_send tr) (List.length ds)),
      rev (map ESend ds) ++ EReadFile pdf_path :: tr)).
Proof.
  intros Hk Hk0 Hd Hd0. cbv zeta. unfold enviar_email. rewrite Hk, Hd.
  unfold Py.truthy. apply String.eqb_neq in Hk0, Hd0. rewrite Hk0, Hd0. cbn [negb].
  split.
  - intros Hf. unfold bind, read_file. rewrite Hf. reflexivity.
  - intros c Hf. unfold bind, read_file. rewrite Hf. cbv beta iota.
    rewrite send_all_trace. unfold ret. reflexivity.
Qed.

Lemma enviar_email_configurado_witness :
  enviar_email env_mail "downloads/turno.pdf" "25/02/2026" [] =
    (Ret true, [ESend "b@example.com"; ESend "a@example.com";
                EReadFile "downloads/turno.pdf"]).
Proof.
  destruct (enviar_email_configurado env_mail "re_123" "a@example.com, b@example.com"
              "downloads/turno.pdf" "25/02/2026" [] eq_refl ltac:(discriminate)
              eq_refl ltac:(discriminate)) as [_ H].
  rewrite (H "%PDF"%string eq_refl). vm_compute. reflexivity.
Defined.

(** The coarse wait of [esperar_hasta_hora_objetivo] ends at the first
    clock reading with at most 2 s left to the target: every earlier
    reading of the loop had more than 2 s left, and the loop reads the
    clock once per pass. *)
Theorem espera_gruesa_primera_lectura (E : env) (objetivo : datetime) (fuel : nat)
    (tr : list event) :
  fst (espera_gruesa E fuel objetivo tr) = Ret tt ->
  exists n,
    count is_now (snd (espera_gruesa E fuel objetivo tr)) = (count is_now tr + S n)%nat /\
    (forall j, (j < n)%nat ->
       2 * US < remaining_us objetivo (now_at E (count is_now tr + j))) /\
    remaining_us objetivo (now_at E (count is_now tr + n)) <= 2 * US.
Proof. apply espera_gruesa_stop. Qed.

Lemma espera_gruesa_primera_lectura_witness :
  fst (espera_gruesa env_exact_ceiling 10 (at_ymd 2026 2 18 0 0 1) []) = Ret tt /\
  exists n,
    count is_now (snd (espera_gruesa env_exact_ceiling 10 (at_ymd 2026 2 18 0 0 1) [])) =
      (count is_now [] + S n)%nat /\
    (forall j, (j < n)%nat ->
       2 * US < remaining_us (at_ymd 2026 2 18 0 0 1)
                  (now_at env_exact_ceiling (count is_now [] + j))) /\
    remaining_us (at_ymd 2026 2 18 0 0 1) (now_at env_exact_ceiling (count is_now [] + n))
      <= 2 * US.
Proof.
  split; [vm_compute; reflexivity|].
  apply espera_gruesa_primera_lectura. vm_compute. reflexivity.
Defined.

(** The fine wait of [esperar_hasta_hora_objetivo] ends at the first
    clock reading at or past the target: every earlier reading of the
    loop was before it. *)
Theorem espera_fina_primera_lectura (E : env) (objetivo : datetime) (fuel : nat)
    (tr : list event) :
  fst (espera_fina E fuel objetivo tr) = Ret tt ->
  exists n,
    count is_now (snd (espera_fina E fuel objetivo tr)) = (count is_now tr + S n)%nat /\
    (forall j, (j < n)%nat -> le objetivo (now_at E (count is_now tr + j)) = false) /\
    le objetivo (now_at E (count is_now tr + n)) = true.
Proof. apply espera_fina_stop. Qed.

Lemma espera_fina_primera_lectura_witness :
  fst (espera_fina env_exact_ceiling 10 (at_ymd 2026 2 18 0 0 1) []) = Ret tt /\
  exists n,
    count is_now (snd (espera_fina env_exact_ceiling 10 (at_ymd 2026 2 18 0 0 1) [])) =
      (count is_now [] + S n)%nat /\
    (forall j, (j < n)%nat ->
       le (at_ymd 2026 2 18 0 0 1) (now_at env_exact_ceiling (count is_now [] + j)) = false) /\
    le (at_ymd 2026 2 18 0 0 1) (now_at env_exact_ceiling (count is_now [] + n)) = true.
Proof.
  split; [vm_compute; reflexivity|].
  apply espera_fina_primera_lectura. vm_compute. reflexivity.
Defined.

(** The only exceptions that escape [run] are [OverflowError] (the
    next Wednesday or the target day past year 9999), the navigation
    failure after [MAX_REINTENTOS_NAVEGACION] loads, the Playwright
    error (launch or close of the browser, a failed page call outside
    the submission [try]), [OSError] (creating the downloads folder or
    reading the PDF for the e-mail) and, in production mode only, the
    errors of [esperar_hasta_hora_objetivo]: [IndexError] or
    [ValueError] from [HORA_OBJETIVO] and the too-long-wait error for
    more than 300 s. A failed e-mail send never aborts [run]. *)
Theorem run_excepciones (E : env) (fuel : nat) :
  raises_only (fun e => e = OverflowError \/ e = NavigationFailed MAX_REINTENTOS_NAVEGACION \/
                        e = PlaywrightError \/ e = OSError \/
                        (modo_test E = false /\
                         (e = IndexError \/ e = ValueError \/
                          exists r, e = TooLongWait r /\ 300 * US < r)))
    (run E fuel).
Proof. apply ro_run. Qed.

(** When [run] returns a path, the PDF was saved there as
    [downloads/turno_<timestamp>.pdf] right after the click on "Generar
    Turno", the browser was closed next, and the existence of the file
    was checked after that; only events of the e-mail step (prints, the
    read of the file, sends) follow. *)
Theorem run_devuelve_pdf (E : env) (fuel : nat) (tr : list event) (p : string) :
  fst (run E fuel tr) = Ret (Some p) ->
  exists t rest mid,
    p = ("downloads/turno_" ++ fmt_stamp t ++ ".pdf")%string /\ forallb email_event rest = true /\
    snd (run E fuel tr) =
      rest ++ EExists p :: EClose :: ESaveAs p :: ENow :: EClick "Generar Turno" :: ENow ::
      mid ++ tr.
Proof. apply run_pdf. Qed.

Lemma run_devuelve_pdf_witness :
  fst (run env_mail 5 []) = Ret (Some "downloads/turno_20260216_100000.pdf"%string) /\
  exists t rest mid,
    "downloads/turno_20260216_100000.pdf"%string =
      ("downloads/turno_" ++ fmt_stamp t ++ ".pdf")%string /\ forallb email_event rest = true /\
    snd (run env_mail 5 []) =
      rest ++ EExists "downloads/turno_20260216_100000.pdf" :: EClose ::
      ESaveAs "downloads/turno_20260216_100000.pdf" :: ENow :: EClick "Generar Turno" ::
      ENow :: mid ++ [].
Proof.
  split; [vm_compute; reflexivity|].
  apply run_devuelve_pdf. vm_compute. reflexivity.
Defined.

(** With [MODO_TEST] set, [run] creates the downloads folder, computes
    the visit date and launches the browser right away: no target time
    is read and nothing is slept before the launch. The only ways it
    stops before launching are [OSError] from creating the folder and
    [OverflowError] from the date. *)
Theorem run_modo_test (E : env) (fuel : nat) (tr : list event) :
  modo_test E = true ->
  (exists rest, snd (run E fuel tr) = rest ++ [ELaunch; ENow; EMkdir] ++ tr) \/
  run E fuel tr = (Raise OSError, [EMkdir] ++ tr) \/
  run E fuel tr = (Raise OverflowError, [ENow; EMkdir] ++ tr).
Proof. apply run_test_mode. Qed.

Lemma run_modo_test_witness :
  modo_test env_mail = true /\
  ((exists rest, snd (run env_mail 5 []) = rest ++ [ELaunch; ENow; EMkdir] ++ []) \/
   run env_mail 5 [] = (Raise OSError, [EMkdir] ++ []) \/
   run env_mail 5 [] = (Raise OverflowError, [ENow; EMkdir] ++ [])).
Proof. split; [reflexivity|]. apply run_modo_test. reflexivity. Defined.

(** The date check of the polling loop of [esperar_turnos_disponibles]
    ([max_attr >= fecha_objetivo] on strings) follows the calendar: when
    the [max] attribute and the target are both written "%Y-%m-%d" from
    well-formed dates of years 1000 or later, the check passes exactly
    when the target day is not after the [max] day. *)
Theorem fecha_permitida_iso (m f : datetime) :
  valid m -> valid f -> 1000 <= year m -> 1000 <= year f ->
  fecha_permitida (Some (fmt_ymd_dash m)) (fmt_ymd_dash f) = (ord f <=? ord m).
Proof. apply fecha_permitida_iso_lemma. Qed.

Lemma fecha_permitida_iso_witness :
  fecha_permitida (Some (fmt_ymd_dash (at_ymd 2026 2 25 0 0 0)))
    (fmt_ymd_dash (at_ymd 2026 3 4 10 0 0)) = false.
Proof.
  rewrite (fecha_permitida_iso (at_ymd 2026 2 25 0 0 0) (at_ymd 2026 3 4 10 0 0)).
  - vm_compute. reflexivity.
  - unfold valid, MAXORDINAL. vm_compute. intuition discriminate.
  - unfold valid, MAXORDINAL. vm_compute. intuition discriminate.
  - vm_compute. discriminate.
  - vm_compute. discriminate.
Defined.

(** When the [HORA_OBJETIVO] override of [obtener_hora_objetivo] parses,
    the target it gives is a well-formed instant with no microseconds,
    strictly after now and at most 24 hours after now: today at the
    given time, or tomorrow when that time is already past. *)
Theorem hora_override_ventana (s : string) (ahora r : datetime) :
  valid ahora ->
  fst (hora_override s ahora []) = Ret r ->
  valid r /\ microsecond r = 0 /\
  to_us ahora < to_us r <= to_us ahora + 86400 * US.
Proof.
  intros Hv Hr. pose proof Hv as Hv'. destruct Hv' as [[Ho1 Ho2] [Hh [Hmi [Hs Hus]]]].
  unfold hora_override in Hr.
  do 5 (apply bind_ret_inv in Hr; destruct Hr as [? [? [_ Hr]]]).
  apply bind_ret_inv in Hr. destruct Hr as [o [tr' [Ho Hr]]].
  unfold lift in Ho. destruct (py_datetime _ _ _ _ _ _) eqn:Hpd; try discriminate.
  injection Ho as -> _.
  pose proof Hpd as Hpd0.
  apply py_datetime_ret in Hpd. destruct Hpd as [_ [Hh' [Hm' Hs'']]].
  rewrite (py_datetime_today ahora _ _ _ Hv Hh' Hm' Hs'') in Hpd0.
  injection Hpd0 as <-.
  cbv beta in Hr. unfold le in Hr.
  match type of Hr with context [to_us ?x <=? to_us ahora] =>
    destruct (to_us x <=? to_us ahora) eqn:Hle end.
  - apply Z.leb_le in Hle.
    unfold lift, add_days in Hr. simpl in Hr.
    destruct ((1 <=? ord ahora + 1) && (ord ahora + 1 <=? MAXORDINAL)) eqn:Hb;
      simpl in Hr; [|discriminate].
    apply andb_true_iff in Hb. destruct Hb as [Hb1 Hb2]. apply Z.leb_le in Hb1, Hb2.
    injection Hr as <-. unfold valid, to_us, US in *. simpl in *. lia.
  - apply Z.leb_gt in Hle.
    unfold ret in Hr. simpl in Hr. injection Hr as <-.
    unfold valid, to_us, US in *. simpl in *. lia.
Qed.

Lemma hora_override_ventana_witness :
  fst (hora_override " 09:30 " (at_ymd 2026 2 16 10 0 0) []) =
    Ret (mkDT (ymd2ord 2026 2 17) 9 30 0 0) /\
  valid (mkDT (ymd2ord 2026 2 17) 9 30 0 0) /\
  microsecond (mkDT (ymd2ord 2026 2 17) 9 30 0 0) = 0 /\
  to_us (at_ymd 2026 2 16 10 0 0) < to_us (mkDT (ymd2ord 2026 2 17) 9 30 0 0)
    <= to_us (at_ymd 2026 2 16 10 0 0) + 86400 * US.
Proof.
  assert (Hr : fst (hora_override " 09:30 " (at_ymd 2026 2 16 10 0 0) []) =
                 Ret (mkDT (ymd2ord 2026 2 17) 9 30 0 0)) by (vm_compute; reflexivity).
  split; [exact Hr|].
  apply (hora_override_ventana " 09:30 " (at_ymd 2026 2 16 10 0 0)); [|exact Hr].
  unfold valid, MAXORDINAL. vm_compute. intuition discriminate.
Defined.

End Extras.

